(** * Registration and admin-approval bot: the workflow of [src/main.py]

    A shallow embedding of the four update handlers of the bot
    ([start], [button_handler], [handle_photo], [handle_text]) together
    with the two Postgres tables, the in-memory [user_state] dictionary
    and the calls made to the Telegram Bot API, followed by the theorems
    that settle the specification's claims about them.

    Modelling conventions.
    - A Python [str] is a [string] holding the UTF-8 form of its code
      points, so that the literal texts of the bot are kept as they are
      in the source.  [strip], [splitlines] and [int] follow CPython on
      every well-formed text: the white space, the line boundaries and
      the decimal digits beyond ASCII are recognised from the tables of
      Unicode 14, the version of CPython 3.11.  The limit that CPython
      puts on the number of digits read by [int] (4300 by default) is
      not modelled.
    - Integers ([chat_id], payment ids) are [Z], taken to be within the
      range of their columns; timestamps are [Z] read from a clock
      oracle.
    - The tables are lists of rows in insertion order.  The connection is
      taken to be up; a statement raises when Postgres would refuse it (a
      second row for a primary key) and when the driver refuses one of
      its parameters (a text with the character NUL, which psycopg
      rejects before anything is sent).
    - The connection is opened with [autocommit=False].  The world keeps
      the tables as the connection sees them ([db]) and as they were at
      the last [commit] ([durable]); [commit] makes the second equal to
      the first.
    - Every awaited Bot API call consults a delivery oracle and either is
      appended to the [outbox] or raises, as a network failure would.
    - Updates are new messages and button presses; line 272 of the source
      (a list comprehension with a misplaced bracket) is read as the
      comprehension it was meant to be.  The [/adminstats] command, which
      only reads, is embedded on its own, with the rendering of a date
      as a parameter; it is not among the updates of [handle]. *)

From Stdlib Require Import ZArith NArith String Ascii List Bool Lia.
From Stdlib Require Import DecimalString DecimalZ Sorted.
From stdpp Require Import base option gmap.
Import ListNotations.
Local Open Scope string_scope.
Local Open Scope Z_scope.

(** ** Python strings *)

Module PyStr.

(** [s.startswith(p)] *)
Definition startswith (s p : string) : bool := String.prefix p s.

(** *** Characters beyond ASCII

    A [str] is a sequence of code points, held here in its UTF-8 form.
    A character is recognised at a character boundary by the bytes of
    its UTF-8 form, which no other character's form begins or ends. *)

(** The UTF-8 form of a code point. *)
Definition utf8 (c : N) : string :=
  (if c <? 128 then String (ascii_of_N c) ""
   else if c <? 2048 then
     String (ascii_of_N (192 + c / 64)) (String (ascii_of_N (128 + c mod 64)) "")
   else if c <? 65536 then
     String (ascii_of_N (224 + c / 4096))
       (String (ascii_of_N (128 + (c / 64) mod 64))
          (String (ascii_of_N (128 + c mod 64)) ""))
   else
     String (ascii_of_N (240 + c / 262144))
       (String (ascii_of_N (128 + (c / 4096) mod 64))
          (String (ascii_of_N (128 + (c / 64) mod 64))
             (String (ascii_of_N (128 + c mod 64)) ""))))%N.

(** The code points for which [str.isspace] holds: the characters that
    [str.strip()] removes. *)
Definition space_points : list N :=
  [ 9; 10; 11; 12; 13; 28; 29; 30; 31; 32; 0x85; 0xA0; 0x1680;
    0x2000; 0x2001; 0x2002; 0x2003; 0x2004; 0x2005; 0x2006; 0x2007; 0x2008; 0x2009;
    0x200A; 0x2028; 0x2029; 0x202F; 0x205F; 0x3000 ]%N.

(** The line boundaries of [str.splitlines()], besides the pair CR LF. *)
Definition break_points : list N :=
  [ 10; 11; 12; 13; 28; 29; 30; 0x85; 0x2028; 0x2029 ]%N.

(** The decimal digits that [int()] reads come in runs of ten, zero to
    nine; these are the zeros of the runs (Unicode 14, as CPython 3.11
    has it). *)
Definition zero_points : list N :=
  [ 0x30; 0x660; 0x6F0; 0x7C0; 0x966; 0x9E6; 0xA66; 0xAE6; 0xB66; 0xBE6; 0xC66; 0xCE6;
    0xD66; 0xDE6; 0xE50; 0xED0; 0xF20; 0x1040; 0x1090; 0x17E0; 0x1810; 0x1946; 0x19D0;
    0x1A80; 0x1A90; 0x1B50; 0x1BB0; 0x1C40; 0x1C50; 0xA620; 0xA8D0; 0xA900; 0xA9D0;
    0xA9F0; 0xAA50; 0xABF0; 0xFF10; 0x104A0; 0x10D30; 0x11066; 0x110F0; 0x11136;
    0x111D0; 0x112F0; 0x11450; 0x114D0; 0x11650; 0x116C0; 0x11730; 0x118E0; 0x11950;
    0x11C50; 0x11D50; 0x11DA0; 0x16A60; 0x16AC0; 0x16B50; 0x1D7CE; 0x1D7D8; 0x1D7E2;
    0x1D7EC; 0x1D7F6; 0x1E140; 0x1E2F0; 0x1E950; 0x1FBF0 ]%N.

Definition whitespace : list string := Eval vm_compute in List.map utf8 space_points.
Definition linebreaks : list string := Eval vm_compute in List.map utf8 break_points.

(** Every decimal digit with the ASCII digit of the same value. *)
Definition decimals : list (string * ascii) :=
  Eval vm_compute in
    List.flat_map
      (fun z => List.map (fun d => (utf8 (z + d), ascii_of_N (48 + d)))
                         [0; 1; 2; 3; 4; 5; 6; 7; 8; 9]%N)
      zero_points.

(** The length in bytes of the character of [ps] that [s] starts with;
    0 when it starts with none. *)
Definition head_len (ps : list string) (s : string) : nat :=
  match List.find (fun p => String.prefix p s) ps with
  | Some p => String.length p
  | None => O
  end.

(** [s.lstrip()]; [skip] counts the bytes of a white-space character
    still to be passed over. *)
Fixpoint lstrip_go (skip : nat) (s : string) : string :=
  match s with
  | EmptyString => EmptyString
  | String _ s' =>
      match skip with
      | S k => lstrip_go k s'
      | O => match head_len whitespace s with
             | O => s
             | S k => lstrip_go k s'
             end
      end
  end.

Definition lstrip (s : string) : string := lstrip_go O s.

(** [s.rstrip()]: [s] without its longest tail of white space. *)
Fixpoint rstrip (s : string) : string :=
  match s with
  | EmptyString => EmptyString
  | String c s' =>
      match lstrip s with
      | EmptyString => EmptyString
      | _ => String c (rstrip s')
      end
  end.

(** [s.strip()] *)
Definition strip (s : string) : string := rstrip (lstrip s).

(** Truth value of a string: empty is false. *)
Definition nonempty (s : string) : bool :=
  match s with EmptyString => false | _ => true end.

(** [s.split(sep)] for a non-empty separator: the pieces between the
    successive occurrences of [sep], scanning from the left.  [skip]
    counts the characters of an occurrence still to be passed over. *)
Fixpoint split_go (sep : string) (skip : nat) (s : string) : list string :=
  match s with
  | EmptyString => [EmptyString]
  | String c s' =>
      match skip with
      | S k => split_go sep k s'
      | O =>
          if String.prefix sep s
          then EmptyString :: split_go sep (Nat.pred (String.length sep)) s'
          else match split_go sep O s' with
               | p :: ps => String c p :: ps
               | [] => [String c EmptyString]
               end
      end
  end.

Definition split (s sep : string) : list string := split_go sep O s.

(** The length in bytes of the line boundary that [s] starts with. *)
Definition break_len (s : string) : nat :=
  if String.prefix (String "013" (String "010" EmptyString)) s then 2%nat
  else head_len linebreaks s.

(** [s.splitlines()]; [skip] counts the bytes of a boundary still to be
    passed over. *)
Fixpoint splitlines_go (skip : nat) (s : string) : list string :=
  match s with
  | EmptyString => []
  | String c s' =>
      match skip with
      | S k => splitlines_go k s'
      | O =>
          match break_len s with
          | S k => EmptyString :: splitlines_go k s'
          | O => match splitlines_go O s' with
                 | l :: ls => String c l :: ls
                 | [] => [String c EmptyString]
                 end
          end
      end
  end.

Definition splitlines (s : string) : list string := splitlines_go O s.

(** [str(n)] for an integer. *)
Definition of_int (n : Z) : string := NilZero.string_of_int (Z.to_int n).

(** *** [int(s)]

    CPython first rewrites the string to ASCII: characters below 127
    stay, white space becomes a blank, a decimal digit becomes the ASCII
    digit of its value, and any other character makes the conversion
    fail.  The ASCII text is then read: blanks around, an optional sign,
    digits with single underscores between them. *)

(** The white space of the ASCII reader ([Py_ISSPACE]). *)
Definition int_isspace (c : ascii) : bool :=
  let n := nat_of_ascii c in
  ((9 <=? n) && (n <=? 13) || (n =? 32))%nat.

Fixpoint lstrip_by (sp : ascii -> bool) (s : string) : string :=
  match s with
  | EmptyString => EmptyString
  | String c s' => if sp c then lstrip_by sp s' else s
  end.

Fixpoint rstrip_by (sp : ascii -> bool) (s : string) : string :=
  match s with
  | EmptyString => EmptyString
  | String c s' =>
      match rstrip_by sp s' with
      | EmptyString => if sp c then EmptyString else String c EmptyString
      | r => String c r
      end
  end.

Definition strip_by (sp : ascii -> bool) (s : string) : string :=
  rstrip_by sp (lstrip_by sp s).

Fixpoint to_ascii_go (skip : nat) (s : string) : option string :=
  match s with
  | EmptyString => Some EmptyString
  | String c s' =>
      match skip with
      | S k => to_ascii_go k s'
      | O =>
          if (nat_of_ascii c <? 127)%nat
          then option_map (String c) (to_ascii_go O s')
          else
            match head_len whitespace s with
            | S k => option_map (String " ") (to_ascii_go k s')
            | O =>
                match List.find (fun pd => String.prefix (fst pd) s) decimals with
                | Some (p, d) =>
                    option_map (String d) (to_ascii_go (Nat.pred (String.length p)) s')
                | None => None
                end
            end
      end
  end.

Definition to_ascii (s : string) : option string := to_ascii_go O s.

(** The digits of a number without the underscores that group them;
    [None] when an underscore does not stand between two digits. *)
Fixpoint ungroup_go (after_digit : bool) (s : string) : option string :=
  match s with
  | EmptyString => if after_digit then Some EmptyString else None
  | String c s' =>
      if Ascii.eqb c "_"
      then if after_digit then ungroup_go false s' else None
      else option_map (String c) (ungroup_go true s')
  end.

Definition ungroup (s : string) : option string := ungroup_go false s.

(** [int(s)]; [None] stands for [ValueError]. *)
Definition to_int (s : string) : option Z :=
  match to_ascii s with
  | None => None
  | Some a =>
      match strip_by int_isspace a with
      | EmptyString => None
      | String c ds =>
          if Ascii.eqb c "+"
          then match ungroup ds with
               | Some d => option_map Z.of_uint (NilZero.uint_of_string d)
               | None => None
               end
          else if Ascii.eqb c "-"
          then match ungroup ds with
               | Some d => option_map Z.of_int (NilZero.int_of_string (String "-" d))
               | None => None
               end
          else match ungroup (String c ds) with
               | Some d => option_map Z.of_int (NilZero.int_of_string d)
               | None => None
               end
      end
  end.

(** [chr(0) in s]: the character that Postgres cannot store. *)
Fixpoint has_nul (s : string) : bool :=
  match s with
  | EmptyString => false
  | String c s' => Ascii.eqb c "000" || has_nul s'
  end.

End PyStr.

Definition nl : string := String "010" EmptyString.

(** ** Configuration (module-level constants of the source) *)

Inductive Package := Standard | X.

Definition package_name (p : Package) : string :=
  match p with Standard => "Standard" | X => "X" end.

(** [PAYMENT_ACCOUNTS], in the order of the dictionary literal. *)
Definition PAYMENT_ACCOUNTS : list (string * string) :=
  [ ("Bank A", "Account: 1234567890" ++ nl ++ "Bank: Example Bank A" ++ nl ++ "Name: Your Name");
    ("Bank B", "Account: 0987654321" ++ nl ++ "Bank: Example Bank B" ++ nl ++ "Name: Your Name") ].

(** [PAYMENT_ACCOUNTS.get(name, default)] *)
Definition accounts_get (name default : string) : string :=
  match List.find (fun kv => String.eqb (fst kv) name) PAYMENT_ACCOUNTS with
  | Some kv => snd kv
  | None => default
  end.

(** ** The durable store: tables [users] and [payments] *)

(** Values of [users.payment_status], in workflow order. *)
Inductive PaymentStatus :=
  st_new | st_pending_payment | st_pending_approval | st_approved | st_registered.

(** Values of [payments.status]. *)
Inductive AttemptStatus := pending | approved | rejected.

Record User := mkUser {
  chat_id : Z;                      (* BIGINT PRIMARY KEY *)
  username : string;
  name : string;
  email : option string;
  phone : option string;
  package : option Package;
  payment_status : PaymentStatus;   (* DEFAULT 'new' *)
  approved_at : option Z;
  registration_date : option Z
}.

Record Payment := mkPayment {
  pay_id : Z;                       (* SERIAL PRIMARY KEY *)
  pay_chat_id : Z;
  pay_package : option Package;
  payment_account : string;
  pay_status : AttemptStatus;       (* DEFAULT 'pending' *)
  pay_timestamp : Z;                (* DEFAULT CURRENT_TIMESTAMP *)
  pay_approved_at : option Z
}.

Record DB := mkDB {
  users : list User;
  payments : list Payment;
  payments_id_seq : Z               (* next value of the SERIAL sequence *)
}.

Definition empty_db : DB := mkDB [] [] 1.

(** ** The in-memory [user_state] dictionary *)

Inductive Expecting := reg_screenshot | user_credentials.

(** One entry of [user_state]: a dictionary with the key ["expecting"]
    and, depending on who wrote it, ["payment_id"] or ["for_user"]. *)
Record Session := mkSession {
  expecting : Expecting;
  payment_id : option Z;
  for_user : option Z
}.

(** ** Calls to the Bot API *)

Definition Button : Type := string * string.     (* label, callback_data *)
Definition Keyboard : Type := list (list Button). (* [] when no reply_markup *)

Inductive Effect :=
| AnswerCallback                                              (* query.answer() *)
| EditMessageText (text : string) (kb : Keyboard)             (* query.edit_message_text *)
| ReplyText (chat : Z) (text : string) (kb : Keyboard)        (* message.reply_text *)
| SendMessage (chat : Z) (text : string) (kb : Keyboard)      (* bot.send_message *)
| SendPhoto (chat : Z) (photo caption : string) (kb : Keyboard). (* bot.send_photo *)

(** ** Incoming updates *)

Record TgUser := mkTgUser {
  user_id : Z;
  tg_username : option string;
  full_name : string
}.

Record Message := mkMessage {
  msg_chat : Z;                     (* message.chat.id *)
  msg_from : TgUser;                (* update.effective_user *)
  msg_text : option string;         (* message.text *)
  msg_photo : list string           (* file ids of message.photo, smallest first *)
}.

Record CallbackQuery := mkCallbackQuery {
  cq_from : TgUser;                 (* query.from_user *)
  cq_data : string                  (* query.data *)
}.

(** ** The world a handler runs in *)

(** The program holds one connection, opened with [autocommit=False]:
    [db] is what its statements see and write, [durable] what was last
    committed, which is what survives the process. *)
Record World := mkWorld {
  db : DB;
  user_state : gmap Z Session;
  outbox : list Effect;             (* delivered API calls, oldest first *)
  net : list bool;                  (* outcomes of the coming API calls; all succeed once used up *)
  clock : list Z;                   (* coming clock readings; 0 once used up *)
  durable : DB
}.

Definition with_db (d : DB) (w : World) : World :=
  mkWorld d (user_state w) (outbox w) (net w) (clock w) (durable w).
Definition with_user_state (s : gmap Z Session) (w : World) : World :=
  mkWorld (db w) s (outbox w) (net w) (clock w) (durable w).
Definition with_net (n : list bool) (w : World) : World :=
  mkWorld (db w) (user_state w) (outbox w) n (clock w) (durable w).

(** A world in which every statement has been committed. *)
Definition settled_world (d : DB) (s : gmap Z Session) (o : list Effect)
    (n : list bool) (t : list Z) : World :=
  mkWorld d s o n t d.

Definition fresh_world (n : list bool) (t : list Z) : World :=
  settled_world empty_db ∅ [] n t.

(** ** Handlers as state-and-exception computations *)

Inductive exn :=
  ValueError | AttributeError | IndexError | TelegramError | UniqueViolation | DataError.

Inductive res (A : Type) := Ok (a : A) | Raise (e : exn).
Arguments Ok {A} a.
Arguments Raise {A} e.

Definition M (A : Type) : Type := World -> res A * World.

Definition ret {A} (a : A) : M A := fun w => (Ok a, w).

Definition bind {A B} (m : M A) (k : A -> M B) : M B :=
  fun w => match m w with
           | (Ok a, w') => k a w'
           | (Raise e, w') => (Raise e, w')
           end.

Definition raise {A} (e : exn) : M A := fun w => (Raise e, w).

(** [try: m  except Exception: h] *)
Definition try_except {A} (m : M A) (h : M A) : M A :=
  fun w => match m w with
           | (Ok a, w') => (Ok a, w')
           | (Raise _, w') => h w'
           end.

(** [try: m  finally: f] *)
Definition try_finally {A} (m : M A) (f : M unit) : M A :=
  fun w => match m w with
           | (r, w') => match f w' with
                        | (Ok _, w'') => (r, w'')
                        | (Raise e, w'') => (Raise e, w'')
                        end
           end.

Declare Scope py_scope.
Delimit Scope py_scope with py.
Notation "x <- m ;; k" := (bind m (fun x => k))
  (at level 100, m at next level, right associativity) : py_scope.
Notation "m ;;; k" := (bind m (fun _ => k))
  (at level 100, right associativity) : py_scope.
Local Open Scope py_scope.

(** An awaited Bot API call: delivered and recorded, or refused. *)
Definition api (e : Effect) : M unit :=
  fun w =>
    if hd true (net w)
    then (Ok tt, mkWorld (db w) (user_state w) (outbox w ++ [e]) (tl (net w)) (clock w)
                         (durable w))
    else (Raise TelegramError, with_net (tl (net w)) w).

(** [datetime.datetime.now()] and Postgres' [CURRENT_TIMESTAMP]. *)
Definition now : M Z :=
  fun w => (Ok (hd 0 (clock w)),
            mkWorld (db w) (user_state w) (outbox w) (net w) (tl (clock w)) (durable w)).

(** [conn.commit()]: what the connection has written becomes durable. *)
Definition commit : M unit :=
  fun w => (Ok tt, mkWorld (db w) (user_state w) (outbox w) (net w) (clock w) (db w)).

(** ** SQL statements

    The driver turns the parameters of a statement into their Postgres
    form before it sends anything, and refuses a [str] that holds a NUL
    character with a [DataError]. *)

Definition text_param (s : string) : M unit :=
  if PyStr.has_nul s then raise DataError else ret tt.

Definition find_user (c : Z) (us : list User) : option User :=
  List.find (fun u => chat_id u =? c) us.

Definition update_rows {A} (sel : A -> bool) (f : A -> A) (rows : list A) : list A :=
  List.map (fun r => if sel r then f r else r) rows.

(** [SELECT ... FROM users WHERE chat_id=%s] followed by [fetchone()] *)
Definition select_user (c : Z) : M (option User) :=
  fun w => (Ok (find_user c (users (db w))), w).

(** [INSERT INTO users ...] with the parameters [username] and [name];
    the primary key refuses a second row. *)
Definition insert_user (u : User) : M unit :=
  fun w =>
    if PyStr.has_nul (username u) || PyStr.has_nul (name u)
    then (Raise DataError, w)
    else
      match find_user (chat_id u) (users (db w)) with
      | Some _ => (Raise UniqueViolation, w)
      | None =>
          (Ok tt, with_db (mkDB (users (db w) ++ [u]) (payments (db w))
                                (payments_id_seq (db w))) w)
      end.

(** [UPDATE users SET ... WHERE chat_id=%s]; returns [cursor.rowcount]. *)
Definition update_users (c : Z) (f : User -> User) : M nat :=
  fun w =>
    let sel := fun u => chat_id u =? c in
    (Ok (length (List.filter sel (users (db w)))),
     with_db (mkDB (update_rows sel f (users (db w))) (payments (db w))
                   (payments_id_seq (db w))) w).

(** [INSERT INTO payments (chat_id, package, payment_account, status)
    ... RETURNING id] *)
Definition insert_payment (c : Z) (pkg : option Package) (account : string) : M Z :=
  text_param account ;;;
  t <- now ;;
  fun w =>
    let i := payments_id_seq (db w) in
    (Ok i, with_db (mkDB (users (db w))
                         (payments (db w) ++ [mkPayment i c pkg account pending t None])
                         (i + 1)) w).

(** [UPDATE payments SET ... WHERE <sel>] *)
Definition update_payments (sel : Payment -> bool) (f : Payment -> Payment) : M unit :=
  fun w =>
    (Ok tt, with_db (mkDB (users (db w)) (update_rows sel f (payments (db w)))
                          (payments_id_seq (db w))) w).

(** The [SET] clauses used by the handlers. *)
Definition set_package_status (p : Package) (s : PaymentStatus) (u : User) : User :=
  mkUser (chat_id u) (username u) (name u) (email u) (phone u) (Some p) s
         (approved_at u) (registration_date u).
Definition set_status (s : PaymentStatus) (u : User) : User :=
  mkUser (chat_id u) (username u) (name u) (email u) (phone u) (package u) s
         (approved_at u) (registration_date u).
Definition set_status_approved_at (s : PaymentStatus) (t : Z) (u : User) : User :=
  mkUser (chat_id u) (username u) (name u) (email u) (phone u) (package u) s
         (Some t) (registration_date u).
Definition set_registered (uname : string) (t : Z) (u : User) : User :=
  mkUser (chat_id u) uname (name u) (email u) (phone u) (package u) st_registered
         (approved_at u) (Some t).
Definition set_pay_approved (t : Z) (p : Payment) : Payment :=
  mkPayment (pay_id p) (pay_chat_id p) (pay_package p) (payment_account p) approved
            (pay_timestamp p) (Some t).
Definition set_pay_rejected (p : Payment) : Payment :=
  mkPayment (pay_id p) (pay_chat_id p) (pay_package p) (payment_account p) rejected
            (pay_timestamp p) (pay_approved_at p).

Definition is_pending (s : AttemptStatus) : bool :=
  match s with pending => true | _ => false end.

(** ** Small Python idioms *)

(** [x or ""] for an optional string *)
Definition or_empty (o : option string) : string :=
  match o with Some s => s | None => EmptyString end.

(** A partial operation inside a handler: [None] raises. *)
Definition or_raise {A} (e : exn) (o : option A) : M A :=
  match o with Some a => ret a | None => raise e end.

(** [int(s)] inside a handler *)
Definition py_int (s : string) : M Z := or_raise ValueError (PyStr.to_int s).

(** [if x:] for an optional integer: [None] and [0] are false *)
Definition truthy (o : option Z) : option Z :=
  match o with
  | Some z => if z =? 0 then None else Some z
  | None => None
  end.

(** [f"{x}"] for an optional integer *)
Definition fmt_opt_int (o : option Z) : string :=
  match o with Some z => PyStr.of_int z | None => "None" end.

(** [user_state.get(uid, {}).get("expecting")] *)
Definition expecting_of (o : option Session) : option Expecting :=
  match o with Some s => Some (expecting s) | None => None end.

Definition is_expecting (e : Expecting) (o : option Session) : bool :=
  match expecting_of o, e with
  | Some reg_screenshot, reg_screenshot => true
  | Some user_credentials, user_credentials => true
  | _, _ => false
  end.

(** [user_state[k] = s] and [user_state.pop(k, None)] *)
Definition set_user_state (k : Z) (s : Session) : M unit :=
  fun w => (Ok tt, with_user_state (<[k := s]> (user_state w)) w).
Definition pop_user_state (k : Z) : M unit :=
  fun w => (Ok tt, with_user_state (delete k (user_state w)) w).
Definition get_user_state (k : Z) : M (option Session) :=
  fun w => (Ok (user_state w !! k), w).

(** ** Keyboards and texts *)

Definition main_menu_keyboard : Keyboard :=
  [ [("🚀 Choose Package", "package_selector")];
    [("❓ Help", "help")] ].

Definition back_to_menu : list Button := [("🔙 Main Menu", "menu")].
Definition back_to_help : Keyboard := [ [("🔙 Help", "help")] ].

Definition welcome_text : string :=
  "Welcome! Choose a package to register." ++ nl ++ nl ++ "We have:" ++ nl
  ++ "• Standard (₦9,000)" ++ nl
  ++ "• X (₦14,000) — gives access to special content.".

Definition no_process_text : string :=
  "No payment process detected. Start with /start to register.".
Definition two_lines_text : string :=
  "Please send credentials in two lines:" ++ nl ++ "username" ++ nl ++ "password".
Definition no_target_text : string :=
  "No target user set. Use the finalize button on a payment message.".
Definition not_understood_text : string :=
  "I didn't understand that. Use /start to begin registration or /help for assistance.".
Definition approved_text : string :=
  "✅ Your payment has been approved by the admin. Await credentials to complete registration.".
Definition rejected_text : string :=
  "❌ Your payment was not approved. Please try again or contact the admin.".
Definition credentials_text (uname password : string) : string :=
  "🎉 Registration complete!" ++ nl ++ "Username: " ++ uname ++ nl
  ++ "Password: " ++ password ++ nl ++ nl ++ "Welcome!".

(** The text shown after the selection of an account (line 299). *)
Definition payment_details_text (account : string) : string :=
  "Payment details:" ++ nl ++ nl
  ++ accounts_get account "Contact admin for payment details." ++ nl ++ nl
  ++ "Please make the payment and upload the screenshot (as a photo) in this chat.".

(** The keyboard under the screenshot forwarded to the administrator
    (lines 386-392). *)
Definition review_keyboard (uid : Z) (pid : option Z) : Keyboard :=
  [ [("Approve", "approve_reg_" ++ PyStr.of_int uid ++ "_" ++ fmt_opt_int pid);
     ("Reject", "reject_reg_" ++ PyStr.of_int uid ++ "_" ++ fmt_opt_int pid)];
    [("Finalize (set credentials)", "finalize_reg_" ++ PyStr.of_int uid)] ].

(** The caption of the forwarded screenshot (line 396). *)
Definition photo_caption (m : Message) : string :=
  "Payment screenshot from @"
  ++ match tg_username (msg_from m) with
     | Some u => if PyStr.nonempty u then u else PyStr.of_int (msg_chat m)
     | None => PyStr.of_int (msg_chat m)
     end
  ++ " (chat_id: " ++ PyStr.of_int (msg_chat m) ++ ")".

Definition screenshot_received_text : string :=
  "✅ Screenshot received! Admin will review and get back to you.".

(** ** The handlers *)

(** The row of line 164-165; the columns not listed are NULL. *)
Definition new_user_row (m : Message) : User :=
  mkUser (msg_chat m) (or_empty (tg_username (msg_from m))) (full_name (msg_from m))
         None None None st_new None None.

(** [/start] (lines 156-178) *)
Definition start (m : Message) : M unit :=
  let chat := msg_chat m in
  try_except
    (row <- select_user chat ;;
     match row with
     | Some _ => ret tt
     | None => insert_user (new_user_row m) ;;; commit
     end)
    (ret tt) ;;;
  api (ReplyText chat welcome_text main_menu_keyboard).

(** [/help] (lines 181-188).  [update.message] is [None] when the update
    is a button press. *)
Definition help_menu_cmd (message : option Message) : M unit :=
  match message with
  | None => raise AttributeError
  | Some m =>
      api (ReplyText (msg_chat m) "Help topics:"
             [ [("How to Pay", "how_to_pay")];
               [("Registration Process", "registration_process")];
               back_to_menu ])
  end.

(** [show_main_menu] (lines 463-482) *)
Definition show_main_menu (query : option CallbackQuery) (message : option Message) : M unit :=
  match query with
  | Some _ => api (EditMessageText "Main menu:" main_menu_keyboard)
  | None =>
      match message with
      | None => raise AttributeError
      | Some m => api (ReplyText (msg_chat m) "Main menu:" main_menu_keyboard)
      end
  end.

(** One button per payment account, then the way back (lines 272-273). *)
Definition account_keyboard : Keyboard :=
  List.app
    (List.map (fun kv : string * string =>
                 [(fst kv, String.append "select_account:" (fst kv))])
              PAYMENT_ACCOUNTS)
    [back_to_menu].

(** Lines 259-274: [reg_standard] and [reg_x]. *)
Definition button_reg (q : CallbackQuery) : M unit :=
  let pkg := if String.eqb (cq_data q) "reg_standard" then Standard else X in
  let uid := user_id (cq_from q) in
  try_except
    (n <- update_users uid (set_package_status pkg st_pending_payment) ;;
     (if Nat.eqb n 0
      then insert_user (mkUser uid (or_empty (tg_username (cq_from q)))
                               (full_name (cq_from q)) None None (Some pkg)
                               st_pending_payment None None)
      else ret tt) ;;;
     commit)
    (ret tt) ;;;
  api (EditMessageText
         ("You selected " ++ package_name pkg
          ++ ". Choose a payment account and then upload your screenshot.")
         account_keyboard).

(** Lines 275-299: [select_account:<name>].  [created] is false on the
    path that ends in the early [return]. *)
Definition button_select_account (q : CallbackQuery) : M unit :=
  match PyStr.split (cq_data q) "select_account:" with
  | _ :: account_name :: _ =>
      let uid := user_id (cq_from q) in
      created <-
        try_except
          (row <- select_user uid ;;
           let pkg := match row with Some u => package u | None => None end in
           pid <- insert_payment uid pkg account_name ;;
           commit ;;;
           set_user_state uid (mkSession reg_screenshot (Some pid) None) ;;;
           ret true)
          (api (EditMessageText "Error creating payment record. Try again later."
                  [back_to_menu]) ;;;
           ret false) ;;
      if created : bool
      then api (EditMessageText (payment_details_text account_name) [back_to_menu])
      else ret tt
  | _ => raise IndexError
  end.

(** Lines 307-308 and 331-332: the two identifiers carried by an approve
    or reject button, [<prefix>_reg_<chat_id>_<payment_id>]; [None] when
    one of the two [int()] raises. *)
Definition parse_target (parts : list string) : option (Z * option Z) :=
  match PyStr.to_int (nth 2 parts EmptyString) with
  | None => None
  | Some target_chat =>
      match parts with
      | _ :: _ :: _ :: p3 :: _ =>
          match PyStr.to_int p3 with
          | Some pid => Some (target_chat, Some pid)
          | None => None
          end
      | _ => Some (target_chat, None)
      end
  end.

(** Lines 314-317: the transaction of an approval. *)
Definition approve_writes (target_chat : Z) (pid : option Z) : M unit :=
  match truthy pid with
  | Some i => t <- now ;;
              update_payments (fun p => pay_id p =? i) (set_pay_approved t)
  | None => ret tt
  end ;;;
  t <- now ;;
  update_users target_chat (set_status_approved_at st_approved t) ;;;
  commit.

(** Lines 319-320: the two messages that follow it. *)
Definition approve_notifies (target_chat : Z) : M unit :=
  api (SendMessage target_chat approved_text []) ;;;
  api (EditMessageText
         "Payment approved. Please finalize the user credentials using the button below."
         [ [("Finalize Registration (Admin)",
             String.append "finalize_reg_" (PyStr.of_int target_chat))] ]).

(** Lines 337-340 and 341-342, for a rejection. *)
Definition reject_writes (target_chat : Z) (pid : option Z) : M unit :=
  match truthy pid with
  | Some i => update_payments (fun p => pay_id p =? i) set_pay_rejected
  | None => ret tt
  end ;;;
  update_users target_chat (set_status st_new) ;;;
  commit.

Definition reject_notifies (target_chat : Z) : M unit :=
  api (SendMessage target_chat rejected_text []) ;;;
  api (EditMessageText "Payment rejected and user notified." []).

(** Lines 435-444 and 446-447, for the credentials. *)
Definition credentials_writes (target : Z) (uname : string) : M unit :=
  t <- now ;;
  text_param uname ;;;
  update_users target (set_registered uname t) ;;;
  t' <- now ;;
  update_payments (fun p => (pay_chat_id p =? target) && is_pending (pay_status p))
                  (set_pay_approved t') ;;;
  commit.

Definition credentials_notifies (uid target : Z) (uname password : string) : M unit :=
  api (SendMessage target (credentials_text uname password) []) ;;;
  api (ReplyText uid ("Credentials set and sent to user " ++ PyStr.of_int target ++ ".") []).

Section Handlers.

(** [ADMIN_ID], read from the environment at start-up (non-zero). *)
Variable ADMIN_ID : Z.

(** Lines 300-325: [approve_reg_<chat_id>_<payment_id>] *)
Definition button_approve (q : CallbackQuery) : M unit :=
  let parts := PyStr.split (cq_data q) "_" in
  if (3 <=? length parts)%nat
  then
    parsed <- try_except (ids <- or_raise ValueError (parse_target parts) ;; ret (Some ids))
                         (api (EditMessageText "Invalid approval data." []) ;;; ret None) ;;
    match parsed with
    | None => ret tt
    | Some (target_chat, pid) =>
        try_except
          (approve_writes target_chat pid ;;; approve_notifies target_chat)
          (api (EditMessageText "Error approving registration. See logs." []))
    end
  else api (EditMessageText "Malformed approval callback." []).

(** Lines 326-347: [reject_reg_<chat_id>_<payment_id>] *)
Definition button_reject (q : CallbackQuery) : M unit :=
  let parts := PyStr.split (cq_data q) "_" in
  if (3 <=? length parts)%nat
  then
    parsed <- try_except (ids <- or_raise ValueError (parse_target parts) ;; ret (Some ids))
                         (api (EditMessageText "Invalid rejection data." []) ;;; ret None) ;;
    match parsed with
    | None => ret tt
    | Some (target_chat, pid) =>
        try_except
          (reject_writes target_chat pid ;;; reject_notifies target_chat)
          (api (EditMessageText "Error rejecting registration. See logs." []))
    end
  else api (EditMessageText "Malformed rejection callback." []).

(** Lines 348-358: [finalize_reg_<chat_id>] *)
Definition button_finalize (q : CallbackQuery) : M unit :=
  let parts := PyStr.split (cq_data q) "_" in
  if (3 <=? length parts)%nat
  then
    target_chat <- py_int (nth 2 parts EmptyString) ;;
    set_user_state ADMIN_ID (mkSession user_credentials None (Some target_chat)) ;;;
    api (SendMessage ADMIN_ID
           ("Send username and password for user " ++ PyStr.of_int target_chat
            ++ " in two lines:" ++ nl ++ "username" ++ nl ++ "password") []) ;;;
    api (EditMessageText "Waiting for admin to send credentials." [])
  else api (EditMessageText "Malformed finalize command." []).

(** The chain of tests on [query.data] (lines 240-360). *)
Definition button_route (q : CallbackQuery) : M unit :=
  let data := cq_data q in
  if String.eqb data "menu" then show_main_menu (Some q) None
  else if String.eqb data "help" then help_menu_cmd None
  else if String.eqb data "how_to_pay" then
    api (EditMessageText
           "Make payment to any of the accounts shown when you pick a package. Upload a screenshot after payment."
           back_to_help)
  else if String.eqb data "registration_process" then
    api (EditMessageText
           ("1. /start → choose package" ++ nl ++ "2. Select a payment account" ++ nl
            ++ "3. Upload your payment screenshot" ++ nl
            ++ "4. Wait for admin approval and credential assignment.")
           back_to_help)
  else if String.eqb data "package_selector" then
    api (EditMessageText "Choose your package:"
           [ [("Standard (₦9,000)", "reg_standard")];
             [("X (₦14,000)", "reg_x")];
             back_to_menu ])
  else if String.eqb data "reg_standard" || String.eqb data "reg_x" then button_reg q
  else if PyStr.startswith data "select_account:" then button_select_account q
  else if PyStr.startswith data "approve_reg_" then button_approve q
  else if PyStr.startswith data "reject_reg_" then button_reject q
  else if PyStr.startswith data "finalize_reg_" then button_finalize q
  else api (EditMessageText "Unknown action." []).

(** [button_handler] (lines 232-366) *)
Definition button_handler (q : CallbackQuery) : M unit :=
  api AnswerCallback ;;;
  try_except
    (button_route q)
    (try_except (api (EditMessageText "An error occurred. Contact admin." []))
                (ret tt)).

(** [handle_photo] (lines 372-408) *)
Definition handle_photo (m : Message) : M unit :=
  let uid := msg_chat m in
  state <- get_user_state uid ;;
  if negb (is_expecting reg_screenshot state)
  then api (ReplyText uid no_process_text [])
  else
    try_except
      (photo_file_id <- or_raise IndexError (List.last (List.map Some (msg_photo m)) None) ;;
       let pid := match state with Some s => payment_id s | None => None end in
       api (SendPhoto ADMIN_ID photo_file_id (photo_caption m) (review_keyboard uid pid)) ;;;
       api (ReplyText uid screenshot_received_text []) ;;;
       update_users uid (set_status st_pending_approval) ;;;
       commit ;;;
       pop_user_state uid)
      (api (ReplyText uid "Error processing screenshot. Try again later." [])).

(** Line 417: [msg.text.strip() if msg.text else ""] *)
Definition text_of (m : Message) : string :=
  match msg_text m with
  | Some t => if PyStr.nonempty t then PyStr.strip t else EmptyString
  | None => EmptyString
  end.

(** Line 424: [[l.strip() for l in text.splitlines() if l.strip()]] *)
Definition credential_lines (text : string) : list string :=
  List.map PyStr.strip
    (List.filter (fun l => PyStr.nonempty (PyStr.strip l)) (PyStr.splitlines text)).

(** [handle_text] (lines 414-457) *)
Definition handle_text (m : Message) : M unit :=
  let uid := msg_chat m in
  let text := text_of m in
  admin_state <- get_user_state ADMIN_ID ;;
  if (uid =? ADMIN_ID) && is_expecting user_credentials admin_state
  then
    match credential_lines text with
    | uname :: password :: _ =>
        let target := match admin_state with Some s => for_user s | None => None end in
        match truthy target with
        | None =>
            api (ReplyText uid no_target_text []) ;;;
            pop_user_state ADMIN_ID
        | Some target =>
            try_finally
              (try_except
                 (credentials_writes target uname ;;;
                  credentials_notifies uid target uname password)
                 (api (ReplyText uid "Failed to set credentials. See logs." [])))
              (pop_user_state ADMIN_ID)
        end
    | _ => api (ReplyText uid two_lines_text [])
    end
  else api (ReplyText uid not_understood_text []).

End Handlers.

(** ** Updates and their dispatch (lines 493-503) *)

Inductive Update :=
| CommandStart (m : Message)
| CommandHelp (m : Message)
| CommandMenu (m : Message)
| ButtonPress (q : CallbackQuery)
| PhotoMessage (m : Message)
| TextMessage (m : Message).

Definition handle (ADMIN_ID : Z) (u : Update) : M unit :=
  match u with
  | CommandStart m => start m
  | CommandHelp m => help_menu_cmd (Some m)
  | CommandMenu m => show_main_menu None (Some m)
  | ButtonPress q => button_handler ADMIN_ID q
  | PhotoMessage m => handle_photo ADMIN_ID m
  | TextMessage m => handle_text ADMIN_ID m
  end.

(** The world left by a handler, and by a sequence of updates. *)
Definition run {A} (m : M A) (w : World) : World := snd (m w).

Definition run_all (ADMIN_ID : Z) (us : list Update) (w : World) : World :=
  List.fold_left (fun w u => run (handle ADMIN_ID u) w) us w.

(** * Vocabulary of the statements *)

Definition count_users (c : Z) (us : list User) : nat :=
  length (List.filter (fun u => chat_id u =? c) us).

(** The primary key of [users]. *)
Definition users_pk (d : DB) : Prop := List.NoDup (List.map chat_id (users d)).

(** The names of a Telegram account, as the handlers pass them to
    [INSERT INTO users], can be stored: neither holds a NUL character. *)
Definition storable (u : TgUser) : bool :=
  negb (PyStr.has_nul (or_empty (tg_username u)) || PyStr.has_nul (full_name u)).

(** ** Relations between the world before and after a handler

    [preserves R m] says that [m] takes every world to an [R]-related
    one.  For a reflexive and transitive [R] it is inherited by every
    way of composing computations that the handlers use. *)

Definition preserves (R : World -> World -> Prop) {A} (m : M A) : Prop :=
  forall w, R w (run m w).

(** A reflexive and transitive relation that only looks at the tables. *)
Class TableRel (R : World -> World -> Prop) : Prop := {
  rel_refl : forall w, R w w;
  rel_trans : forall w1 w2 w3, R w1 w2 -> R w2 w3 -> R w1 w3;
  rel_tables : forall w w', db w' = db w -> R w w'
}.

(** The tables are the same. *)
Definition same_db (w w' : World) : Prop := db w' = db w.

(** The part [f] of the world is what it was. *)
Definition kept {B} (f : World -> B) (w w' : World) : Prop := f w' = f w.

(** The connection has nothing uncommitted: what it sees is what is
    committed. *)
Definition settled (w : World) : Prop := durable w = db w.

(** A computation that leaves nothing uncommitted when it found nothing
    uncommitted. *)
Definition settles {A} (m : M A) : Prop := forall w, settled w -> settled (run m w).

(** [awaiting_world admin target]: nothing in the tables, and the
    administrator expected to send credentials for [target]. *)
Definition awaiting_world (admin : Z) (target : option Z) : World :=
  settled_world empty_db {[ admin := mkSession user_credentials None target ]} [] [] [].

(** The tables after the transaction of an approval, of a rejection and
    of the credentials, [ts] being the coming clock readings. *)
Definition approve_tables (target : Z) (pid : option Z) (ts : list Z) (d : DB) : DB :=
  match truthy pid with
  | Some i =>
      mkDB (update_rows (fun u => chat_id u =? target)
                        (set_status_approved_at st_approved (hd 0 (tl ts))) (users d))
           (update_rows (fun p => pay_id p =? i) (set_pay_approved (hd 0 ts)) (payments d))
           (payments_id_seq d)
  | None =>
      mkDB (update_rows (fun u => chat_id u =? target)
                        (set_status_approved_at st_approved (hd 0 ts)) (users d))
           (payments d) (payments_id_seq d)
  end.

Definition reject_tables (target : Z) (pid : option Z) (d : DB) : DB :=
  mkDB (update_rows (fun u => chat_id u =? target) (set_status st_new) (users d))
       (match truthy pid with
        | Some i => update_rows (fun p => pay_id p =? i) set_pay_rejected (payments d)
        | None => payments d
        end)
       (payments_id_seq d).

Definition credentials_tables (target : Z) (uname : string) (ts : list Z) (d : DB) : DB :=
  mkDB (update_rows (fun u => chat_id u =? target) (set_registered uname (hd 0 ts)) (users d))
       (update_rows (fun p => (pay_chat_id p =? target) && is_pending (pay_status p))
                    (set_pay_approved (hd 0 (tl ts))) (payments d))
       (payments_id_seq d).

(** The world once [query.answer()] has been delivered. *)
Definition answered (w : World) : World :=
  mkWorld (db w) (user_state w) (outbox w ++ [AnswerCallback]) (tl (net w)) (clock w)
          (durable w).

(** Sample rows. *)
Definition user_row (c : Z) (uname : string) (s : PaymentStatus) : User :=
  mkUser c uname uname None None (Some Standard) s None None.
Definition attempt_row (i owner : Z) (s : AttemptStatus) : Payment :=
  mkPayment i owner (Some Standard) "Bank A" s 100 None.

(** Users 5 and 7 have both sent a screenshot; attempt 1 is the one of
    user 7. *)
Definition two_users_world : World :=
  settled_world
    (mkDB [user_row 5 "eve" st_pending_approval; user_row 7 "bob" st_pending_approval]
          [attempt_row 1 7 pending] 2)
    ∅ [] [] [200; 201].

(** [data.split("select_account:")[1]] *)
Definition account_of (data : string) : string :=
  nth 1 (PyStr.split data "select_account:") EmptyString.

(** User 42 has selected an account (attempt 1) and is expected to send
    a screenshot; [n] are the outcomes of the coming Bot API calls. *)
Definition awaiting_screenshot_world (n : list bool) : World :=
  settled_world (mkDB [user_row 42 "al" st_pending_payment] [attempt_row 1 42 pending] 2)
                {[ 42 := mkSession reg_screenshot (Some 1) None ]} [] n [300].

(** [get_user_status] (lines 139-146): the status of the row of a chat. *)
Definition status_of (c : Z) (w : World) : option PaymentStatus :=
  option_map payment_status (find_user c (users (db w))).

(** Position of a status in the workflow order. *)
Definition rank (s : PaymentStatus) : nat :=
  match s with
  | st_new => 0
  | st_pending_payment => 1
  | st_pending_approval => 2
  | st_approved => 3
  | st_registered => 4
  end.

(** The value of [payment_status] that the handler of an update writes
    when it writes one: it depends on the kind of update alone. *)
Definition written_status (u : Update) : option PaymentStatus :=
  match u with
  | ButtonPress q =>
      let data := cq_data q in
      if String.eqb data "reg_standard" || String.eqb data "reg_x"
      then Some st_pending_payment
      else if PyStr.startswith data "approve_reg_" then Some st_approved
      else if PyStr.startswith data "reject_reg_" then Some st_new
      else None
  | PhotoMessage _ => Some st_pending_approval
  | TextMessage _ => Some st_registered
  | _ => None
  end.

(** Every row keeps its status or takes the value [t]. *)
Definition status_step (t : option PaymentStatus) (w w' : World) : Prop :=
  forall c s, status_of c w = Some s ->
              exists s', status_of c w' = Some s' /\ (s' = s \/ t = Some s').

(** User 42 is registered. *)
Definition registered_world : World :=
  settled_world
    (mkDB [mkUser 42 "alice" "Alice A" None None (Some Standard) st_registered
                  (Some 30) (Some 40)]
          [mkPayment 1 42 (Some Standard) "Bank A" approved 10 (Some 20)] 2)
    ∅ [] [] [].

(** Every character of a string passes a test. *)
Fixpoint all_chars (P : ascii -> bool) (s : string) : bool :=
  match s with
  | EmptyString => true
  | String c s' => P c && all_chars P s'
  end.

Definition is_digit (c : ascii) : bool :=
  let n := nat_of_ascii c in ((48 <=? n) && (n <=? 57))%nat.

(** The characters of [str(n)]: digits and the minus sign. *)
Definition is_plain (c : ascii) : bool := is_digit c || Ascii.eqb c "-".

(** [sub in s] *)
Fixpoint contains (s sub : string) : bool :=
  String.prefix sub s
  || match s with
     | EmptyString => false
     | String _ s' => contains s' sub
     end.

(** The updates of one registration: [alice] enters, chooses Standard,
    selects Bank A, sends a screenshot; [boss] presses the approve
    button under it (attempt 1), presses the finalize button when
    [finalize] is set, and sends the two lines of credentials. *)
Definition registration_updates (alice boss : TgUser) (photos : list string)
    (finalize : bool) : list Update :=
  let uid := user_id alice in
  List.app
    [ CommandStart (mkMessage uid alice (Some "/start") []);
      ButtonPress (mkCallbackQuery alice "reg_standard");
      ButtonPress (mkCallbackQuery alice "select_account:Bank A");
      PhotoMessage (mkMessage uid alice None photos);
      ButtonPress (mkCallbackQuery boss
                     ("approve_reg_" ++ PyStr.of_int uid ++ "_" ++ PyStr.of_int 1)) ]
    (List.app
       (if finalize
        then [ButtonPress (mkCallbackQuery boss ("finalize_reg_" ++ PyStr.of_int uid))]
        else [])
       [ TextMessage (mkMessage (user_id boss) boss (Some ("alice" ++ nl ++ "Secret1")) []) ]).

(** ** Properties of the tables kept by the handlers *)

(** A handler keeps the property [P] of the tables. *)
Definition keeps (P : DB -> Prop) (w w' : World) : Prop := P (db w) -> P (db w').

(** The primary key of [payments], with its sequence ahead of every id. *)
Definition payments_pk (d : DB) : Prop :=
  List.NoDup (List.map pay_id (payments d)) /\
  List.Forall (fun p => pay_id p < payments_id_seq d) (payments d).

(** The columns of a row that no statement of the program assigns after
    the insertion. *)
Definition user_core (u : User) : Z * string * option string * option string :=
  (chat_id u, name u, email u, phone u).
Definition attempt_core (p : Payment) : Z * Z * option Package * string * Z :=
  (pay_id p, pay_chat_id p, pay_package p, payment_account p, pay_timestamp p).

(** Rows are only added, at the end, and keep those columns. *)
Definition grows (w w' : World) : Prop :=
  (exists us, List.map user_core (users (db w'))
              = (List.map user_core (users (db w)) ++ us)%list) /\
  (exists ps, List.map attempt_core (payments (db w'))
              = (List.map attempt_core (payments (db w)) ++ ps)%list).

(** A relation on the tables that every statement of the handlers
    respects. *)
Class WriteRel (R : World -> World -> Prop) : Prop := {
  wr_tables :: TableRel R;
  wr_set_package_status : forall c p s,
      preserves R (update_users c (set_package_status p s));
  wr_set_status : forall c s, preserves R (update_users c (set_status s));
  wr_set_status_approved_at : forall c s t,
      preserves R (update_users c (set_status_approved_at s t));
  wr_set_registered : forall c n t, preserves R (update_users c (set_registered n t));
  wr_insert_user : forall u, preserves R (insert_user u);
  wr_set_pay_approved : forall sel t, preserves R (update_payments sel (set_pay_approved t));
  wr_set_pay_rejected : forall sel, preserves R (update_payments sel set_pay_rejected);
  wr_insert_payment : forall c pkg a, preserves R (insert_payment c pkg a)
}.

(** Both primary keys. *)
Definition db_keys (d : DB) : Prop := users_pk d /\ payments_pk d.

(** ** The sessions *)

(** The chat an update comes from, as its handler reads it. *)
Definition sender (u : Update) : Z :=
  match u with
  | CommandStart m | CommandHelp m | CommandMenu m | PhotoMessage m | TextMessage m =>
      msg_chat m
  | ButtonPress q => user_id (cq_from q)
  end.

(** The entry of [user_state] under the key [k] is what it was. *)
Definition session_kept (k : Z) (w w' : World) : Prop :=
  user_state w' !! k = user_state w !! k.

(** ** Further vocabulary *)

(** The [callback_data] of the buttons of a keyboard, row by row. *)
Definition button_data (kb : Keyboard) : list string :=
  List.map snd (List.concat kb).

(** [get_user_status] (lines 139-146) *)
Definition get_user_status (c : Z) : M (option PaymentStatus) :=
  try_except (row <- select_user c ;; ret (option_map payment_status row))
             (ret None).

(** The package behind a package button (line 260). *)
Definition package_of (data : string) : Package :=
  if String.eqb data "reg_standard" then Standard else X.

(** The row of lines 266-267. *)
Definition new_package_row (q : CallbackQuery) : User :=
  mkUser (user_id (cq_from q)) (or_empty (tg_username (cq_from q)))
         (full_name (cq_from q)) None None (Some (package_of (cq_data q)))
         st_pending_payment None None.

(** The tables after the statements of lines 264-268: the row of the
    chat updated, or a new row when there was none and the names can be
    stored. *)
Definition reg_tables (q : CallbackQuery) (d : DB) : DB :=
  match find_user (user_id (cq_from q)) (users d) with
  | Some _ =>
      mkDB (update_rows (fun u => chat_id u =? user_id (cq_from q))
                        (set_package_status (package_of (cq_data q)) st_pending_payment)
                        (users d))
           (payments d) (payments_id_seq d)
  | None =>
      if storable (cq_from q)
      then mkDB (users d ++ [new_package_row q]) (payments d) (payments_id_seq d)
      else d
  end.

(** [query.data] is one of the two package buttons (line 259). *)
Definition is_package_button (data : string) : bool :=
  String.eqb data "reg_standard" || String.eqb data "reg_x".

(** The end of [button_handler] when its [try] block raised
    (lines 361-366). *)
Definition catch_all : M unit :=
  try_except (api (EditMessageText "An error occurred. Contact admin." [])) (ret tt).

(** One of the three prefixes of the administrator's buttons. *)
Definition admin_prefix (p : string) : Prop :=
  p = "approve_reg_" \/ p = "reject_reg_" \/ p = "finalize_reg_".

(** The updates up to the screenshot, and the administrator's reject
    button under it (attempt 1). *)
Definition screenshot_updates (alice : TgUser) (photos : list string) : list Update :=
  let uid := user_id alice in
  [ CommandStart (mkMessage uid alice (Some "/start") []);
    ButtonPress (mkCallbackQuery alice "reg_standard");
    ButtonPress (mkCallbackQuery alice "select_account:Bank A");
    PhotoMessage (mkMessage uid alice None photos) ].

Definition rejection_updates (alice boss : TgUser) (photos : list string) : list Update :=
  List.app (screenshot_updates alice photos)
    [ ButtonPress (mkCallbackQuery boss
                     ("reject_reg_" ++ PyStr.of_int (user_id alice) ++ "_" ++ PyStr.of_int 1)) ].

(** A text with no line boundary of [splitlines] in it. *)
Fixpoint one_line (s : string) : bool :=
  match s with
  | EmptyString => true
  | String _ s' =>
      match PyStr.break_len s with
      | O => one_line s'
      | S _ => false
      end
  end.

(** ** [adminstats] (lines 192-226) *)

Definition package_eqb (p p' : Package) : bool :=
  match p, p' with
  | Standard, Standard | X, X => true
  | _, _ => false
  end.

(** [SELECT COUNT( * ) FROM users WHERE package=%s] *)
Definition count_package (p : Package) (us : list User) : nat :=
  length (List.filter (fun u => match package u with
                                | Some p' => package_eqb p p'
                                | None => false
                                end) us).

Definition has_registration_date (u : User) : bool :=
  match registration_date u with Some _ => true | None => false end.

Definition reg_time (u : User) : Z :=
  match registration_date u with Some t => t | None => 0 end.

(** The place of a row among rows in descending order of
    [registration_date]. *)
Fixpoint insert_by_date (u : User) (l : list User) : list User :=
  match l with
  | [] => [u]
  | v :: l' => if reg_time v <=? reg_time u then u :: l else v :: insert_by_date u l'
  end.

(** [SELECT ... FROM users WHERE registration_date IS NOT NULL ORDER BY
    registration_date DESC LIMIT 10].  Rows with the same date, whose
    order Postgres leaves open, are taken in table order. *)
Definition last_registered (us : list User) : list User :=
  List.firstn 10 (List.fold_right insert_by_date [] (List.filter has_registration_date us)).

(** [sep.join(lines)] *)
Fixpoint join (sep : string) (lines : list string) : string :=
  match lines with
  | [] => EmptyString
  | [x] => x
  | x :: rest => x ++ sep ++ join sep rest
  end.

Section AdminStats.

Variable ADMIN_ID : Z.

(** [regdate.strftime("%Y-%m-%d %H:%M")], the rendering of a timestamp by
    the standard library. *)
Variable strftime : Z -> string.

(** Line 220: one listed user. *)
Definition stats_row (u : User) : string :=
  "• " ++ (if PyStr.nonempty (username u) then username u else PyStr.of_int (chat_id u))
  ++ " — " ++ match package u with Some p => package_name p | None => "N/A" end
  ++ " — " ++ match registration_date u with Some t => strftime t | None => "N/A" end.

(** Lines 198-222: [text_lines]. *)
Definition stats_lines (us : list User) : list string :=
  List.app
    [ "📊 Admin Stats:";
      "• Total users: " ++ PyStr.of_int (Z.of_nat (length us));
      "• Standard: " ++ PyStr.of_int (Z.of_nat (count_package Standard us));
      "• X: " ++ PyStr.of_int (Z.of_nat (count_package X us));
      "";
      "Last 10 registered users:" ]
    match last_registered us with
    | [] => ["No registered users yet."]
    | rows => List.map stats_row rows
    end.

(** The four [SELECT]s of lines 198-207 read the table [users] as the
    connection sees it; nothing is written between them. *)
Definition select_users : M (list User) := fun w => (Ok (users (db w)), w).

Definition adminstats (m : Message) : M unit :=
  let chat := msg_chat m in
  if negb (chat =? ADMIN_ID)
  then api (ReplyText chat "This command is admin-only." [])
  else
    try_except
      (us <- select_users ;;
       api (ReplyText chat (join nl (stats_lines us)) []))
      (api (ReplyText chat "Error generating stats. Check logs." [])).

End AdminStats.

(** The table [payments] and its sequence are what they were. *)
Definition same_payments (w w' : World) : Prop :=
  payments (db w') = payments (db w) /\
  payments_id_seq (db w') = payments_id_seq (db w).

(** Updates whose handlers have no statement on [payments]: commands,
    photos, and button presses other than the selection of an account
    and the approve and reject buttons. *)
Definition off_payments (u : Update) : Prop :=
  match u with
  | CommandStart _ | CommandHelp _ | CommandMenu _ | PhotoMessage _ => True
  | ButtonPress q =>
      PyStr.startswith (cq_data q) "select_account:" = false /\
      PyStr.startswith (cq_data q) "approve_reg_" = false /\
      PyStr.startswith (cq_data q) "reject_reg_" = false
  | TextMessage _ => False
  end.

(** * Properties of the handlers *)

(** ** The string functions on sample inputs *)

Example split_underscore :
  PyStr.split "approve_reg_42_7" "_" = ["approve"; "reg"; "42"; "7"].
Proof. reflexivity. Qed.

Example split_trailing :
  PyStr.split "approve_reg_" "_" = ["approve"; "reg"; ""].
Proof. reflexivity. Qed.

Example split_word :
  PyStr.split "select_account:Bank A" "select_account:" = [""; "Bank A"].
Proof. reflexivity. Qed.

Example splitlines_mixed :
  PyStr.splitlines ("alice" ++ String "013" (String "010" "Secret1" ++ nl))
  = ["alice"; "Secret1"].
Proof. reflexivity. Qed.

Example splitlines_separators :
  PyStr.splitlines ("alice" ++ PyStr.utf8 0x2028 ++ "Secret1") = ["alice"; "Secret1"] /\
  PyStr.splitlines ("alice" ++ PyStr.utf8 0x85 ++ "Secret1" ++ PyStr.utf8 0x2029)
  = ["alice"; "Secret1"] /\
  PyStr.splitlines ("alice" ++ nl ++ PyStr.utf8 0xA0) = ["alice"; PyStr.utf8 0xA0] /\
  PyStr.splitlines ("a" ++ String "013" (String "010" "") ++ nl ++ "b") = ["a"; ""; "b"].
Proof. repeat split; reflexivity. Qed.

Example strip_examples :
  PyStr.strip ("  alice" ++ nl) = "alice" /\
  PyStr.strip (PyStr.utf8 0xA0 ++ "alice" ++ PyStr.utf8 0x3000 ++ " ") = "alice" /\
  PyStr.strip (PyStr.utf8 0xA0 ++ PyStr.utf8 0x2028) = "" /\
  PyStr.strip ("a" ++ PyStr.utf8 0xA0 ++ "b") = "a" ++ PyStr.utf8 0xA0 ++ "b" /\
  PyStr.strip (PyStr.utf8 0x200B ++ "alice") = PyStr.utf8 0x200B ++ "alice".
Proof. repeat split; reflexivity. Qed.

Example to_int_examples :
  PyStr.to_int "42" = Some 42 /\ PyStr.to_int " -7 " = Some (-7) /\
  PyStr.to_int "+5" = Some 5 /\ PyStr.to_int "" = None /\
  PyStr.to_int "None" = None /\ PyStr.to_int "-" = None /\
  PyStr.to_int "007" = Some 7.
Proof. repeat split; reflexivity. Qed.

Example to_int_beyond_ascii :
  PyStr.to_int (PyStr.utf8 0x667) = Some 7 /\
  PyStr.to_int (PyStr.utf8 0x661 ++ "2" ++ PyStr.utf8 0xFF13) = Some 123 /\
  PyStr.to_int (PyStr.utf8 0xA0 ++ "-" ++ PyStr.utf8 0x967 ++ PyStr.utf8 0x2003) = Some (-1) /\
  PyStr.to_int (PyStr.utf8 0xB2) = None /\
  PyStr.to_int "1_000" = Some 1000 /\ PyStr.to_int "1__0" = None /\
  PyStr.to_int "_1" = None /\ PyStr.to_int "1_" = None /\
  PyStr.to_int "- 1" = None /\ PyStr.to_int "0x10" = None /\
  PyStr.to_int (String "028" "1") = None.
Proof. repeat split; reflexivity. Qed.

Example has_nul_examples :
  PyStr.has_nul "Bank A" = false /\ PyStr.has_nul (String "A" (String "000" "B")) = true.
Proof. split; reflexivity. Qed.

(** Line 424 on texts with the white space and the line separators of
    Unicode, and the identifiers of a review button in other digits. *)
Example credential_lines_examples :
  credential_lines ("alice" ++ PyStr.utf8 0x2028 ++ "Secret1") = ["alice"; "Secret1"] /\
  credential_lines ("alice" ++ nl ++ PyStr.utf8 0xA0) = ["alice"] /\
  credential_lines (" alice" ++ PyStr.utf8 0x85 ++ nl ++ "Secret 1 " ++ nl ++ "x")
  = ["alice"; "Secret 1"; "x"].
Proof. repeat split; reflexivity. Qed.

Example parse_target_examples :
  parse_target (PyStr.split ("approve_reg_" ++ PyStr.utf8 0x667 ++ "_1") "_") = Some (7, Some 1) /\
  parse_target (PyStr.split "approve_reg_42_None" "_") = None /\
  parse_target (PyStr.split "approve_reg_42" "_") = Some (42, None) /\
  parse_target (PyStr.split "reject_reg_42_7_x" "_") = Some (42, Some 7).
Proof. repeat split; reflexivity. Qed.

Example of_int_examples :
  PyStr.of_int 0 = "0" /\ PyStr.of_int 1234567890 = "1234567890" /\
  PyStr.of_int (-100123) = "-100123".
Proof. repeat split; reflexivity. Qed.

(** ** Strings *)

Lemma startswith_app s p :
  PyStr.startswith s p = true -> exists r, s = p ++ r.
Proof.
  unfold PyStr.startswith. revert s.
  induction p as [|c p IH]; intros s H.
  - exists s. reflexivity.
  - destruct s as [|d s]; simpl in H; [discriminate|].
    destruct (ascii_dec c d) as [->|]; [|discriminate].
    destruct (IH s H) as [r ->]. exists r. reflexivity.
Qed.

Lemma split_go_nonempty sep k s : PyStr.split_go sep k s <> [].
Proof.
  revert k. induction s as [|c s IH]; intros k; cbn [PyStr.split_go]; [easy|].
  destruct k; [|apply IH].
  destruct (String.prefix sep (String c s)); [easy|].
  destruct (PyStr.split_go sep 0 s); easy.
Qed.

(** ** Running a handler: elementary facts *)

Lemma run_bind {A B} (m : M A) (k : A -> M B) w :
  run (bind m k) w =
  match fst (m w) with
  | Ok a => run (k a) (run m w)
  | Raise _ => run m w
  end.
Proof. unfold run, bind. destruct (m w) as [[a|e] w']; reflexivity. Qed.

Lemma api_db e w : db (run (api e) w) = db w.
Proof. unfold run, api. destruct (hd true (net w)); reflexivity. Qed.

Lemma api_db' e w : db (snd (api e w)) = db w.
Proof. apply api_db. Qed.

Lemma api_user_state e w : user_state (run (api e) w) = user_state w.
Proof. unfold run, api. destruct (hd true (net w)); reflexivity. Qed.

Lemma api_delivered e w :
  hd true (net w) = true -> outbox (run (api e) w) = (outbox w ++ [e])%list.
Proof. unfold run, api. intros ->. reflexivity. Qed.

Section Preserves.

Context (R : World -> World -> Prop) `{!TableRel R}.

Lemma preserves_ret {A} (a : A) : preserves R (ret a).
Proof. intros w. apply rel_refl. Qed.

Lemma preserves_raise {A} e : preserves R (@raise A e).
Proof. intros w. apply rel_refl. Qed.

Lemma preserves_bind {A B} (m : M A) (k : A -> M B) :
  preserves R m -> (forall a, preserves R (k a)) -> preserves R (bind m k).
Proof.
  intros Hm Hk w. rewrite run_bind.
  destruct (fst (m w)); [eapply rel_trans; [apply Hm | apply Hk] | apply Hm].
Qed.

Lemma preserves_try_except {A} (m h : M A) :
  preserves R m -> preserves R h -> preserves R (try_except m h).
Proof.
  intros Hm Hh w. unfold run, try_except.
  specialize (Hm w). unfold run in Hm.
  destruct (m w) as [[a|e] w']; simpl in *; [exact Hm|].
  eapply rel_trans; [exact Hm | apply Hh].
Qed.

Lemma preserves_try_finally {A} (m : M A) (f : M unit) :
  preserves R m -> preserves R f -> preserves R (try_finally m f).
Proof.
  intros Hm Hf w. unfold run, try_finally.
  specialize (Hm w). specialize (Hf (snd (m w))). unfold run in Hm, Hf.
  destruct (m w) as [r w']; simpl in *.
  destruct (f w') as [[u|e] w'']; simpl in *; eapply rel_trans; eauto.
Qed.

(** Steps that leave the tables alone. *)

Lemma preserves_api e : preserves R (api e).
Proof. intros w. apply rel_tables, api_db. Qed.

Lemma preserves_now : preserves R now.
Proof. intros w. apply rel_tables. reflexivity. Qed.

Lemma preserves_commit : preserves R commit.
Proof. intros w. apply rel_tables. reflexivity. Qed.

Lemma preserves_text_param s : preserves R (text_param s).
Proof.
  unfold text_param. destruct (PyStr.has_nul s); [apply preserves_raise | apply preserves_ret].
Qed.

Lemma preserves_or_raise {A} e (o : option A) : preserves R (or_raise e o).
Proof. destruct o; [apply preserves_ret | apply preserves_raise]. Qed.

Lemma preserves_select_user c : preserves R (select_user c).
Proof. intros w. apply rel_refl. Qed.

Lemma preserves_get_user_state k : preserves R (get_user_state k).
Proof. intros w. apply rel_refl. Qed.

Lemma preserves_set_user_state k s : preserves R (set_user_state k s).
Proof. intros w. apply rel_tables. reflexivity. Qed.

Lemma preserves_pop_user_state k : preserves R (pop_user_state k).
Proof. intros w. apply rel_tables. reflexivity. Qed.

Lemma preserves_help_menu_cmd o : preserves R (help_menu_cmd o).
Proof. destruct o; [apply preserves_api | apply preserves_raise]. Qed.

Lemma preserves_show_main_menu q o : preserves R (show_main_menu q o).
Proof.
  destruct q; [apply preserves_api|].
  destruct o; [apply preserves_api | apply preserves_raise].
Qed.

End Preserves.

(** ** Parts of the world that a computation leaves as they are *)

Section Kept.

Context {B : Type} (f : World -> B).

Lemma kept_ret {A} (a : A) : preserves (kept f) (ret a).
Proof. intros w. reflexivity. Qed.

Lemma kept_raise {A} e : preserves (kept f) (@raise A e).
Proof. intros w. reflexivity. Qed.

Lemma kept_bind {A C} (m : M A) (k : A -> M C) :
  preserves (kept f) m -> (forall a, preserves (kept f) (k a)) ->
  preserves (kept f) (bind m k).
Proof.
  intros Hm Hk w. rewrite run_bind. unfold kept in *.
  destruct (fst (m w)); [rewrite Hk|]; apply Hm.
Qed.

Lemma kept_try_except {A} (m h : M A) :
  preserves (kept f) m -> preserves (kept f) h -> preserves (kept f) (try_except m h).
Proof.
  intros Hm Hh w. specialize (Hm w). unfold run, try_except, kept in *.
  destruct (m w) as [[a|e] w']; simpl in *; [exact Hm|].
  specialize (Hh w'). cbv beta in Hh. unfold run in Hh. congruence.
Qed.

Lemma kept_try_finally {A} (m : M A) (g : M unit) :
  preserves (kept f) m -> preserves (kept f) g -> preserves (kept f) (try_finally m g).
Proof.
  intros Hm Hg w. specialize (Hm w). specialize (Hg (snd (m w))).
  unfold run, try_finally, kept in *.
  destruct (m w) as [r w']. simpl in *.
  destruct (g w') as [[u|e] w'']; simpl in *; congruence.
Qed.

(** What follows a [try] whose handler keeps [f]. *)
Lemma try_except_kept {A} (m h : M A) w :
  preserves (kept f) h -> f (run (try_except m h) w) = f (run m w).
Proof.
  intros Hh. unfold run, try_except.
  destruct (m w) as [[a|e] w']; simpl; [reflexivity|]. apply Hh.
Qed.

Lemma try_finally_kept {A} (m : M A) (g : M unit) w :
  preserves (kept f) g -> f (run (try_finally m g) w) = f (run m w).
Proof.
  intros Hg. unfold run, try_finally.
  destruct (m w) as [r w']. specialize (Hg w'). unfold run, kept in Hg.
  destruct (g w') as [[u|e] w'']; simpl in *; exact Hg.
Qed.

(** Once the transaction [wr] has gone through, what follows inside the
    [try], and the [except] clause, keep [f] when they only talk to the
    Bot API. *)
Lemma writes_then_kept (wr k h : M unit) w w2 :
  wr w = (Ok tt, w2) ->
  preserves (kept f) k -> preserves (kept f) h ->
  f (run (try_except (wr ;;; k) h) w) = f w2.
Proof.
  intros Hwr Hk Hh. unfold run, try_except, bind. rewrite Hwr.
  specialize (Hk w2). unfold run, kept in Hk.
  destruct (k w2) as [[u|e] w3]; simpl in *; [exact Hk|].
  specialize (Hh w3). unfold run, kept in Hh. congruence.
Qed.

End Kept.

(** The Bot API, the clock and [user_state] are not the database. *)

Lemma api_durable e : preserves (kept durable) (api e).
Proof. intros w. unfold kept, run, api. destruct (hd true (net w)); reflexivity. Qed.

Lemma api_tables e : preserves (kept db) (api e).
Proof. intros w. unfold kept, run, api. destruct (hd true (net w)); reflexivity. Qed.

Lemma pop_durable k : preserves (kept durable) (pop_user_state k).
Proof. intros w. reflexivity. Qed.

Lemma pop_tables k : preserves (kept db) (pop_user_state k).
Proof. intros w. reflexivity. Qed.

Ltac kept_step :=
  first [ solve [apply api_durable] | solve [apply api_tables]
        | solve [apply pop_durable] | solve [apply pop_tables]
        | solve [apply kept_ret] | solve [apply kept_raise]
        | apply kept_bind; [|intros ?]
        | apply kept_try_except
        | apply kept_try_finally ].

(** ** The tables *)

Lemma find_user_app c us vs :
  find_user c (us ++ vs)%list =
  match find_user c us with Some u => Some u | None => find_user c vs end.
Proof.
  unfold find_user. induction us as [|u us IH]; simpl; [reflexivity|].
  destruct (chat_id u =? c); [reflexivity | exact IH].
Qed.

Lemma count_users_none c us : find_user c us = None -> count_users c us = 0%nat.
Proof.
  unfold find_user, count_users. induction us as [|u us IH]; simpl; [reflexivity|].
  destruct (chat_id u =? c); [discriminate | exact IH].
Qed.

Lemma count_users_app c us vs :
  count_users c (us ++ vs)%list = (count_users c us + count_users c vs)%nat.
Proof. unfold count_users. rewrite List.filter_app, List.length_app. reflexivity. Qed.

Lemma count_users_absent c us :
  ~ List.In c (List.map chat_id us) -> count_users c us = 0%nat.
Proof.
  unfold count_users. induction us as [|u us IH]; simpl; intros H; [reflexivity|].
  destruct (Z.eqb_spec (chat_id u) c) as [E|E]; [exfalso; auto|].
  apply IH. intros Hin. apply H. right. exact Hin.
Qed.

Lemma count_users_pk c us u :
  List.NoDup (List.map chat_id us) -> find_user c us = Some u ->
  count_users c us = 1%nat.
Proof.
  unfold find_user. induction us as [|v us IH]; simpl; intros Hnd Hf; [discriminate|].
  inversion Hnd as [|? ? Hnotin Hnd']; subst.
  unfold count_users. simpl.
  destruct (Z.eqb_spec (chat_id v) c) as [E|E].
  - simpl. f_equal. apply (count_users_absent c us). rewrite <- E. exact Hnotin.
  - apply IH; assumption.
Qed.

(** ** [/start] *)

Lemma start_db m w :
  db (run (start m) w) =
  match find_user (msg_chat m) (users (db w)) with
  | Some _ => db w
  | None =>
      if storable (msg_from m)
      then mkDB (users (db w) ++ [new_user_row m]) (payments (db w))
                (payments_id_seq (db w))
      else db w
  end.
Proof.
  unfold start. rewrite run_bind.
  unfold try_except, bind, select_user, insert_user, commit, ret, run, storable.
  cbn [new_user_row username name chat_id].
  destruct (find_user (msg_chat m) (users (db w))) eqn:E; cbn.
  - rewrite api_db'. reflexivity.
  - destruct (PyStr.has_nul _ || PyStr.has_nul _); cbn.
    + rewrite api_db'. reflexivity.
    + rewrite E. cbn. rewrite api_db'. reflexivity.
Qed.

Lemma start_finds m w :
  storable (msg_from m) = true \/ find_user (msg_chat m) (users (db w)) <> None ->
  exists u, find_user (msg_chat m) (users (db (run (start m) w))) = Some u.
Proof.
  intros H. rewrite start_db.
  destruct (find_user (msg_chat m) (users (db w))) as [u|] eqn:E.
  - exists u. exact E.
  - destruct H as [-> | H]; [|contradiction].
    exists (new_user_row m). simpl. rewrite find_user_app, E.
    unfold find_user. simpl. rewrite Z.eqb_refl. reflexivity.
Qed.

(** C9, as stated, fails for a name that the database driver refuses:
    the full name of user 42 holds a NUL character, the [INSERT] raises
    inside the [try], and after two [/start] commands, both answered
    with the welcome text, the chat has no row at all. *)
Lemma C9_counterexample :
  let m := mkMessage 42 (mkTgUser 42 (Some "al") (String "000" "Alice")) (Some "/start") [] in
  let w := fresh_world [] [] in
  let w2 := run (start m) (run (start m) w) in
  storable (msg_from m) = false /\
  count_users 42 (users (db w2)) = 0%nat /\
  db w2 = db w /\
  outbox w2 = [ReplyText 42 welcome_text main_menu_keyboard;
               ReplyText 42 welcome_text main_menu_keyboard].
Proof. repeat split; reflexivity. Qed.

(** C9, amended.  [onEntry] is idempotent for every account whose names
    can be stored (no NUL character in the username or the full name),
    and for every chat that already has a row: after two [/start]
    commands from the same chat the tables are what they were after the
    first one, the chat has exactly one row in [users] (the table
    respecting its primary key beforehand), and a row that was already
    there is not touched by either call.  For a chat without a row whose
    names cannot be stored, [/start] leaves the tables as they are: no
    row is created. *)
Theorem C9_start_idempotent (m1 m2 : Message) (w : World) :
  msg_chat m2 = msg_chat m1 ->
  users_pk (db w) ->
  let w1 := run (start m1) w in
  let w2 := run (start m2) w1 in
  (storable (msg_from m1) = true \/ find_user (msg_chat m1) (users (db w)) <> None ->
   db w2 = db w1 /\
   count_users (msg_chat m1) (users (db w2)) = 1%nat /\
   find_user (msg_chat m1) (users (db w2)) = find_user (msg_chat m1) (users (db w1)) /\
   (forall u, find_user (msg_chat m1) (users (db w)) = Some u ->
              db w1 = db w /\ find_user (msg_chat m1) (users (db w2)) = Some u)) /\
  (storable (msg_from m1) = false -> find_user (msg_chat m1) (users (db w)) = None ->
   db w1 = db w /\ count_users (msg_chat m1) (users (db w1)) = 0%nat).
Proof.
  intros Hc Hpk w1 w2. split.
  - intros Hok.
    assert (H21 : db w2 = db w1).
    { subst w2. rewrite start_db, Hc.
      destruct (start_finds m1 w Hok) as [u Hu]. fold w1 in Hu. rewrite Hu. reflexivity. }
    assert (H1 : count_users (msg_chat m1) (users (db w1)) = 1%nat).
    { subst w1. rewrite start_db.
      destruct (find_user (msg_chat m1) (users (db w))) as [u|] eqn:E.
      - eapply count_users_pk; eassumption.
      - destruct Hok as [-> | Hok]; [|contradiction].
        simpl. rewrite count_users_app, (count_users_none _ _ E).
        unfold count_users. simpl. rewrite Z.eqb_refl. reflexivity. }
    rewrite H21. repeat split; try assumption.
    + subst w1. rewrite start_db, H. reflexivity.
    + subst w1. rewrite start_db, H. exact H.
  - intros Hbad Hnone. subst w1. rewrite start_db, Hnone, Hbad.
    split; [reflexivity | apply count_users_none, Hnone].
Qed.

Lemma C9_start_idempotent_witness :
  let m := mkMessage 42 (mkTgUser 42 (Some "al") "Alice A") None [] in
  let w := fresh_world [] [] in
  users_pk (db w) /\
  storable (msg_from m) = true /\
  db (run (start m) (run (start m) w)) = db (run (start m) w) /\
  count_users 42 (users (db (run (start m) (run (start m) w)))) = 1%nat.
Proof.
  intros m w.
  assert (Hpk : users_pk (db w)) by constructor.
  split; [exact Hpk|]. split; [reflexivity|].
  destruct (C9_start_idempotent m m w eq_refl Hpk) as (Hok & _).
  destruct (Hok (or_introl eq_refl)) as (H1 & H2 & _).
  split; [exact H1 | exact H2].
Defined.

(** ** [handle_photo] without a matching session *)

Lemma not_expecting e o :
  expecting_of o <> Some e -> is_expecting e o = false.
Proof.
  unfold is_expecting. destruct (expecting_of o) as [[]|], e; try reflexivity;
    intros H; exfalso; apply H; reflexivity.
Qed.

(** C7. When the session of the chat is not one awaiting a screenshot
    (or there is none), [handle_photo] does exactly one thing, the reply
    that no payment process was detected: the tables and [user_state]
    are unchanged, and the reply is in the outbox once delivered. *)
Theorem C7_photo_without_session (ADMIN_ID : Z) (m : Message) (w : World) :
  expecting_of (user_state w !! msg_chat m) <> Some reg_screenshot ->
  let w' := run (handle_photo ADMIN_ID m) w in
  handle_photo ADMIN_ID m w = api (ReplyText (msg_chat m) no_process_text []) w /\
  db w' = db w /\
  user_state w' = user_state w /\
  (hd true (net w) = true ->
   outbox w' = (outbox w ++ [ReplyText (msg_chat m) no_process_text []])%list).
Proof.
  intros H w'.
  assert (E : handle_photo ADMIN_ID m w
              = api (ReplyText (msg_chat m) no_process_text []) w).
  { unfold handle_photo, bind, get_user_state.
    rewrite (not_expecting _ _ H). reflexivity. }
  subst w'. unfold run. rewrite E.
  split; [reflexivity|]. split; [apply api_db|].
  split; [apply api_user_state | apply api_delivered].
Qed.

Lemma C7_photo_without_session_witness :
  let m := mkMessage 42 (mkTgUser 42 None "Alice A") None ["photo-1"] in
  let w := fresh_world [] [] in
  expecting_of (user_state w !! msg_chat m) <> Some reg_screenshot /\
  db (run (handle_photo 1 m) w) = db w /\
  outbox (run (handle_photo 1 m) w) = [ReplyText 42 no_process_text []].
Proof.
  intros m w.
  assert (H : expecting_of (user_state w !! msg_chat m) <> Some reg_screenshot)
    by (vm_compute; discriminate).
  split; [exact H|].
  destruct (C7_photo_without_session 1 m w H) as (_ & Hdb & _ & Hout).
  split; [exact Hdb | exact (Hout eq_refl)].
Defined.

(** ** [handle_text] from the administrator *)

Lemma is_expecting_credentials s :
  expecting s = user_credentials -> is_expecting user_credentials (Some s) = true.
Proof. unfold is_expecting. simpl. intros ->. reflexivity. Qed.

(** What [handle_text] does once the administrator is expected to send
    credentials: everything hinges on the non-empty lines of the text. *)
Lemma handle_text_awaiting ADMIN_ID m w s :
  msg_chat m = ADMIN_ID ->
  user_state w !! ADMIN_ID = Some s ->
  expecting s = user_credentials ->
  handle_text ADMIN_ID m w =
  match credential_lines (text_of m) with
  | uname :: password :: _ =>
      match truthy (for_user s) with
      | None =>
          (api (ReplyText ADMIN_ID no_target_text []) ;;;
           pop_user_state ADMIN_ID) w
      | Some target =>
          try_finally
            (try_except
               (credentials_writes target uname ;;;
                credentials_notifies ADMIN_ID target uname password)
               (api (ReplyText ADMIN_ID "Failed to set credentials. See logs." [])))
            (pop_user_state ADMIN_ID) w
      end
  | _ => api (ReplyText ADMIN_ID two_lines_text []) w
  end.
Proof.
  intros Hc Hs He. unfold handle_text. rewrite Hc.
  unfold bind at 1. unfold get_user_state. rewrite Hs.
  rewrite Z.eqb_refl, (is_expecting_credentials s He). cbn [andb].
  destruct (credential_lines (text_of m)) as [|l1 [|l2 ls]]; try reflexivity.
  destruct (truthy (for_user s)); reflexivity.
Qed.

(** C8. With the administrator's session awaiting credentials, a text
    with fewer than two non-empty lines is answered by the request to
    send two lines and by nothing else: no table changes, and the
    session stays as it was (same expectation, same target). *)
Theorem C8_single_line_credentials (ADMIN_ID : Z) (m : Message) (w : World) (s : Session) :
  msg_chat m = ADMIN_ID ->
  user_state w !! ADMIN_ID = Some s ->
  expecting s = user_credentials ->
  (length (credential_lines (text_of m)) < 2)%nat ->
  let w' := run (handle_text ADMIN_ID m) w in
  handle_text ADMIN_ID m w = api (ReplyText ADMIN_ID two_lines_text []) w /\
  db w' = db w /\
  user_state w' = user_state w /\
  user_state w' !! ADMIN_ID = Some s /\
  (hd true (net w) = true ->
   outbox w' = (outbox w ++ [ReplyText ADMIN_ID two_lines_text []])%list).
Proof.
  intros Hc Hs He Hlen w'.
  assert (E : handle_text ADMIN_ID m w = api (ReplyText ADMIN_ID two_lines_text []) w).
  { rewrite (handle_text_awaiting ADMIN_ID m w s Hc Hs He).
    destruct (credential_lines (text_of m)) as [|l1 [|l2 ls]]; try reflexivity.
    simpl in Hlen. lia. }
  subst w'. unfold run. rewrite E.
  split; [reflexivity|]. split; [apply api_db|].
  split; [apply api_user_state|].
  split; [|apply api_delivered].
  change (user_state (run (api (ReplyText ADMIN_ID two_lines_text [])) w) !! ADMIN_ID = Some s).
  rewrite api_user_state. exact Hs.
Qed.

Lemma C8_single_line_credentials_witness :
  let m := mkMessage 1 (mkTgUser 1 None "Boss")
                     (Some ("alice" ++ nl ++ PyStr.utf8 0xA0 ++ PyStr.utf8 0x2028)%string) [] in
  let w := awaiting_world 1 (Some 42) in
  (length (credential_lines (text_of m)) < 2)%nat /\
  db (run (handle_text 1 m) w) = db w /\
  user_state (run (handle_text 1 m) w) !! 1 = Some (mkSession user_credentials None (Some 42)) /\
  outbox (run (handle_text 1 m) w) = [ReplyText 1 two_lines_text []].
Proof.
  intros m w.
  assert (Hlen : (length (credential_lines (text_of m)) < 2)%nat) by (vm_compute; lia).
  split; [exact Hlen|].
  destruct (C8_single_line_credentials 1 m w (mkSession user_credentials None (Some 42))
              eq_refl eq_refl eq_refl Hlen) as (_ & Hdb & _ & Hs & Hout).
  split; [exact Hdb|]. split; [exact Hs | exact (Hout eq_refl)].
Defined.

(** C10, as stated, fails when the guidance message cannot be
    delivered: [reply_text] raises, the handler is left before the
    [pop], and the administrator's session stays as it was. *)
Lemma C10_counterexample :
  let m := mkMessage 1 (mkTgUser 1 None "Boss") (Some ("alice" ++ nl ++ "Secret1")) [] in
  let w := with_net [false] (awaiting_world 1 None) in
  let w' := run (handle_text 1 m) w in
  user_state w !! 1 = Some (mkSession user_credentials None None) /\
  credential_lines (text_of m) = ["alice"; "Secret1"] /\
  fst (handle_text 1 m w) = Raise TelegramError /\
  outbox w' = [] /\
  user_state w' !! 1 = Some (mkSession user_credentials None None).
Proof. repeat split; reflexivity. Qed.

(** C10, amended.  With the administrator's session awaiting credentials
    but naming no target (the key is missing, or holds 0), two valid
    lines write nothing to the tables and the handler tries to tell the
    administrator to use the finalize button.  The session is removed
    after that message: when it is delivered the session is gone, when
    it is refused the error leaves the handler and the session stays as
    it was. *)
Theorem C10_credentials_without_target (ADMIN_ID : Z) (m : Message) (w : World) (s : Session) :
  msg_chat m = ADMIN_ID ->
  user_state w !! ADMIN_ID = Some s ->
  expecting s = user_credentials ->
  for_user s = None \/ for_user s = Some 0 ->
  (2 <= length (credential_lines (text_of m)))%nat ->
  let w' := run (handle_text ADMIN_ID m) w in
  db w' = db w /\
  durable w' = durable w /\
  (hd true (net w) = true ->
   outbox w' = (outbox w ++ [ReplyText ADMIN_ID no_target_text []])%list /\
   user_state w' = delete ADMIN_ID (user_state w) /\
   user_state w' !! ADMIN_ID = None) /\
  (hd true (net w) = false ->
   fst (handle_text ADMIN_ID m w) = Raise TelegramError /\
   outbox w' = outbox w /\
   user_state w' = user_state w /\
   user_state w' !! ADMIN_ID = Some s).
Proof.
  intros Hc Hs He Ht Hlen w'.
  assert (E : handle_text ADMIN_ID m w =
              (api (ReplyText ADMIN_ID no_target_text []) ;;;
               pop_user_state ADMIN_ID) w).
  { rewrite (handle_text_awaiting ADMIN_ID m w s Hc Hs He).
    destruct (credential_lines (text_of m)) as [|l1 [|l2 ls]];
      [simpl in Hlen; lia | simpl in Hlen; lia |].
    destruct Ht as [-> | ->]; reflexivity. }
  subst w'. unfold run. rewrite E. unfold bind, api, pop_user_state.
  destruct (hd true (net w)); simpl.
  - split; [reflexivity|]. split; [reflexivity|]. split; [|discriminate]. intros _.
    split; [reflexivity|]. split; [reflexivity|]. apply lookup_delete_eq.
  - split; [reflexivity|]. split; [reflexivity|]. split; [discriminate|]. intros _.
    repeat split; try reflexivity. exact Hs.
Qed.

Lemma C10_credentials_without_target_witness :
  let m := mkMessage 1 (mkTgUser 1 None "Boss") (Some ("alice" ++ nl ++ "Secret1")) [] in
  let w := awaiting_world 1 (Some 0) in
  (2 <= length (credential_lines (text_of m)))%nat /\
  db (run (handle_text 1 m) w) = db w /\
  outbox (run (handle_text 1 m) w) = [ReplyText 1 no_target_text []] /\
  user_state (run (handle_text 1 m) w) !! 1 = None.
Proof.
  intros m w.
  assert (Hlen : (2 <= length (credential_lines (text_of m)))%nat) by (vm_compute; lia).
  split; [exact Hlen|].
  destruct (C10_credentials_without_target 1 m w (mkSession user_credentials None (Some 0))
              eq_refl eq_refl eq_refl (or_intror eq_refl) Hlen) as (Hdb & _ & Hrest & _).
  destruct (Hrest eq_refl) as (Hout & _ & Hs).
  split; [exact Hdb|]. split; [exact Hout | exact Hs].
Defined.

(** ** Which branch of [button_route] a button press takes *)

Ltac skip_literal H :=
  match goal with
  | |- context [String.eqb ?d ?lit] =>
      let E := fresh "E" in
      destruct (String.eqb_spec d lit) as [E|_];
      [rewrite E in H; vm_compute in H; discriminate H|]
  end.

Lemma route_select_account ADMIN_ID q :
  PyStr.startswith (cq_data q) "select_account:" = true ->
  button_route ADMIN_ID q = button_select_account q.
Proof.
  intros H. unfold button_route. cbv zeta.
  do 7 skip_literal H. cbn [orb]. rewrite H. reflexivity.
Qed.

Lemma route_approve ADMIN_ID q :
  PyStr.startswith (cq_data q) "approve_reg_" = true ->
  button_route ADMIN_ID q = button_approve q.
Proof.
  intros H. unfold button_route. cbv zeta.
  do 7 skip_literal H. cbn [orb]. rewrite H.
  destruct (startswith_app _ _ H) as [r ->].
  reflexivity.
Qed.

Lemma route_reject ADMIN_ID q :
  PyStr.startswith (cq_data q) "reject_reg_" = true ->
  button_route ADMIN_ID q = button_reject q.
Proof.
  intros H. unfold button_route. cbv zeta.
  do 7 skip_literal H. cbn [orb]. rewrite H.
  destruct (startswith_app _ _ H) as [r ->].
  reflexivity.
Qed.

Lemma route_finalize ADMIN_ID q :
  PyStr.startswith (cq_data q) "finalize_reg_" = true ->
  button_route ADMIN_ID q = button_finalize ADMIN_ID q.
Proof.
  intros H. unfold button_route. cbv zeta.
  do 7 skip_literal H. cbn [orb]. rewrite H.
  destruct (startswith_app _ _ H) as [r ->].
  reflexivity.
Qed.

(** ** Transactions first, messages after *)

#[export] Instance same_db_rel : TableRel same_db.
Proof.
  split; unfold same_db.
  - reflexivity.
  - intros w1 w2 w3 H12 H23. congruence.
  - auto.
Qed.

Create HintDb preserves.
#[export] Hint Resolve preserves_ret preserves_raise preserves_api preserves_now
  preserves_commit preserves_text_param preserves_or_raise preserves_select_user preserves_get_user_state
  preserves_set_user_state preserves_pop_user_state preserves_help_menu_cmd
  preserves_show_main_menu : preserves.

Ltac preserves_step :=
  first [ solve [auto with preserves typeclass_instances]
        | apply preserves_bind; [exact _ | | intros ?]
        | apply preserves_try_except; [exact _ | | ]
        | apply preserves_try_finally; [exact _ | | ] ].

Lemma approve_notifies_preserves R `{!TableRel R} target :
  preserves R (approve_notifies target).
Proof. unfold approve_notifies. repeat preserves_step. Qed.

Lemma reject_notifies_preserves R `{!TableRel R} target :
  preserves R (reject_notifies target).
Proof. unfold reject_notifies. repeat preserves_step. Qed.

Lemma credentials_notifies_preserves R `{!TableRel R} uid target uname password :
  preserves R (credentials_notifies uid target uname password).
Proof. unfold credentials_notifies. repeat preserves_step. Qed.

(** Once the transaction [wr] has gone through, what follows inside the
    [try], and the [except] clause, only talk to the Bot API. *)
Lemma writes_then_notifies (wr k h : M unit) w w2 :
  wr w = (Ok tt, w2) ->
  preserves same_db k -> preserves same_db h ->
  db (run (try_except (wr ;;; k) h) w) = db w2.
Proof.
  intros Hwr Hk Hh. unfold run, try_except, bind. rewrite Hwr.
  specialize (Hk w2). unfold run, same_db in Hk.
  destruct (k w2) as [[u|e] w3]; simpl in *; [exact Hk|].
  specialize (Hh w3). unfold run, same_db in Hh. congruence.
Qed.

Lemma approve_writes_run target pid w :
  exists w2, approve_writes target pid w = (Ok tt, w2) /\
             db w2 = approve_tables target pid (clock w) (db w) /\
             user_state w2 = user_state w /\
             durable w2 = db w2.
Proof.
  unfold approve_writes, approve_tables.
  destruct (truthy pid) as [i|]; eexists; (split; [reflexivity|]); repeat split; reflexivity.
Qed.

Lemma reject_writes_run target pid w :
  exists w2, reject_writes target pid w = (Ok tt, w2) /\
             db w2 = reject_tables target pid (db w) /\
             user_state w2 = user_state w /\
             durable w2 = db w2.
Proof.
  unfold reject_writes, reject_tables.
  destruct (truthy pid) as [i|]; eexists; (split; [reflexivity|]); repeat split; reflexivity.
Qed.

Lemma credentials_writes_run target uname w :
  PyStr.has_nul uname = false ->
  exists w2, credentials_writes target uname w = (Ok tt, w2) /\
             db w2 = credentials_tables target uname (clock w) (db w) /\
             user_state w2 = user_state w /\
             durable w2 = db w2.
Proof.
  intros Hn. unfold credentials_writes, credentials_tables, bind, text_param, now.
  rewrite Hn. eexists; (split; [reflexivity|]); repeat split; reflexivity.
Qed.

(** A username that the driver refuses: the [UPDATE] raises before
    anything is written. *)
Lemma credentials_writes_refused target uname w :
  PyStr.has_nul uname = true ->
  exists w2, credentials_writes target uname w = (Raise DataError, w2) /\
             db w2 = db w /\ durable w2 = durable w /\
             user_state w2 = user_state w /\ outbox w2 = outbox w /\ net w2 = net w.
Proof.
  intros Hn. unfold credentials_writes, bind, text_param, now.
  rewrite Hn. eexists; (split; [reflexivity|]); repeat split; reflexivity.
Qed.

(** ** [button_handler]: the answer, then the route, then the catch-all *)

Lemma try_except_db {A} (m h : M A) w :
  preserves same_db h -> db (run (try_except m h) w) = db (run m w).
Proof.
  intros Hh. unfold run, try_except.
  destruct (m w) as [[a|e] w']; simpl; [reflexivity|]. apply Hh.
Qed.

Lemma catch_all_preserves R `{!TableRel R} :
  preserves R (try_except (api (EditMessageText "An error occurred. Contact admin." []))
                          (ret tt)).
Proof. repeat preserves_step. Qed.

Lemma button_handler_unanswered ADMIN_ID q w :
  hd true (net w) = false ->
  db (run (button_handler ADMIN_ID q) w) = db w /\
  user_state (run (button_handler ADMIN_ID q) w) = user_state w.
Proof.
  intros H. unfold run, button_handler, bind, api. rewrite H. split; reflexivity.
Qed.

Lemma button_handler_db ADMIN_ID q w :
  hd true (net w) = true ->
  db (run (button_handler ADMIN_ID q) w) = db (run (button_route ADMIN_ID q) (answered w)).
Proof.
  intros H. unfold button_handler. rewrite run_bind.
  assert (E : api AnswerCallback w = (Ok tt, answered w))
    by (unfold api; rewrite H; reflexivity).
  unfold run at 2. rewrite E. cbn [fst snd].
  apply try_except_db, catch_all_preserves, _.
Qed.

Lemma parse_target_length parts ids :
  parse_target parts = Some ids -> (3 <=? length parts)%nat = true.
Proof.
  destruct parts as [|a [|b [|c rest]]]; try (vm_compute; discriminate).
  reflexivity.
Qed.

Lemma button_approve_db q w target pid :
  parse_target (PyStr.split (cq_data q) "_") = Some (target, pid) ->
  db (run (button_approve q) w) = approve_tables target pid (clock w) (db w).
Proof.
  intros Hp. unfold button_approve. cbv zeta.
  rewrite (parse_target_length _ _ Hp), run_bind.
  unfold try_except at 2, bind at 1, run at 2. rewrite Hp. cbn.
  destruct (approve_writes_run target pid w) as (w2 & Hw & Hdb & _).
  rewrite <- Hdb. apply writes_then_notifies; [exact Hw | |].
  - apply approve_notifies_preserves, _.
  - apply preserves_api, _.
Qed.

Lemma button_approve_unparsed q w :
  parse_target (PyStr.split (cq_data q) "_") = None ->
  db (run (button_approve q) w) = db w.
Proof.
  intros Hp. unfold button_approve. cbv zeta.
  destruct (3 <=? length _)%nat; [|apply api_db].
  unfold run, bind, try_except. rewrite Hp. cbn.
  unfold api. destruct (hd true (net w)); reflexivity.
Qed.

Lemma approve_notifies_durable target : preserves (kept durable) (approve_notifies target).
Proof. unfold approve_notifies. repeat kept_step. Qed.

Lemma reject_notifies_durable target : preserves (kept durable) (reject_notifies target).
Proof. unfold reject_notifies. repeat kept_step. Qed.

Lemma credentials_notifies_durable uid target uname password :
  preserves (kept durable) (credentials_notifies uid target uname password).
Proof. unfold credentials_notifies. repeat kept_step. Qed.

(** What is committed when [button_handler] returns is what was
    committed when the route taken returned. *)
Lemma button_handler_durable ADMIN_ID q w :
  hd true (net w) = true ->
  durable (run (button_handler ADMIN_ID q) w)
  = durable (run (button_route ADMIN_ID q) (answered w)).
Proof.
  intros H. unfold button_handler. rewrite run_bind.
  assert (E : api AnswerCallback w = (Ok tt, answered w))
    by (unfold api; rewrite H; reflexivity).
  unfold run at 2. rewrite E. cbn [fst snd].
  apply (try_except_kept durable). repeat kept_step.
Qed.

Lemma button_approve_durable q w target pid :
  parse_target (PyStr.split (cq_data q) "_") = Some (target, pid) ->
  durable (run (button_approve q) w) = approve_tables target pid (clock w) (db w).
Proof.
  intros Hp. unfold button_approve. cbv zeta.
  rewrite (parse_target_length _ _ Hp), run_bind.
  unfold try_except at 2, bind at 1, run at 2. rewrite Hp. cbn.
  destruct (approve_writes_run target pid w) as (w2 & Hw & Hdb & _ & Hd).
  rewrite <- Hdb, <- Hd. apply (writes_then_kept durable); [exact Hw | |].
  - apply approve_notifies_durable.
  - apply api_durable.
Qed.

(** ** Approval and the owner of the attempt *)

(** C2, as stated, fails: the administrator's approve button names
    user 5 and attempt 1; attempt 1 belongs to user 7 and is approved
    all the same. *)
Lemma C2_counterexample :
  let q := mkCallbackQuery (mkTgUser 1 None "Boss") "approve_reg_5_1" in
  let w' := run (button_handler 1 q) two_users_world in
  parse_target (PyStr.split (cq_data q) "_") = Some (5, Some 1) /\
  exists p p',
    payments (db two_users_world) = [p] /\ payments (db w') = [p'] /\
    pay_id p = 1 /\ pay_id p' = 1 /\ pay_chat_id p <> 5 /\
    pay_status p = pending /\ pay_status p' = approved.
Proof.
  split; [reflexivity|].
  exists (attempt_row 1 7 pending),
         (mkPayment 1 7 (Some Standard) "Bank A" approved 100 (Some 200)).
  repeat split; try reflexivity. discriminate.
Qed.

(** C2, amended.  An approve button changes the attempts by their id
    alone: either no attempt changes, or the button carries a non-zero
    attempt id [i] and exactly the attempts with that id are set to
    approved, with the time of approval, whoever owns them.  The second
    case is the one taken, and the change is committed, whenever the
    press is answered and the data carry two integers, the second not
    zero. *)
Theorem C2_approve_by_attempt_id (ADMIN_ID : Z) (q : CallbackQuery) (w : World) :
  PyStr.startswith (cq_data q) "approve_reg_" = true ->
  let w' := run (button_handler ADMIN_ID q) w in
  (payments (db w') = payments (db w) \/
   exists target i,
     parse_target (PyStr.split (cq_data q) "_") = Some (target, Some i) /\
     i <> 0 /\
     payments (db w') =
       update_rows (fun p => pay_id p =? i) (set_pay_approved (hd 0 (clock w)))
                   (payments (db w))) /\
  (forall target i,
      hd true (net w) = true ->
      parse_target (PyStr.split (cq_data q) "_") = Some (target, Some i) ->
      i <> 0 ->
      payments (db w') =
        update_rows (fun p => pay_id p =? i) (set_pay_approved (hd 0 (clock w)))
                    (payments (db w)) /\
      payments (durable w') = payments (db w')).
Proof.
  intros Hpre w'. subst w'. split.
  - destruct (hd true (net w)) eqn:Hnet.
    2:{ left. destruct (button_handler_unanswered ADMIN_ID q w Hnet) as [-> _]. reflexivity. }
    rewrite (button_handler_db _ _ _ Hnet), (route_approve _ _ Hpre).
    destruct (parse_target (PyStr.split (cq_data q) "_")) as [[target pid]|] eqn:Hp.
    2:{ left. rewrite (button_approve_unparsed _ _ Hp). reflexivity. }
    rewrite (button_approve_db _ _ _ _ Hp). unfold approve_tables.
    destruct pid as [i|]; [|left; reflexivity].
    cbn [truthy]. destruct (Z.eqb_spec i 0) as [Hi|Hi]; [left; reflexivity|].
    right. exists target, i.
    split; [reflexivity|]. split; [exact Hi | reflexivity].
  - intros target i Hnet Hp Hi.
    rewrite (button_handler_durable _ _ _ Hnet), (button_handler_db _ _ _ Hnet).
    rewrite (route_approve _ _ Hpre).
    rewrite (button_approve_db _ _ _ _ Hp), (button_approve_durable _ _ _ _ Hp).
    unfold approve_tables. cbn [truthy]. apply Z.eqb_neq in Hi. rewrite Hi.
    split; reflexivity.
Qed.

Lemma C2_approve_by_attempt_id_witness :
  let q := mkCallbackQuery (mkTgUser 1 None "Boss") "approve_reg_5_1" in
  let w' := run (button_handler 1 q) two_users_world in
  PyStr.startswith (cq_data q) "approve_reg_" = true /\
  payments (db w') =
    update_rows (fun p => pay_id p =? 1) (set_pay_approved (hd 0 (clock two_users_world)))
                (payments (db two_users_world)) /\
  payments (durable w') = payments (db w').
Proof.
  intros q w'. split; [reflexivity|].
  destruct (C2_approve_by_attempt_id 1 q two_users_world eq_refl) as (_ & H).
  apply (H 5 1); [reflexivity | reflexivity | discriminate].
Defined.

(** ** Who may press the administrator's buttons *)

(** The finalize button never touches the tables, whoever presses it. *)
Lemma finalize_keeps_tables ADMIN_ID q w :
  PyStr.startswith (cq_data q) "finalize_reg_" = true ->
  db (run (button_handler ADMIN_ID q) w) = db w.
Proof.
  intros Hpre.
  assert (H : preserves same_db (button_handler ADMIN_ID q)); [|exact (H w)].
  unfold button_handler. rewrite (route_finalize _ _ Hpre).
  unfold button_finalize, py_int. cbv zeta.
  destruct (3 <=? length _)%nat; repeat preserves_step.
Qed.

(** C1 fails on the code.  User 7 is not the administrator (1); the
    approve and reject buttons pressed by user 7 change both tables, and
    the finalize button opens the administrator's session.  Only the
    finalize button leaves the tables as they were. *)
Theorem C1_admin_buttons_not_gated :
  let bob := mkTgUser 7 (Some "bob") "Bob" in
  let w := two_users_world in
  let approve := run (button_handler 1 (mkCallbackQuery bob "approve_reg_7_1")) w in
  let reject := run (button_handler 1 (mkCallbackQuery bob "reject_reg_5_1")) w in
  let finalize := run (button_handler 1 (mkCallbackQuery bob "finalize_reg_7")) w in
  user_id bob <> 1 /\
  db approve =
    mkDB [user_row 5 "eve" st_pending_approval;
          mkUser 7 "bob" "bob" None None (Some Standard) st_approved (Some 201) None]
         [mkPayment 1 7 (Some Standard) "Bank A" approved 100 (Some 200)] 2 /\
  db reject =
    mkDB [user_row 5 "eve" st_new; user_row 7 "bob" st_pending_approval]
         [attempt_row 1 7 rejected] 2 /\
  db approve <> db w /\ db reject <> db w /\
  db finalize = db w /\
  user_state finalize !! 1 = Some (mkSession user_credentials None (Some 7)).
Proof. repeat split; try reflexivity; discriminate. Qed.

(** ** Selecting a payment account *)

Lemma split_select_account r :
  PyStr.split ("select_account:" ++ r) "select_account:"
  = EmptyString :: PyStr.split r "select_account:".
Proof.
  destruct r; reflexivity.
Qed.

Lemma select_account_parts data :
  PyStr.startswith data "select_account:" = true ->
  exists rest, PyStr.split data "select_account:"
               = EmptyString :: account_of data :: rest.
Proof.
  intros H. destruct (startswith_app _ _ H) as [r ->].
  unfold account_of. rewrite split_select_account. unfold PyStr.split.
  destruct (PyStr.split_go "select_account:" 0 r) as [|a rest] eqn:E.
  - exfalso. exact (split_go_nonempty _ _ _ E).
  - exists rest. reflexivity.
Qed.

(** C4, as stated, fails: user 42 has no row in [users], selects an
    account, and gets an attempt row (without package) and the payment
    details instead of an error. *)
Lemma C4_counterexample :
  let q := mkCallbackQuery (mkTgUser 42 None "Alice A") "select_account:Bank A" in
  let w := fresh_world [] [] in
  let w' := run (button_handler 1 q) w in
  find_user 42 (users (db w)) = None /\
  payments (db w) = [] /\
  payments (db w') = [mkPayment 1 42 None "Bank A" pending 0 None] /\
  outbox w' = [AnswerCallback; EditMessageText (payment_details_text "Bank A") [back_to_menu]].
Proof. repeat split; reflexivity. Qed.

(** C4, amended.  For an actor without a row in [users], or whose row
    has no package, selecting an account (the answer to the button press
    delivered) is not refused for want of a registration.  When the
    account name can be stored, a pending attempt is inserted and
    committed, with the package left unset, the session awaiting the
    screenshot for it is opened, and the actor is shown the payment
    details.  When the account name holds a NUL character the [INSERT]
    is refused: no row, no session, and the error text of line 293. *)
Theorem C4_select_account_without_package (ADMIN_ID : Z) (q : CallbackQuery) (w : World) :
  PyStr.startswith (cq_data q) "select_account:" = true ->
  (forall u, find_user (user_id (cq_from q)) (users (db w)) = Some u -> package u = None) ->
  hd true (net w) = true ->
  let uid := user_id (cq_from q) in
  let pid := payments_id_seq (db w) in
  let account := account_of (cq_data q) in
  let w' := run (button_handler ADMIN_ID q) w in
  (PyStr.has_nul account = false ->
   users (db w') = users (db w) /\
   payments (db w') =
     (payments (db w) ++ [mkPayment pid uid None account pending (hd 0 (clock w)) None])%list /\
   durable w' = db w' /\
   user_state w' = <[uid := mkSession reg_screenshot (Some pid) None]> (user_state w) /\
   (hd true (tl (net w)) = true ->
    outbox w' =
      (outbox w ++ [AnswerCallback;
                    EditMessageText (payment_details_text account) [back_to_menu]])%list)) /\
  (PyStr.has_nul account = true ->
   db w' = db w /\
   durable w' = durable w /\
   user_state w' = user_state w /\
   (hd true (tl (net w)) = true ->
    outbox w' =
      (outbox w ++ [AnswerCallback;
                    EditMessageText "Error creating payment record. Try again later."
                                    [back_to_menu]])%list)).
Proof.
  intros Hpre Hpkg Hnet uid pid account w'.
  destruct (select_account_parts _ Hpre) as [rest Hparts].
  assert (Hp : match find_user (user_id (cq_from q)) (users (db w)) with
               | Some u => package u
               | None => None
               end = None).
  { destruct (find_user _ _) as [u|]; [apply (Hpkg u eq_refl) | reflexivity]. }
  subst w' uid pid account. remember (run (button_handler ADMIN_ID q) w) as w' eqn:Ew'.
  unfold run, button_handler, bind at 1, api at 1 in Ew'. rewrite Hnet in Ew'.
  rewrite (route_select_account _ _ Hpre) in Ew'.
  unfold button_select_account in Ew'. rewrite Hparts in Ew'.
  unfold try_except, bind, select_user, insert_payment, bind, text_param, now, commit,
    set_user_state, ret, raise, api in Ew'. cbn in Ew'.
  split; intros Hnul; rewrite Hnul in Ew'; cbn in Ew'.
  - rewrite Hp in Ew'. cbn in Ew'.
    destruct (hd true (tl (net w))); cbn in Ew'.
    + subst w'. cbn. repeat (split; [reflexivity|]).
      intros _. rewrite <- List.app_assoc. reflexivity.
    + destruct (hd true (tl (tl (net w)))); cbn in Ew'; subst w'; cbn;
        repeat (split; [reflexivity|]); discriminate.
  - destruct (hd true (tl (net w))); cbn in Ew'.
    + subst w'. cbn. repeat (split; [reflexivity|]).
      intros _. rewrite <- List.app_assoc. reflexivity.
    + destruct (hd true (tl (tl (net w)))); cbn in Ew'; subst w'; cbn;
        repeat (split; [reflexivity|]); discriminate.
Qed.

Lemma C4_select_account_without_package_witness :
  let q := mkCallbackQuery (mkTgUser 42 None "Alice A") "select_account:Bank A" in
  let w := fresh_world [] [] in
  let w' := run (button_handler 1 q) w in
  (forall u, find_user 42 (users (db w)) = Some u -> package u = None) /\
  PyStr.has_nul (account_of (cq_data q)) = false /\
  payments (db w') = [mkPayment 1 42 None "Bank A" pending 0 None] /\
  user_state w' = {[ 42 := mkSession reg_screenshot (Some 1) None ]}.
Proof.
  intros q w w'.
  assert (H : forall u, find_user 42 (users (db w)) = Some u -> package u = None)
    by (intros u Hu; discriminate Hu).
  split; [exact H|]. split; [reflexivity|].
  destruct (C4_select_account_without_package 1 q w eq_refl H eq_refl) as (Hok & _).
  destruct (Hok eq_refl) as (_ & Hpay & _ & Hst & _).
  split; [exact Hpay | exact Hst].
Defined.

(** ** Failing deliveries and the tables *)

Lemma try_finally_db {A} (m : M A) (f : M unit) w :
  preserves same_db f -> db (run (try_finally m f) w) = db (run m w).
Proof. apply (try_finally_kept db). Qed.

Lemma button_reject_db q w target pid :
  parse_target (PyStr.split (cq_data q) "_") = Some (target, pid) ->
  db (run (button_reject q) w) = reject_tables target pid (db w).
Proof.
  intros Hp. unfold button_reject. cbv zeta.
  rewrite (parse_target_length _ _ Hp), run_bind.
  unfold try_except at 2, bind at 1, run at 2. rewrite Hp. cbn.
  destruct (reject_writes_run target pid w) as (w2 & Hw & Hdb & _).
  rewrite <- Hdb. apply writes_then_notifies; [exact Hw | |].
  - apply reject_notifies_preserves, _.
  - apply preserves_api, _.
Qed.

Lemma button_reject_durable q w target pid :
  parse_target (PyStr.split (cq_data q) "_") = Some (target, pid) ->
  durable (run (button_reject q) w) = reject_tables target pid (db w).
Proof.
  intros Hp. unfold button_reject. cbv zeta.
  rewrite (parse_target_length _ _ Hp), run_bind.
  unfold try_except at 2, bind at 1, run at 2. rewrite Hp. cbn.
  destruct (reject_writes_run target pid w) as (w2 & Hw & Hdb & _ & Hd).
  rewrite <- Hdb, <- Hd. apply (writes_then_kept durable); [exact Hw | |].
  - apply reject_notifies_durable.
  - apply api_durable.
Qed.

(** The credentials, in the view of the connection ([f] is [db]) and as
    committed ([f] is [durable]). *)
Lemma handle_text_credentials_tables (f : World -> DB) ADMIN_ID m w s target uname password
    rest :
  (forall e, preserves (kept f) (api e)) ->
  (forall k, preserves (kept f) (pop_user_state k)) ->
  (forall v v', credentials_writes target uname v = (Ok tt, v') -> f v' = db v') ->
  msg_chat m = ADMIN_ID ->
  user_state w !! ADMIN_ID = Some s ->
  expecting s = user_credentials ->
  truthy (for_user s) = Some target ->
  credential_lines (text_of m) = uname :: password :: rest ->
  PyStr.has_nul uname = false ->
  f (run (handle_text ADMIN_ID m) w) = credentials_tables target uname (clock w) (db w).
Proof.
  intros Hapi Hpop Hf Hc Hs He Ht Hl Hn. unfold run.
  rewrite (handle_text_awaiting ADMIN_ID m w s Hc Hs He), Hl, Ht.
  change (f (run (try_finally
                    (try_except
                       (credentials_writes target uname ;;;
                        credentials_notifies ADMIN_ID target uname password)
                       (api (ReplyText ADMIN_ID "Failed to set credentials. See logs." [])))
                    (pop_user_state ADMIN_ID)) w)
          = credentials_tables target uname (clock w) (db w)).
  rewrite (try_finally_kept f) by apply Hpop.
  destruct (credentials_writes_run target uname w Hn) as (w2 & Hw & Hdb & _).
  rewrite <- Hdb, <- (Hf w w2 Hw). apply (writes_then_kept f); [exact Hw | |].
  - unfold credentials_notifies. apply kept_bind; [apply Hapi | intros _; apply Hapi].
  - apply Hapi.
Qed.

Lemma handle_text_credentials_db ADMIN_ID m w s target uname password rest :
  msg_chat m = ADMIN_ID ->
  user_state w !! ADMIN_ID = Some s ->
  expecting s = user_credentials ->
  truthy (for_user s) = Some target ->
  credential_lines (text_of m) = uname :: password :: rest ->
  PyStr.has_nul uname = false ->
  db (run (handle_text ADMIN_ID m) w) = credentials_tables target uname (clock w) (db w).
Proof.
  apply (handle_text_credentials_tables db);
    [apply api_tables | apply pop_tables | reflexivity].
Qed.

Lemma handle_text_credentials_durable ADMIN_ID m w s target uname password rest :
  msg_chat m = ADMIN_ID ->
  user_state w !! ADMIN_ID = Some s ->
  expecting s = user_credentials ->
  truthy (for_user s) = Some target ->
  credential_lines (text_of m) = uname :: password :: rest ->
  PyStr.has_nul uname = false ->
  durable (run (handle_text ADMIN_ID m) w) = credentials_tables target uname (clock w) (db w).
Proof.
  apply (handle_text_credentials_tables durable); [apply api_durable | apply pop_durable |].
  intros v v' Hv. unfold credentials_writes, bind, text_param, now in Hv.
  destruct (PyStr.has_nul uname); [discriminate Hv|].
  injection Hv as <-. reflexivity.
Qed.

(** [handle_photo] when the forwarding of the screenshot fails. *)
Lemma handle_photo_undelivered ADMIN_ID m w :
  is_expecting reg_screenshot (user_state w !! msg_chat m) = true ->
  hd true (net w) = false ->
  db (run (handle_photo ADMIN_ID m) w) = db w /\
  durable (run (handle_photo ADMIN_ID m) w) = durable w /\
  user_state (run (handle_photo ADMIN_ID m) w) = user_state w.
Proof.
  intros Hs Hn. remember (run (handle_photo ADMIN_ID m) w) as w' eqn:E.
  unfold run, handle_photo, bind at 1, get_user_state in E. rewrite Hs in E.
  cbn [negb] in E. unfold try_except, bind, or_raise, ret, raise, api in E.
  destruct (List.last (List.map Some (msg_photo m)) None);
    cbn in E; rewrite ?Hn in E; cbn in E.
  - destruct (hd true (tl (net w))); subst w'; repeat split; reflexivity.
  - destruct (hd true (net w)); subst w'; repeat split; reflexivity.
Qed.

(** [handle_photo] when both of its messages are delivered. *)
Lemma handle_photo_delivered ADMIN_ID m w s f :
  user_state w !! msg_chat m = Some s ->
  expecting s = reg_screenshot ->
  List.last (List.map Some (msg_photo m)) None = Some f ->
  hd true (net w) = true ->
  hd true (tl (net w)) = true ->
  run (handle_photo ADMIN_ID m) w =
  settled_world
    (mkDB (update_rows (fun u => chat_id u =? msg_chat m)
                       (set_status st_pending_approval) (users (db w)))
          (payments (db w)) (payments_id_seq (db w)))
    (delete (msg_chat m) (user_state w))
    (outbox w ++ [SendPhoto ADMIN_ID f (photo_caption m)
                            (review_keyboard (msg_chat m) (payment_id s));
                  ReplyText (msg_chat m) screenshot_received_text []])
    (tl (tl (net w))) (clock w).
Proof.
  intros Hs He Hf Hn1 Hn2.
  unfold run, handle_photo, bind at 1, get_user_state. rewrite Hs.
  unfold is_expecting. cbn [expecting_of]. rewrite He. cbn [negb].
  unfold try_except, bind, or_raise, ret, raise, api, update_users, commit,
    pop_user_state. rewrite Hf. cbn. rewrite Hn1. cbn. rewrite Hn2. cbn.
  rewrite <- List.app_assoc. reflexivity.
Qed.

(** C6, as stated, fails for the screenshot: the session matches, the
    forwarding to the administrator is refused, and the user stays at
    [pending_payment]; the session is kept for another try. *)
Lemma C6_counterexample :
  let m := mkMessage 42 (mkTgUser 42 (Some "al") "Alice A") None ["photo-1"] in
  let w := awaiting_screenshot_world [false] in
  let w' := run (handle_photo 1 m) w in
  is_expecting reg_screenshot (user_state w !! 42) = true /\
  option_map payment_status (find_user 42 (users (db w'))) = Some st_pending_payment /\
  db w' = db w /\
  durable w' = durable w /\
  user_state w' = user_state w /\
  outbox w' = [ReplyText 42 "Error processing screenshot. Try again later." []].
Proof. repeat split; reflexivity. Qed.

(** C6, amended.  Approval, rejection and the credentials commit their
    transaction before any message is sent: once the button press is
    answered (for the two buttons; for the credentials, the username
    being one the driver accepts) what is committed when the handler
    returns is the tables of the transaction, whatever happens to the
    later deliveries, and the connection has nothing uncommitted.  The
    screenshot is forwarded before anything is written: if the
    forwarding fails, the tables, what is committed and the session stay
    as they were, and the status [pending_approval] is written and
    committed when the forwarding and the acknowledgement are both
    delivered. *)
Theorem C6_transactions_and_deliveries (ADMIN_ID : Z) :
  (forall q w target pid,
      PyStr.startswith (cq_data q) "approve_reg_" = true ->
      parse_target (PyStr.split (cq_data q) "_") = Some (target, pid) ->
      hd true (net w) = true ->
      durable (run (button_handler ADMIN_ID q) w) = approve_tables target pid (clock w) (db w)
      /\ db (run (button_handler ADMIN_ID q) w) = approve_tables target pid (clock w) (db w)) /\
  (forall q w target pid,
      PyStr.startswith (cq_data q) "reject_reg_" = true ->
      parse_target (PyStr.split (cq_data q) "_") = Some (target, pid) ->
      hd true (net w) = true ->
      durable (run (button_handler ADMIN_ID q) w) = reject_tables target pid (db w)
      /\ db (run (button_handler ADMIN_ID q) w) = reject_tables target pid (db w)) /\
  (forall m w s target uname password rest,
      msg_chat m = ADMIN_ID ->
      user_state w !! ADMIN_ID = Some s ->
      expecting s = user_credentials ->
      truthy (for_user s) = Some target ->
      credential_lines (text_of m) = uname :: password :: rest ->
      PyStr.has_nul uname = false ->
      durable (run (handle_text ADMIN_ID m) w)
      = credentials_tables target uname (clock w) (db w)
      /\ db (run (handle_text ADMIN_ID m) w)
         = credentials_tables target uname (clock w) (db w)) /\
  (forall m w s,
      user_state w !! msg_chat m = Some s ->
      expecting s = reg_screenshot ->
      (hd true (net w) = false ->
       db (run (handle_photo ADMIN_ID m) w) = db w /\
       durable (run (handle_photo ADMIN_ID m) w) = durable w /\
       user_state (run (handle_photo ADMIN_ID m) w) = user_state w) /\
      (forall f,
          List.last (List.map Some (msg_photo m)) None = Some f ->
          hd true (net w) = true -> hd true (tl (net w)) = true ->
          users (db (run (handle_photo ADMIN_ID m) w))
          = update_rows (fun u => chat_id u =? msg_chat m)
                        (set_status st_pending_approval) (users (db w))
          /\ durable (run (handle_photo ADMIN_ID m) w)
             = db (run (handle_photo ADMIN_ID m) w))).
Proof.
  split; [|split; [|split]].
  - intros q w target pid Hpre Hp Hn. split.
    + rewrite (button_handler_durable _ _ _ Hn), (route_approve _ _ Hpre).
      rewrite (button_approve_durable _ _ _ _ Hp). reflexivity.
    + rewrite (button_handler_db _ _ _ Hn), (route_approve _ _ Hpre).
      rewrite (button_approve_db _ _ _ _ Hp). reflexivity.
  - intros q w target pid Hpre Hp Hn. split.
    + rewrite (button_handler_durable _ _ _ Hn), (route_reject _ _ Hpre).
      rewrite (button_reject_durable _ _ _ _ Hp). reflexivity.
    + rewrite (button_handler_db _ _ _ Hn), (route_reject _ _ Hpre).
      rewrite (button_reject_db _ _ _ _ Hp). reflexivity.
  - intros m w s target uname password rest Hc Hs He Ht Hl Hn. split.
    + exact (handle_text_credentials_durable _ _ _ s _ _ password rest Hc Hs He Ht Hl Hn).
    + exact (handle_text_credentials_db _ _ _ s _ _ password rest Hc Hs He Ht Hl Hn).
  - intros m w s Hs He. split.
    + apply handle_photo_undelivered.
      unfold is_expecting. rewrite Hs. cbn. rewrite He. reflexivity.
    + intros f Hf Hn1 Hn2.
      rewrite (handle_photo_delivered ADMIN_ID m w s f Hs He Hf Hn1 Hn2).
      split; reflexivity.
Qed.

Lemma C6_transactions_and_deliveries_witness :
  let q := mkCallbackQuery (mkTgUser 1 None "Boss") "approve_reg_7_1" in
  let w := with_net [true; false; false; false] two_users_world in
  let m := mkMessage 42 (mkTgUser 42 (Some "al") "Alice A") None ["photo-1"] in
  let v := awaiting_screenshot_world [false] in
  (hd true (net w) = true /\
   outbox (run (button_handler 1 q) w) = [AnswerCallback] /\
   durable (run (button_handler 1 q) w)
   = mkDB [user_row 5 "eve" st_pending_approval;
           mkUser 7 "bob" "bob" None None (Some Standard) st_approved (Some 201) None]
          [mkPayment 1 7 (Some Standard) "Bank A" approved 100 (Some 200)] 2) /\
  (hd true (net v) = false /\
   db (run (handle_photo 1 m) v) = db v /\
   user_state (run (handle_photo 1 m) v) = user_state v).
Proof.
  intros q w m v.
  destruct (C6_transactions_and_deliveries 1) as (Happrove & _ & _ & Hphoto).
  split.
  - split; [reflexivity|]. split; [reflexivity|].
    exact (proj1 (Happrove q w 7 (Some 1) eq_refl eq_refl eq_refl)).
  - split; [reflexivity|].
    destruct (Hphoto m v (mkSession reg_screenshot (Some 1) None) eq_refl eq_refl)
      as (Hfail & _).
    destruct (Hfail eq_refl) as (Hdb & _ & Hst).
    split; [exact Hdb | exact Hst].
Defined.

(** ** The status of a user under the handlers *)

#[export] Instance status_step_rel t : TableRel (status_step t).
Proof.
  split; unfold status_step.
  - intros w c s H. exists s. auto.
  - intros w1 w2 w3 H12 H23 c s H.
    destruct (H12 c s H) as (s' & H' & Hs').
    destruct (H23 c s' H') as (s'' & H'' & Hs'').
    exists s''. split; [exact H''|].
    destruct Hs'' as [->|Ht]; [exact Hs' | right; exact Ht].
  - intros w w' Hdb c s H. exists s. unfold status_of in *. rewrite Hdb. auto.
Qed.

Lemma status_step_same_users t w w' :
  users (db w') = users (db w) -> status_step t w w'.
Proof.
  intros Hu c s H. exists s. unfold status_of in *. rewrite Hu. auto.
Qed.

Lemma find_user_update_rows c c' f us :
  (forall u, chat_id (f u) = chat_id u) ->
  find_user c (update_rows (fun u => chat_id u =? c') f us)
  = option_map (fun u => if chat_id u =? c' then f u else u) (find_user c us).
Proof.
  intros Hf. unfold find_user, update_rows.
  induction us as [|u us IH]; simpl; [reflexivity|].
  destruct (chat_id u =? c') eqn:E'.
  - rewrite Hf. destruct (chat_id u =? c); [simpl; rewrite E'; reflexivity | exact IH].
  - destruct (chat_id u =? c); [simpl; rewrite E'; reflexivity | exact IH].
Qed.

Lemma preserves_update_users t c f :
  (forall u, chat_id (f u) = chat_id u) ->
  (forall u, Some (payment_status (f u)) = t) ->
  preserves (status_step t) (update_users c f).
Proof.
  intros Hid Hst w c' s H. unfold status_of, run, update_users in *. simpl.
  rewrite (find_user_update_rows _ _ _ _ Hid).
  destruct (find_user c' (users (db w))) as [u|]; [|discriminate].
  simpl in *. injection H as <-.
  destruct (chat_id u =? c); eexists; (split; [reflexivity|]); auto.
Qed.

Lemma preserves_insert_user t u : preserves (status_step t) (insert_user u).
Proof.
  intros w c s H. unfold status_of, run, insert_user in *.
  destruct (PyStr.has_nul _ || PyStr.has_nul _); [exists s; auto|].
  destruct (find_user (chat_id u) (users (db w))); simpl.
  - exists s. auto.
  - rewrite find_user_app.
    destruct (find_user c (users (db w))) as [v|]; [|discriminate].
    exists s. auto.
Qed.

Lemma preserves_update_payments t sel f : preserves (status_step t) (update_payments sel f).
Proof. intros w. apply status_step_same_users. reflexivity. Qed.

Lemma insert_payment_users c pkg account w :
  users (db (run (insert_payment c pkg account) w)) = users (db w).
Proof.
  unfold run, insert_payment, bind, text_param, now.
  destruct (PyStr.has_nul account); reflexivity.
Qed.

Lemma preserves_insert_payment t c pkg account :
  preserves (status_step t) (insert_payment c pkg account).
Proof. intros w. apply status_step_same_users, insert_payment_users. Qed.

#[export] Hint Resolve preserves_insert_user preserves_update_payments
  preserves_insert_payment : preserves.

Ltac status_step :=
  first [ solve [apply preserves_update_users; intros; reflexivity]
        | solve [auto with preserves typeclass_instances]
        | preserves_step ].

Lemma start_status t m : preserves (status_step t) (start m).
Proof.
  unfold start. repeat status_step.
  destruct a; repeat status_step.
Qed.

Lemma button_reg_status q :
  preserves (status_step (Some st_pending_payment)) (button_reg q).
Proof.
  unfold button_reg. cbv zeta. repeat status_step.
  destruct (Nat.eqb a 0); repeat status_step.
Qed.

Lemma button_select_account_status t q :
  preserves (status_step t) (button_select_account q).
Proof.
  unfold button_select_account.
  destruct (PyStr.split (cq_data q) "select_account:") as [|? [|account ?]];
    repeat status_step.
  destruct a; repeat status_step.
Qed.

Lemma button_approve_status q :
  preserves (status_step (Some st_approved)) (button_approve q).
Proof.
  unfold button_approve. cbv zeta.
  destruct (3 <=? length _)%nat; repeat status_step.
  destruct a as [[target pid]|]; repeat status_step.
  unfold approve_writes. repeat status_step.
  destruct (truthy pid); repeat status_step.
Qed.

Lemma button_reject_status q :
  preserves (status_step (Some st_new)) (button_reject q).
Proof.
  unfold button_reject. cbv zeta.
  destruct (3 <=? length _)%nat; repeat status_step.
  destruct a as [[target pid]|]; repeat status_step.
  unfold reject_writes. repeat status_step.
  destruct (truthy pid); repeat status_step.
Qed.

Lemma button_finalize_status t ADMIN_ID q :
  preserves (status_step t) (button_finalize ADMIN_ID q).
Proof.
  unfold button_finalize. cbv zeta.
  destruct (3 <=? length _)%nat; unfold py_int; repeat status_step.
Qed.

Lemma button_route_status ADMIN_ID q :
  preserves (status_step (written_status (ButtonPress q))) (button_route ADMIN_ID q).
Proof.
  unfold button_route, written_status. cbv zeta.
  destruct (String.eqb (cq_data q) "menu"); [repeat status_step|].
  destruct (String.eqb (cq_data q) "help"); [repeat status_step|].
  destruct (String.eqb (cq_data q) "how_to_pay"); [repeat status_step|].
  destruct (String.eqb (cq_data q) "registration_process"); [repeat status_step|].
  destruct (String.eqb (cq_data q) "package_selector"); [repeat status_step|].
  destruct (String.eqb (cq_data q) "reg_standard" || String.eqb (cq_data q) "reg_x");
    [apply button_reg_status|].
  destruct (PyStr.startswith (cq_data q) "select_account:");
    [apply button_select_account_status|].
  destruct (PyStr.startswith (cq_data q) "approve_reg_"); [apply button_approve_status|].
  destruct (PyStr.startswith (cq_data q) "reject_reg_"); [apply button_reject_status|].
  destruct (PyStr.startswith (cq_data q) "finalize_reg_");
    [apply button_finalize_status | repeat status_step].
Qed.

Lemma handle_photo_status ADMIN_ID m :
  preserves (status_step (Some st_pending_approval)) (handle_photo ADMIN_ID m).
Proof.
  unfold handle_photo. cbv zeta. repeat status_step.
  destruct (negb (is_expecting reg_screenshot a)); repeat status_step.
Qed.

Lemma handle_text_status ADMIN_ID m :
  preserves (status_step (Some st_registered)) (handle_text ADMIN_ID m).
Proof.
  unfold handle_text. cbv zeta. repeat status_step.
  destruct (_ && _); [|repeat status_step].
  destruct (credential_lines (text_of m)) as [|uname [|password rest]];
    try (repeat status_step).
  destruct (truthy _) as [target|]; repeat status_step.
Qed.

Lemma handle_status ADMIN_ID u :
  preserves (status_step (written_status u)) (handle ADMIN_ID u).
Proof.
  destruct u as [m|m|m|q|m|m]; cbn [handle].
  - apply start_status.
  - repeat status_step.
  - repeat status_step.
  - unfold button_handler. apply preserves_bind; [exact _ | repeat status_step | intros _].
    apply preserves_try_except; [exact _ | apply button_route_status | repeat status_step].
  - apply handle_photo_status.
  - apply handle_text_status.
Qed.

(** C3, as stated, fails: a registered user who presses a package button
    is back at [pending_payment]. *)
Lemma C3_counterexample :
  let q := mkCallbackQuery (mkTgUser 42 (Some "al") "Alice A") "reg_x" in
  let w' := run (handle 1 (ButtonPress q)) registered_world in
  status_of 42 registered_world = Some st_registered /\
  status_of 42 w' = Some st_pending_payment /\
  (rank st_pending_payment < rank st_registered)%nat.
Proof. repeat split; try reflexivity. vm_compute. lia. Qed.

(** C3, amended.  Under every update a user's row stays, and its
    [payment_status] either stays or is overwritten with the one value
    that this kind of update writes (pending_payment for a package
    button, pending_approval for a screenshot, approved and new for the
    approve and reject buttons, registered for the credentials),
    whatever it was before.  So the status does not move backwards
    unless the previous status lies after the value written. *)
Theorem C3_status_overwritten (ADMIN_ID : Z) (u : Update) (w : World) (c : Z)
    (s : PaymentStatus) :
  status_of c w = Some s ->
  exists s',
    status_of c (run (handle ADMIN_ID u) w) = Some s' /\
    (s' = s \/ written_status u = Some s') /\
    ((forall t, written_status u = Some t -> (rank s <= rank t)%nat) ->
     (rank s <= rank s')%nat).
Proof.
  intros H. destruct (handle_status ADMIN_ID u w c s H) as (s' & H' & Hs').
  exists s'. split; [exact H'|]. split; [exact Hs'|].
  intros Hr. destruct Hs' as [->|Ht]; [lia | apply Hr, Ht].
Qed.

Lemma C3_status_overwritten_witness :
  let q := mkCallbackQuery (mkTgUser 1 None "Boss") "approve_reg_7_1" in
  status_of 7 two_users_world = Some st_pending_approval /\
  exists s',
    status_of 7 (run (handle 1 (ButtonPress q)) two_users_world) = Some s' /\
    (s' = st_pending_approval \/ written_status (ButtonPress q) = Some s') /\
    ((forall t, written_status (ButtonPress q) = Some t ->
                (rank st_pending_approval <= rank t)%nat) ->
     (rank st_pending_approval <= rank s')%nat).
Proof.
  intros q. split; [reflexivity|].
  exact (C3_status_overwritten 1 (ButtonPress q) two_users_world 7 st_pending_approval
           eq_refl).
Defined.

(** ** Identifiers written into button data and read back *)

Lemma prefix_empty s : String.prefix EmptyString s = true.
Proof. destruct s; reflexivity. Qed.

Lemma append_cons c a r : String c a ++ r = String c (a ++ r).
Proof. reflexivity. Qed.

Lemma all_chars_impl (P Q : ascii -> bool) s :
  (forall c, P c = true -> Q c = true) -> all_chars P s = true -> all_chars Q s = true.
Proof.
  intros HPQ. induction s as [|c s IH]; simpl; [reflexivity|].
  intros H. apply andb_true_iff in H as [Hc Hs].
  rewrite (HPQ c Hc), (IH Hs). reflexivity.
Qed.

Lemma string_of_uint_digits d : all_chars is_digit (NilEmpty.string_of_uint d) = true.
Proof. induction d; simpl; try rewrite IHd; reflexivity. Qed.

Lemma of_int_plain z : all_chars is_plain (PyStr.of_int z) = true.
Proof.
  assert (H : forall d, all_chars is_plain (NilZero.string_of_uint d) = true).
  { intros d. apply (all_chars_impl is_digit).
    - intros c Hc. unfold is_plain. rewrite Hc. reflexivity.
    - destruct d; try reflexivity; apply (string_of_uint_digits (_ _)). }
  unfold PyStr.of_int. destruct z as [|p|p]; cbn [Z.to_int NilZero.string_of_int].
  - reflexivity.
  - apply H.
  - cbn [all_chars]. rewrite H. reflexivity.
Qed.

Lemma lstrip_by_id sp s :
  all_chars (fun c => negb (sp c)) s = true -> PyStr.lstrip_by sp s = s.
Proof.
  destruct s as [|c s]; simpl; [reflexivity|].
  intros H. apply andb_true_iff in H as [Hc _].
  destruct (sp c); [discriminate | reflexivity].
Qed.

Lemma rstrip_by_id sp s :
  all_chars (fun c => negb (sp c)) s = true -> PyStr.rstrip_by sp s = s.
Proof.
  induction s as [|c s IH]; simpl; [reflexivity|].
  intros H. apply andb_true_iff in H as [Hc Hs]. rewrite (IH Hs).
  destruct s; [|reflexivity]. destruct (sp c); [discriminate | reflexivity].
Qed.

Lemma strip_by_id sp s :
  all_chars (fun c => negb (sp c)) s = true -> PyStr.strip_by sp s = s.
Proof.
  intros H. unfold PyStr.strip_by. rewrite (lstrip_by_id _ _ H). apply rstrip_by_id, H.
Qed.

Lemma is_plain_cases c :
  is_plain c = true ->
  PyStr.int_isspace c = false /\ Ascii.eqb c "+" = false /\ Ascii.eqb c "_" = false /\
  (nat_of_ascii c <? 127)%nat = true.
Proof.
  destruct c as [[] [] [] [] [] [] [] []]; vm_compute; intros H;
    try discriminate H; repeat split.
Qed.

Lemma to_ascii_id s :
  all_chars (fun c => (nat_of_ascii c <? 127)%nat) s = true -> PyStr.to_ascii s = Some s.
Proof.
  unfold PyStr.to_ascii. induction s as [|c s IH]; [reflexivity|].
  cbn [all_chars PyStr.to_ascii_go]. intros H. apply andb_true_iff in H as [Hc Hs].
  rewrite Hc, (IH Hs). reflexivity.
Qed.

Lemma ungroup_go_id b s :
  all_chars (fun c => negb (Ascii.eqb c "_")) s = true ->
  s <> EmptyString \/ b = true ->
  PyStr.ungroup_go b s = Some s.
Proof.
  revert b. induction s as [|c s IH]; intros b H Hb.
  - destruct Hb as [Hb| ->]; [contradiction | reflexivity].
  - cbn [all_chars PyStr.ungroup_go] in *. apply andb_true_iff in H as [Hc Hs].
    apply negb_true_iff in Hc. rewrite Hc, (IH true Hs) by (right; reflexivity).
    reflexivity.
Qed.

(** [int(str(n)) == n] *)
Lemma to_int_of_int z : PyStr.to_int (PyStr.of_int z) = Some z.
Proof.
  unfold PyStr.to_int.
  rewrite to_ascii_id.
  2:{ apply (all_chars_impl is_plain); [|apply of_int_plain].
      intros c Hc. apply (is_plain_cases c Hc). }
  rewrite strip_by_id.
  2:{ apply (all_chars_impl is_plain); [|apply of_int_plain].
      intros c Hc. destruct (is_plain_cases c Hc) as (-> & _). reflexivity. }
  assert (Hi : NilZero.int_of_string (PyStr.of_int z) = Some (Z.to_int z)).
  { unfold PyStr.of_int. apply NilZero.isi.
    - destruct z; cbn; try discriminate.
      intros [= E]. exact (DecimalPos.Unsigned.to_uint_nonnil _ E).
    - destruct z; cbn; try discriminate.
      intros [= E]. exact (DecimalPos.Unsigned.to_uint_nonnil _ E). }
  assert (Hu : all_chars (fun c => negb (Ascii.eqb c "_")) (PyStr.of_int z) = true).
  { apply (all_chars_impl is_plain); [|apply of_int_plain].
    intros c Hc. destruct (is_plain_cases c Hc) as (_ & _ & -> & _). reflexivity. }
  pose proof (of_int_plain z) as Hp.
  destruct (PyStr.of_int z) as [|c ds] eqn:E; [discriminate Hi|].
  cbn [all_chars] in Hp, Hu. apply andb_true_iff in Hp as [Hc _].
  destruct (is_plain_cases c Hc) as (_ & -> & _).
  destruct (Ascii.eqb c "-") eqn:Hm.
  - apply Ascii.eqb_eq in Hm. subst c.
    apply andb_true_iff in Hu as [_ Hds].
    assert (Hne : ds <> EmptyString).
    { intros ->. destruct z as [|p|p]; cbn in E; try discriminate E.
      - destruct (Pos.to_uint p); discriminate E.
      - injection E as E. destruct (Pos.to_uint p); discriminate E. }
    unfold PyStr.ungroup. rewrite (ungroup_go_id false ds Hds (or_introl Hne)).
    rewrite Hi. cbn [option_map]. rewrite DecimalZ.of_to. reflexivity.
  - unfold PyStr.ungroup. rewrite (ungroup_go_id false (String c ds)).
    + rewrite Hi. cbn [option_map]. rewrite DecimalZ.of_to. reflexivity.
    + cbn [all_chars]. exact Hu.
    + left. discriminate.
Qed.

Lemma prefix_underscore c s :
  Ascii.eqb c "_" = false -> String.prefix "_" (String c s) = false.
Proof.
  intros Hu. cbn [String.prefix].
  destruct (ascii_dec "_" c) as [<-|]; [discriminate Hu | reflexivity].
Qed.

Lemma split_go_piece a r :
  all_chars (fun c => negb (Ascii.eqb c "_")) a = true ->
  PyStr.split_go "_" 0 (a ++ String "_" r) = a :: PyStr.split_go "_" 0 r.
Proof.
  induction a as [|c a IH]; intros H.
  - change (EmptyString ++ String "_" r) with (String "_" r).
    cbn [PyStr.split_go]. change (String.prefix "_" (String "_" r)) with (String.prefix "" r).
    rewrite prefix_empty. reflexivity.
  - cbn [all_chars] in H. apply andb_true_iff in H as [Hc Ha].
    apply negb_true_iff in Hc.
    rewrite append_cons. cbn [PyStr.split_go].
    rewrite (prefix_underscore _ _ Hc), (IH Ha). reflexivity.
Qed.

Lemma split_go_last a :
  all_chars (fun c => negb (Ascii.eqb c "_")) a = true -> PyStr.split_go "_" 0 a = [a].
Proof.
  induction a as [|c a IH]; intros H; [reflexivity|].
  cbn [all_chars] in H. apply andb_true_iff in H as [Hc Ha].
  apply negb_true_iff in Hc.
  cbn [PyStr.split_go]. rewrite (prefix_underscore _ _ Hc), (IH Ha). reflexivity.
Qed.

Lemma of_int_no_underscore z :
  all_chars (fun c => negb (Ascii.eqb c "_")) (PyStr.of_int z) = true.
Proof.
  apply (all_chars_impl is_plain); [|apply of_int_plain].
  intros c Hc. destruct (is_plain_cases c Hc) as (_ & _ & -> & _). reflexivity.
Qed.

(** The data of the approve button for user [uid] and attempt [i], and of
    the finalize button for [uid], are read back as [uid] and [i]. *)
Lemma parse_approve_data uid i :
  parse_target (PyStr.split ("approve_reg_" ++ PyStr.of_int uid ++ "_" ++ PyStr.of_int i) "_")
  = Some (uid, Some i).
Proof.
  assert (E : PyStr.split ("approve_reg_" ++ PyStr.of_int uid ++ "_" ++ PyStr.of_int i) "_"
              = ["approve"; "reg"; PyStr.of_int uid; PyStr.of_int i]).
  { unfold PyStr.split.
    change ("approve_reg_" ++ PyStr.of_int uid ++ "_" ++ PyStr.of_int i)
      with ("approve" ++ String "_" ("reg" ++ String "_"
              (PyStr.of_int uid ++ String "_" (PyStr.of_int i)))).
    rewrite split_go_piece by reflexivity.
    rewrite split_go_piece by reflexivity.
    rewrite split_go_piece by apply of_int_no_underscore.
    rewrite split_go_last by apply of_int_no_underscore. reflexivity. }
  rewrite E. unfold parse_target. cbn [nth]. rewrite !to_int_of_int. reflexivity.
Qed.

Lemma split_finalize_data uid :
  PyStr.split ("finalize_reg_" ++ PyStr.of_int uid) "_"
  = ["finalize"; "reg"; PyStr.of_int uid].
Proof.
  unfold PyStr.split.
  change ("finalize_reg_" ++ PyStr.of_int uid)
    with ("finalize" ++ String "_" ("reg" ++ String "_" (PyStr.of_int uid))).
  rewrite split_go_piece by reflexivity.
  rewrite split_go_piece by reflexivity.
  rewrite split_go_last by apply of_int_no_underscore. reflexivity.
Qed.

(** ** The handlers when every message is delivered *)

Lemma start_run m w :
  find_user (msg_chat m) (users (db w)) = None ->
  storable (msg_from m) = true ->
  net w = [] ->
  run (start m) w =
  settled_world
    (mkDB (users (db w) ++ [new_user_row m]) (payments (db w)) (payments_id_seq (db w)))
    (user_state w)
    (outbox w ++ [ReplyText (msg_chat m) welcome_text main_menu_keyboard])
    [] (clock w).
Proof.
  intros Hf Hs Hn. unfold storable in Hs. apply negb_true_iff in Hs.
  unfold run, start, try_except, bind, select_user, insert_user, commit, ret, api.
  rewrite Hf. cbn. rewrite Hs, Hf. cbn. rewrite Hn. reflexivity.
Qed.

Lemma rowcount_found c us u :
  find_user c us = Some u ->
  Nat.eqb (length (List.filter (fun v => chat_id v =? c) us)) 0 = false.
Proof.
  unfold find_user. induction us as [|v us IH]; simpl; [discriminate|].
  destruct (chat_id v =? c); [reflexivity | exact IH].
Qed.

Lemma button_reg_standard_run ADMIN_ID q w u :
  cq_data q = "reg_standard" ->
  find_user (user_id (cq_from q)) (users (db w)) = Some u ->
  net w = [] ->
  run (button_handler ADMIN_ID q) w =
  settled_world
    (mkDB (update_rows (fun v => chat_id v =? user_id (cq_from q))
                       (set_package_status Standard st_pending_payment)
                       (users (db w)))
          (payments (db w)) (payments_id_seq (db w)))
    (user_state w)
    (outbox w ++ [AnswerCallback;
                  EditMessageText
                    "You selected Standard. Choose a payment account and then upload your screenshot."
                    account_keyboard])
    [] (clock w).
Proof.
  intros Hd Hf Hn.
  unfold run, button_handler, bind at 1, api at 1. rewrite Hn. cbn [hd tl].
  unfold button_route. rewrite Hd. cbn [String.eqb Ascii.eqb Bool.eqb orb].
  unfold button_reg. rewrite Hd.
  unfold try_except, bind, update_users, insert_user, commit, ret, api.
  cbn. rewrite (rowcount_found _ _ _ Hf). cbn.
  rewrite <- ?List.app_assoc. reflexivity.
Qed.

Lemma button_select_account_run ADMIN_ID q w :
  PyStr.startswith (cq_data q) "select_account:" = true ->
  PyStr.has_nul (account_of (cq_data q)) = false ->
  net w = [] ->
  run (button_handler ADMIN_ID q) w =
  settled_world
    (mkDB (users (db w))
          (payments (db w)
           ++ [mkPayment (payments_id_seq (db w)) (user_id (cq_from q))
                         match find_user (user_id (cq_from q)) (users (db w)) with
                         | Some u => package u
                         | None => None
                         end
                         (account_of (cq_data q)) pending (hd 0 (clock w)) None])
          (payments_id_seq (db w) + 1))
    (<[user_id (cq_from q) :=
         mkSession reg_screenshot (Some (payments_id_seq (db w))) None]> (user_state w))
    (outbox w ++ [AnswerCallback;
                  EditMessageText (payment_details_text (account_of (cq_data q)))
                                  [back_to_menu]])
    [] (tl (clock w)).
Proof.
  intros Hpre Hnul Hn.
  destruct (select_account_parts _ Hpre) as [rest Hparts].
  unfold run, button_handler, bind at 1, api at 1. rewrite Hn. cbn [hd tl].
  rewrite (route_select_account _ _ Hpre).
  unfold button_select_account. rewrite Hparts.
  unfold try_except, bind, select_user, insert_payment, bind, text_param, now, commit,
    set_user_state, ret, api. cbn. rewrite Hnul. cbn.
  rewrite <- ?List.app_assoc. reflexivity.
Qed.

Lemma button_approve_run ADMIN_ID q w target pid :
  PyStr.startswith (cq_data q) "approve_reg_" = true ->
  parse_target (PyStr.split (cq_data q) "_") = Some (target, pid) ->
  net w = [] ->
  run (button_handler ADMIN_ID q) w =
  settled_world
    (approve_tables target pid (clock w) (db w))
    (user_state w)
    (outbox w ++ [AnswerCallback;
                  SendMessage target approved_text [];
                  EditMessageText
                    "Payment approved. Please finalize the user credentials using the button below."
                    [ [("Finalize Registration (Admin)",
                        "finalize_reg_" ++ PyStr.of_int target)] ]])
    []
    (match truthy pid with
     | Some _ => tl (tl (clock w))
     | None => tl (clock w)
     end).
Proof.
  intros Hpre Hp Hn.
  unfold run, button_handler, bind at 1, api at 1. rewrite Hn. cbn [hd tl].
  rewrite (route_approve _ _ Hpre).
  unfold button_approve. cbv zeta. rewrite (parse_target_length _ _ Hp).
  unfold try_except at 2 3, bind at 1 2. rewrite Hp. cbn [or_raise ret].
  unfold approve_tables, approve_writes, approve_notifies.
  unfold try_except, bind, now, update_payments, update_users, commit, ret, api.
  destruct (truthy pid); cbn; rewrite <- ?List.app_assoc; reflexivity.
Qed.

Lemma startswith_literal p r : PyStr.startswith (p ++ r) p = true.
Proof.
  unfold PyStr.startswith. induction p as [|c p IH]; [apply prefix_empty|].
  rewrite append_cons. cbn [String.prefix].
  destruct (ascii_dec c c) as [_|N]; [exact IH | contradiction].
Qed.

Lemma button_finalize_run ADMIN_ID q w target :
  cq_data q = "finalize_reg_" ++ PyStr.of_int target ->
  net w = [] ->
  run (button_handler ADMIN_ID q) w =
  mkWorld (db w)
          (<[ADMIN_ID := mkSession user_credentials None (Some target)]> (user_state w))
          (outbox w ++ [AnswerCallback;
                        SendMessage ADMIN_ID
                          ("Send username and password for user " ++ PyStr.of_int target
                           ++ " in two lines:" ++ nl ++ "username" ++ nl ++ "password") [];
                        EditMessageText "Waiting for admin to send credentials." []])
          [] (clock w) (durable w).
Proof.
  intros Hd Hn.
  assert (Hpre : PyStr.startswith (cq_data q) "finalize_reg_" = true)
    by (rewrite Hd; apply startswith_literal).
  unfold run, button_handler, bind at 1, api at 1. rewrite Hn. cbn [hd tl].
  rewrite (route_finalize _ _ Hpre).
  unfold button_finalize. cbv zeta. rewrite Hd, split_finalize_data. cbn [length Nat.leb nth].
  unfold py_int. rewrite to_int_of_int.
  unfold try_except, bind, or_raise, set_user_state, ret, api. cbn.
  rewrite <- ?List.app_assoc. reflexivity.
Qed.

Lemma handle_text_credentials_run ADMIN_ID m w s target uname password rest :
  msg_chat m = ADMIN_ID ->
  user_state w !! ADMIN_ID = Some s ->
  expecting s = user_credentials ->
  truthy (for_user s) = Some target ->
  credential_lines (text_of m) = uname :: password :: rest ->
  PyStr.has_nul uname = false ->
  net w = [] ->
  run (handle_text ADMIN_ID m) w =
  settled_world
    (credentials_tables target uname (clock w) (db w))
    (delete ADMIN_ID (user_state w))
    (outbox w ++ [SendMessage target (credentials_text uname password) [];
                  ReplyText ADMIN_ID
                    ("Credentials set and sent to user " ++ PyStr.of_int target ++ ".") []])
    [] (tl (tl (clock w))).
Proof.
  intros Hc Hs He Ht Hl Hnul Hn. unfold run.
  rewrite (handle_text_awaiting ADMIN_ID m w s Hc Hs He), Hl, Ht.
  unfold try_finally, try_except, credentials_writes, credentials_notifies, credentials_tables,
    bind, text_param, now, update_payments, update_users, commit, ret, api, pop_user_state.
  cbn. rewrite Hnul. cbn. rewrite Hn. cbn. rewrite <- ?List.app_assoc. reflexivity.
Qed.

Lemma last_photo (photos : list string) :
  photos <> [] -> exists f, List.last (List.map Some photos) None = Some f.
Proof.
  induction photos as [|p ps IH]; intros H; [contradiction|].
  destruct ps as [|p' ps]; [exists p; reflexivity|].
  destruct IH as [f Hf]; [discriminate|]. exists f. exact Hf.
Qed.

(** ** One registration from start to credentials *)

(** The world after the updates of [registration_updates], finalize
    button included, every message delivered. *)
Lemma registration_run alice boss photos f ts :
  user_id alice <> 0 ->
  storable alice = true ->
  List.last (List.map Some photos) None = Some f ->
  let uid := user_id alice in
  let admin := user_id boss in
  let w := run_all admin (registration_updates alice boss photos true) (fresh_world [] ts) in
  db w =
    mkDB [mkUser uid "alice" (full_name alice) None None (Some Standard) st_registered
                 (Some (hd 0 (tl (tl ts)))) (Some (hd 0 (tl (tl (tl ts)))))]
         [mkPayment 1 uid (Some Standard) "Bank A" approved (hd 0 ts) (Some (hd 0 (tl ts)))]
         2 /\
  exists sent,
    outbox w =
      (sent ++ [SendMessage uid (credentials_text "alice" "Secret1") [];
                ReplyText admin
                  ("Credentials set and sent to user " ++ PyStr.of_int uid ++ ".") []])%list.
Proof.
  intros Hnz Hst Hf uid admin w. subst w uid admin.
  unfold registration_updates, run_all. cbn [List.app fold_left handle].
  rewrite start_run by (reflexivity || exact Hst).
  unfold settled_world.
  cbn [settled_world db users payments payments_id_seq msg_chat fresh_world empty_db user_state outbox
       net clock tl List.app new_user_row msg_from].
  erewrite (button_reg_standard_run _ (mkCallbackQuery alice "reg_standard"));
    [ | reflexivity | cbn; rewrite Z.eqb_refl; reflexivity | reflexivity ].
  unfold settled_world.
  cbn [settled_world db users payments payments_id_seq msg_chat user_state outbox net clock tl List.app
       cq_from update_rows List.map chat_id].
  rewrite Z.eqb_refl.
  rewrite (button_select_account_run _ (mkCallbackQuery alice "select_account:Bank A"))
    by reflexivity.
  unfold settled_world.
  cbn [settled_world db users payments payments_id_seq msg_chat user_state outbox net clock tl List.app
       cq_from cq_data find_user List.find chat_id set_package_status package].
  rewrite Z.eqb_refl.
  change (account_of "select_account:Bank A") with "Bank A".
  erewrite (handle_photo_delivered _ (mkMessage (user_id alice) alice None photos));
    [ | apply lookup_insert_eq | reflexivity | exact Hf | reflexivity | reflexivity ].
  unfold settled_world.
  cbn [settled_world db users payments payments_id_seq msg_chat user_state outbox net clock tl List.app
       chat_id update_rows List.map set_status payment_id].
  rewrite Z.eqb_refl.
  rewrite (button_approve_run _
             (mkCallbackQuery boss
                ("approve_reg_" ++ PyStr.of_int (user_id alice) ++ "_" ++ PyStr.of_int 1))
             _ (user_id alice) (Some 1));
    [ | apply startswith_literal | apply parse_approve_data | reflexivity ].
  unfold settled_world.
  cbn [settled_world db users payments payments_id_seq user_state outbox net clock tl List.app chat_id
       approve_tables truthy Z.eqb update_rows List.map pay_id].
  rewrite Z.eqb_refl.
  rewrite (button_finalize_run _
             (mkCallbackQuery boss ("finalize_reg_" ++ PyStr.of_int (user_id alice)))
             _ (user_id alice)) by reflexivity.
  cbn [settled_world db users payments payments_id_seq user_state outbox net clock tl List.app].
  erewrite handle_text_credentials_run;
    [ | reflexivity | apply lookup_insert_eq | reflexivity | | reflexivity | reflexivity
      | reflexivity ].
  unfold settled_world.
  2:{ cbn [for_user truthy].
      destruct (Z.eqb_spec (user_id alice) 0); [contradiction | reflexivity]. }
  cbn [db outbox]. split; [|eexists; reflexivity].
  unfold credentials_tables, update_rows.
  cbn [users payments payments_id_seq List.map chat_id pay_chat_id pay_status
       set_status_approved_at set_status set_package_status new_user_row
       set_pay_approved is_pending Pos.eqb].
  rewrite !Z.eqb_refl. reflexivity.
Qed.

(** C5, as stated, fails: without the finalize button the
    administrator's text is not taken as credentials; user 42 stays at
    [approved] with the Telegram username, and no credentials are
    sent. *)
Lemma C5_counterexample :
  let alice := mkTgUser 42 (Some "al") "Alice A" in
  let boss := mkTgUser 1 None "Boss" in
  let w := run_all 1 (registration_updates alice boss ["photo-1"] false)
                   (fresh_world [] [10; 20; 30; 40; 50]) in
  option_map payment_status (find_user 42 (users (db w))) = Some st_approved /\
  option_map username (find_user 42 (users (db w))) = Some "al" /\
  List.last (outbox w) AnswerCallback = ReplyText 1 not_understood_text [] /\
  List.existsb (fun e => match e with
                         | SendMessage _ text _ => contains text "Secret1"
                         | _ => false
                         end) (outbox w) = false.
Proof. repeat split; reflexivity. Qed.

(** C5, amended.  From the empty store, with every message delivered,
    for an actor whose names can be stored: entry, package Standard,
    account Bank A, screenshot, the administrator's approve button for
    the attempt, the administrator's finalize button for the actor, and
    then the two lines of credentials leave the actor registered under
    the username alice with one attempt, approved, and the credentials
    sent to the actor in a message containing both lines. *)
Theorem C5_registration_sequence (alice boss : TgUser) (photos : list string) (ts : list Z) :
  user_id alice <> 0 ->
  storable alice = true ->
  photos <> [] ->
  let uid := user_id alice in
  let w := run_all (user_id boss) (registration_updates alice boss photos true)
                   (fresh_world [] ts) in
  (exists u, users (db w) = [u] /\ chat_id u = uid /\
             payment_status u = st_registered /\ username u = "alice") /\
  (exists p, List.filter (fun p => pay_chat_id p =? uid) (payments (db w)) = [p] /\
             pay_status p = approved) /\
  List.In (SendMessage uid (credentials_text "alice" "Secret1") []) (outbox w) /\
  contains (credentials_text "alice" "Secret1") "alice" = true /\
  contains (credentials_text "alice" "Secret1") "Secret1" = true.
Proof.
  intros Hnz Hst Hph uid w.
  destruct (last_photo photos Hph) as [f Hf].
  destruct (registration_run alice boss photos f ts Hnz Hst Hf) as (Hdb & sent & Hout).
  fold uid in Hdb, Hout. fold w in Hdb, Hout.
  rewrite Hdb, Hout. cbn [users payments].
  split; [eexists; repeat split|].
  split.
  - cbn [List.filter pay_chat_id]. rewrite Z.eqb_refl. eexists. split; reflexivity.
  - split; [|split; reflexivity].
    apply List.in_or_app. right. left. reflexivity.
Qed.

Lemma C5_registration_sequence_witness :
  let alice := mkTgUser 42 (Some "al") "Alice A" in
  let boss := mkTgUser 1 None "Boss" in
  let w := run_all 1 (registration_updates alice boss ["photo-1"] true)
                   (fresh_world [] [10; 20; 30; 40; 50]) in
  user_id alice <> 0 /\
  storable alice = true /\
  ["photo-1"] <> [] /\
  List.In (SendMessage 42 (credentials_text "alice" "Secret1") []) (outbox w).
Proof.
  intros alice boss w.
  assert (H1 : user_id alice <> 0) by discriminate.
  assert (H2 : ["photo-1"] <> @nil string) by discriminate.
  split; [exact H1|]. split; [reflexivity|]. split; [exact H2|].
  destruct (C5_registration_sequence alice boss ["photo-1"] [10; 20; 30; 40; 50]
              H1 eq_refl H2) as (_ & _ & Hin & _).
  exact Hin.
Defined.

(** * Further properties of the handlers *)

(** ** Every handler respects what every statement respects *)

Section Writes.

Context (R : World -> World -> Prop) `{!WriteRel R}.

Ltac write_step :=
  first [ solve [ apply wr_set_package_status | apply wr_set_status
                | apply wr_set_status_approved_at | apply wr_set_registered
                | apply wr_insert_user | apply wr_set_pay_approved
                | apply wr_set_pay_rejected | apply wr_insert_payment ]
        | solve [auto with preserves typeclass_instances]
        | apply preserves_bind; [exact _ | | intros ?]
        | apply preserves_try_except; [exact _ | | ]
        | apply preserves_try_finally; [exact _ | | ] ].

Lemma start_writes m : preserves R (start m).
Proof.
  unfold start. repeat write_step. destruct a; repeat write_step.
Qed.

Lemma button_route_writes ADMIN_ID q : preserves R (button_route ADMIN_ID q).
Proof.
  unfold button_route. cbv zeta.
  repeat (match goal with
          | |- preserves R (if ?b then _ else _) => destruct b
          end); try solve [repeat write_step].
  - unfold button_reg. cbv zeta. repeat write_step.
    destruct (Nat.eqb a 0); repeat write_step.
  - unfold button_select_account.
    destruct (PyStr.split (cq_data q) "select_account:") as [|? [|account ?]];
      repeat write_step.
    destruct a; repeat write_step.
  - unfold button_approve. cbv zeta.
    destruct (3 <=? length _)%nat; repeat write_step.
    destruct a as [[target pid]|]; repeat write_step.
    unfold approve_writes. repeat write_step.
    destruct (truthy pid); repeat write_step.
  - unfold button_reject. cbv zeta.
    destruct (3 <=? length _)%nat; repeat write_step.
    destruct a as [[target pid]|]; repeat write_step.
    unfold reject_writes. repeat write_step.
    destruct (truthy pid); repeat write_step.
  - unfold button_finalize, py_int. cbv zeta.
    destruct (3 <=? length _)%nat; repeat write_step.
Qed.

Lemma handle_photo_writes ADMIN_ID m : preserves R (handle_photo ADMIN_ID m).
Proof.
  unfold handle_photo. cbv zeta. repeat write_step.
  destruct (negb (is_expecting reg_screenshot a)); repeat write_step.
Qed.

Lemma handle_text_writes ADMIN_ID m : preserves R (handle_text ADMIN_ID m).
Proof.
  unfold handle_text. cbv zeta. repeat write_step.
  destruct (_ && _); [|repeat write_step].
  destruct (credential_lines (text_of m)) as [|uname [|password rest]];
    try (repeat write_step).
  destruct (truthy _) as [target|]; repeat write_step.
Qed.

Lemma handle_writes ADMIN_ID u : preserves R (handle ADMIN_ID u).
Proof.
  destruct u as [m|m|m|q|m|m]; cbn [handle].
  - apply start_writes.
  - repeat write_step.
  - repeat write_step.
  - unfold button_handler. apply preserves_bind; [exact _ | repeat write_step | intros _].
    apply preserves_try_except; [exact _ | apply button_route_writes | repeat write_step].
  - apply handle_photo_writes.
  - apply handle_text_writes.
Qed.

Lemma run_all_writes ADMIN_ID us w : R w (run_all ADMIN_ID us w).
Proof.
  unfold run_all. revert w. induction us as [|u us IH]; intros w; cbn [fold_left].
  - apply rel_refl.
  - eapply rel_trans; [apply (handle_writes ADMIN_ID u w) | apply IH].
Qed.

End Writes.

(** ** The primary keys *)

#[export] Instance keeps_rel (P : DB -> Prop) : TableRel (keeps P).
Proof.
  split; unfold keeps.
  - auto.
  - auto.
  - intros w w' ->. auto.
Qed.

Lemma map_update_rows {A B} (key : A -> B) sel f (rows : list A) :
  (forall r, key (f r) = key r) ->
  List.map key (update_rows sel f rows) = List.map key rows.
Proof.
  intros Hf. unfold update_rows. rewrite List.map_map. apply List.map_ext.
  intros r. destruct (sel r); [apply Hf | reflexivity].
Qed.

Lemma find_user_none_notin c us :
  find_user c us = None -> ~ List.In c (List.map chat_id us).
Proof.
  unfold find_user. induction us as [|u us IH]; simpl; [tauto|].
  destruct (Z.eqb_spec (chat_id u) c) as [E|E]; [discriminate|].
  intros H [Hin|Hin]; [contradiction | exact (IH H Hin)].
Qed.

Lemma nodup_snoc {A} (l : list A) (x : A) :
  List.NoDup l -> ~ List.In x l -> List.NoDup (l ++ [x])%list.
Proof.
  intros Hl Hx. induction Hl as [|y l Hy Hl IH]; simpl.
  - constructor; [simpl; tauto | constructor].
  - constructor.
    + rewrite List.in_app_iff. simpl. intros [H|[H|[]]]; [contradiction|].
      apply Hx. left. symmetry. exact H.
    + apply IH. intros H. apply Hx. right. exact H.
Qed.

Lemma keys_update_users c f :
  (forall u, chat_id (f u) = chat_id u) ->
  preserves (keeps db_keys) (update_users c f).
Proof.
  intros Hf w [Hu Hp]. split; [|exact Hp].
  unfold users_pk, run, update_users. simpl.
  rewrite (map_update_rows chat_id _ _ _ Hf). exact Hu.
Qed.

Lemma keys_insert_user u : preserves (keeps db_keys) (insert_user u).
Proof.
  intros w [Hu Hp]. unfold run, insert_user.
  destruct (PyStr.has_nul _ || PyStr.has_nul _); [split; assumption|].
  destruct (find_user (chat_id u) (users (db w))) eqn:E; simpl; [split; assumption|].
  split; [|exact Hp]. unfold users_pk. simpl. rewrite List.map_app. simpl.
  apply nodup_snoc; [exact Hu | apply find_user_none_notin, E].
Qed.

Lemma keys_update_payments sel f :
  (forall p, pay_id (f p) = pay_id p) ->
  preserves (keeps db_keys) (update_payments sel f).
Proof.
  intros Hf w [Hu [Hnd Hlt]]. split; [exact Hu|].
  unfold payments_pk, run, update_payments. simpl. split.
  - rewrite (map_update_rows pay_id _ _ _ Hf). exact Hnd.
  - unfold update_rows. rewrite List.Forall_map.
    eapply List.Forall_impl; [|exact Hlt].
    intros p Hp. simpl. destruct (sel p); [rewrite Hf|]; exact Hp.
Qed.

Lemma keys_insert_payment c pkg a : preserves (keeps db_keys) (insert_payment c pkg a).
Proof.
  intros w [Hu [Hnd Hlt]]. unfold run, insert_payment, bind, text_param, now.
  destruct (PyStr.has_nul a); [split; [exact Hu | split; assumption]|].
  split; [exact Hu|]. unfold payments_pk. simpl. split.
  - rewrite List.map_app. simpl. apply nodup_snoc; [exact Hnd|].
    intros Hin. apply List.in_map_iff in Hin as (p & Hid & Hp).
    rewrite List.Forall_forall in Hlt. specialize (Hlt p Hp). lia.
  - apply List.Forall_app. split.
    + eapply List.Forall_impl; [|exact Hlt]. intros p Hp. simpl in *. lia.
    + constructor; [simpl; lia | constructor].
Qed.

#[export] Instance keys_writes : WriteRel (keeps db_keys).
Proof.
  split; try exact _; intros;
    first [ apply keys_update_users; intros; reflexivity
          | apply keys_insert_user
          | apply keys_update_payments; intros; reflexivity
          | apply keys_insert_payment ].
Qed.

(** X1. Whatever updates arrive, in whatever order and with whatever
    deliveries failing, the tables keep their primary keys: no two rows
    of [users] for one chat, no two attempts with one id, and the
    sequence of [payments] ahead of every id in the table. *)
Theorem X1_primary_keys_kept (ADMIN_ID : Z) (us : list Update) (w : World) :
  users_pk (db w) ->
  payments_pk (db w) ->
  users_pk (db (run_all ADMIN_ID us w)) /\ payments_pk (db (run_all ADMIN_ID us w)).
Proof.
  intros Hu Hp. exact (run_all_writes (keeps db_keys) ADMIN_ID us w (conj Hu Hp)).
Qed.

Lemma X1_primary_keys_kept_witness :
  let bob := mkTgUser 7 (Some "bob") "Bob" in
  let us := [ ButtonPress (mkCallbackQuery bob "reg_x");
              ButtonPress (mkCallbackQuery bob "select_account:Bank B") ] in
  users_pk (db two_users_world) /\
  payments_pk (db two_users_world) /\
  users_pk (db (run_all 1 us two_users_world)) /\
  payments_pk (db (run_all 1 us two_users_world)).
Proof.
  intros bob us.
  assert (Hu : users_pk (db two_users_world)).
  { unfold users_pk. simpl.
    apply List.NoDup_cons; [simpl; intros [H|[]]; discriminate H|].
    apply List.NoDup_cons; [simpl; tauto | apply List.NoDup_nil]. }
  assert (Hp : payments_pk (db two_users_world)).
  { split; simpl.
    - apply List.NoDup_cons; [simpl; tauto | apply List.NoDup_nil].
    - constructor; [simpl; lia | constructor]. }
  split; [exact Hu|]. split; [exact Hp|].
  exact (X1_primary_keys_kept 1 us two_users_world Hu Hp).
Defined.

(** ** Rows are never removed *)

#[export] Instance grows_rel : TableRel grows.
Proof.
  split; unfold grows.
  - intros w. split; exists []; rewrite List.app_nil_r; reflexivity.
  - intros w1 w2 w3 [[u12 Hu12] [p12 Hp12]] [[u23 Hu23] [p23 Hp23]]. split.
    + exists (u12 ++ u23)%list. rewrite Hu23, Hu12, List.app_assoc. reflexivity.
    + exists (p12 ++ p23)%list. rewrite Hp23, Hp12, List.app_assoc. reflexivity.
  - intros w w' ->. split; exists []; rewrite List.app_nil_r; reflexivity.
Qed.

Lemma grows_update_users c f :
  (forall u, user_core (f u) = user_core u) -> preserves grows (update_users c f).
Proof.
  intros Hf w. unfold grows, run, update_users. simpl. split; exists [].
  - rewrite (map_update_rows user_core _ _ _ Hf), List.app_nil_r. reflexivity.
  - rewrite List.app_nil_r. reflexivity.
Qed.

Lemma grows_update_payments sel f :
  (forall p, attempt_core (f p) = attempt_core p) -> preserves grows (update_payments sel f).
Proof.
  intros Hf w. unfold grows, run, update_payments. simpl. split; exists [].
  - rewrite List.app_nil_r. reflexivity.
  - rewrite (map_update_rows attempt_core _ _ _ Hf), List.app_nil_r. reflexivity.
Qed.

Lemma grows_insert_user u : preserves grows (insert_user u).
Proof.
  intros w. unfold grows, run, insert_user.
  destruct (PyStr.has_nul _ || PyStr.has_nul _);
    [split; exists []; rewrite List.app_nil_r; reflexivity|].
  destruct (find_user (chat_id u) (users (db w))); simpl.
  - split; exists []; rewrite List.app_nil_r; reflexivity.
  - split; [exists [user_core u]; apply List.map_app|].
    exists []. rewrite List.app_nil_r. reflexivity.
Qed.

Lemma grows_insert_payment c pkg a : preserves grows (insert_payment c pkg a).
Proof.
  intros w. unfold grows, run, insert_payment, bind, text_param, now.
  destruct (PyStr.has_nul a); [split; exists []; rewrite List.app_nil_r; reflexivity|].
  simpl. split.
  - exists []. rewrite List.app_nil_r. reflexivity.
  - eexists. apply List.map_app.
Qed.

#[export] Instance grows_writes : WriteRel grows.
Proof.
  split; try exact _; intros;
    first [ apply grows_update_users; intros; reflexivity
          | apply grows_insert_user
          | apply grows_update_payments; intros; reflexivity
          | apply grows_insert_payment ].
Qed.

(** X2. No update removes or reorders a row.  After any updates the
    rows that were in [users] and [payments] are still there, in the
    same places, with the same chat id, display name, e-mail and phone
    for a user and the same id, owner, package, account and creation
    time for an attempt; new rows come after them. *)
Theorem X2_rows_only_added (ADMIN_ID : Z) (us : list Update) (w : World) :
  let w' := run_all ADMIN_ID us w in
  (exists added, List.map user_core (users (db w'))
                 = (List.map user_core (users (db w)) ++ added)%list) /\
  (exists added, List.map attempt_core (payments (db w'))
                 = (List.map attempt_core (payments (db w)) ++ added)%list).
Proof. exact (run_all_writes grows ADMIN_ID us w). Qed.

(** ** Whose session a handler touches *)

Section Sessions.

Variable k : Z.

Lemma sk_bind {A B} (m : M A) (f : A -> M B) :
  preserves (session_kept k) m -> (forall a, preserves (session_kept k) (f a)) ->
  preserves (session_kept k) (bind m f).
Proof.
  intros Hm Hf w. rewrite run_bind. unfold session_kept in *.
  destruct (fst (m w)); [rewrite Hf|]; apply Hm.
Qed.

Lemma sk_try_except {A} (m h : M A) :
  preserves (session_kept k) m -> preserves (session_kept k) h ->
  preserves (session_kept k) (try_except m h).
Proof.
  intros Hm Hh w. specialize (Hm w). unfold run, try_except, session_kept in *.
  destruct (m w) as [[a|e] w']; simpl in *; [exact Hm|].
  specialize (Hh w'). cbv beta in Hh. unfold run in Hh. congruence.
Qed.

Lemma sk_try_finally {A} (m : M A) (f : M unit) :
  preserves (session_kept k) m -> preserves (session_kept k) f ->
  preserves (session_kept k) (try_finally m f).
Proof.
  intros Hm Hf w. specialize (Hm w). specialize (Hf (snd (m w))).
  unfold run, try_finally, session_kept in *.
  destruct (m w) as [r w']. simpl in *.
  destruct (f w') as [[u|e] w'']; simpl in *; congruence.
Qed.

(** Steps that do not write [user_state] at all. *)
Lemma sk_frame {A} (m : M A) :
  (forall w, user_state (run m w) = user_state w) -> preserves (session_kept k) m.
Proof. intros H w. unfold session_kept. rewrite H. reflexivity. Qed.

Lemma sk_set_user_state k' s : k' <> k -> preserves (session_kept k) (set_user_state k' s).
Proof. intros Hk w. unfold session_kept, run, set_user_state. simpl. apply lookup_insert_ne, Hk. Qed.

Lemma sk_pop_user_state k' : k' <> k -> preserves (session_kept k) (pop_user_state k').
Proof. intros Hk w. unfold session_kept, run, pop_user_state. simpl. apply lookup_delete_ne, Hk. Qed.

Ltac sk_frame_tac :=
  apply sk_frame; intros ?;
  unfold help_menu_cmd, show_main_menu, py_int, insert_payment, credentials_writes;
  unfold run, text_param, commit, ret, raise, api, now, select_user, insert_user,
    update_users, update_payments, get_user_state, or_raise, bind;
  cbn beta iota;
  repeat match goal with
         | |- context [match ?x with _ => _ end] => destruct x
         end;
  reflexivity.

Ltac sk_step :=
  first [ solve [apply sk_set_user_state; auto]
        | solve [apply sk_pop_user_state; auto]
        | solve [sk_frame_tac]
        | apply sk_bind; [|intros ?]
        | apply sk_try_except
        | apply sk_try_finally ].

Ltac sk_auto :=
  repeat first
    [ sk_step
    | match goal with
      | |- preserves _ (match ?x with _ => _ end) => destruct x
      end ].

Lemma handle_session_kept ADMIN_ID u :
  k <> sender u -> k <> ADMIN_ID -> preserves (session_kept k) (handle ADMIN_ID u).
Proof.
  intros Hs Ha.
  assert (Hs' : sender u <> k) by congruence.
  assert (Ha' : ADMIN_ID <> k) by congruence.
  destruct u as [m|m|m|q|m|m]; cbn [handle sender] in *.
  - unfold start. sk_auto.
  - sk_auto.
  - sk_auto.
  - unfold button_handler, button_route, button_reg, button_select_account,
      button_approve, button_reject, button_finalize, approve_writes, reject_writes.
    cbv zeta. sk_auto.
  - unfold handle_photo. cbv zeta. sk_auto.
  - unfold handle_text. cbv zeta. sk_auto.
Qed.

Lemma button_handler_session_kept ADMIN_ID q :
  PyStr.startswith (cq_data q) "select_account:" = false ->
  PyStr.startswith (cq_data q) "finalize_reg_" = false ->
  preserves (session_kept k) (button_handler ADMIN_ID q).
Proof.
  intros Hsel Hfin.
  unfold button_handler, button_route, button_reg,
    button_approve, button_reject, approve_writes, reject_writes.
  cbv zeta. rewrite Hsel, Hfin. sk_auto.
Qed.

End Sessions.

(** X3. A handler only ever writes the session of the chat the update
    comes from, or the administrator's: under every update the entry of
    [user_state] of any other chat stays as it was (present or absent),
    whatever is delivered. *)
Theorem X3_other_sessions_kept (ADMIN_ID : Z) (u : Update) (w : World) (k : Z) :
  k <> sender u ->
  k <> ADMIN_ID ->
  user_state (run (handle ADMIN_ID u) w) !! k = user_state w !! k.
Proof. intros Hs Ha. exact (handle_session_kept k ADMIN_ID u Hs Ha w). Qed.

Lemma X3_other_sessions_kept_witness :
  let m := mkMessage 7 (mkTgUser 7 (Some "bob") "Bob") None ["photo-9"] in
  let w := awaiting_screenshot_world [] in
  42 <> sender (PhotoMessage m) /\ 42 <> 1 /\
  user_state (run (handle 1 (PhotoMessage m)) w) !! 42
  = Some (mkSession reg_screenshot (Some 1) None).
Proof.
  intros m w.
  assert (H1 : 42 <> sender (PhotoMessage m)) by discriminate.
  assert (H2 : 42 <> 1) by discriminate.
  split; [exact H1|]. split; [exact H2|].
  rewrite (X3_other_sessions_kept 1 (PhotoMessage m) w 42 H1 H2). reflexivity.
Defined.

(** ** The buttons under a forwarded screenshot *)

Lemma split_reg_data (verb : string) uid tail :
  all_chars (fun c => negb (Ascii.eqb c "_")) verb = true ->
  all_chars (fun c => negb (Ascii.eqb c "_")) tail = true ->
  PyStr.split (verb ++ String "_" ("reg" ++ String "_" (PyStr.of_int uid ++ String "_" tail))) "_"
  = [verb; "reg"; PyStr.of_int uid; tail].
Proof.
  intros Hv Ht. unfold PyStr.split.
  rewrite split_go_piece by exact Hv.
  rewrite split_go_piece by reflexivity.
  rewrite split_go_piece by apply of_int_no_underscore.
  rewrite split_go_last by exact Ht. reflexivity.
Qed.

Lemma parse_review_parts verb uid (o : option Z) :
  parse_target [verb; "reg"; PyStr.of_int uid; fmt_opt_int o]
  = match o with Some i => Some (uid, Some i) | None => None end.
Proof.
  unfold parse_target. cbn [nth]. rewrite to_int_of_int.
  destruct o as [i|]; cbn [fmt_opt_int]; [rewrite to_int_of_int|]; reflexivity.
Qed.

Lemma fmt_opt_int_no_underscore o :
  all_chars (fun c => negb (Ascii.eqb c "_")) (fmt_opt_int o) = true.
Proof. destruct o; [apply of_int_no_underscore | reflexivity]. Qed.

(** X4. The three buttons that [handle_photo] puts under a forwarded
    screenshot are read back by [button_handler] as they were written:
    each carries the prefix of its branch, the approve and reject data
    parse to the user's chat id and the attempt id (for every integer,
    negative chat ids included), and the finalize data to the chat id.
    When the session held no attempt id the data end in [None] and the
    approve and reject data do not parse. *)
Theorem X4_review_buttons_round_trip (uid : Z) (o : option Z) :
  exists a r f,
    button_data (review_keyboard uid o) = [a; r; f] /\
    PyStr.startswith a "approve_reg_" = true /\
    PyStr.startswith r "reject_reg_" = true /\
    PyStr.startswith f "finalize_reg_" = true /\
    parse_target (PyStr.split a "_")
      = match o with Some i => Some (uid, Some i) | None => None end /\
    parse_target (PyStr.split r "_")
      = match o with Some i => Some (uid, Some i) | None => None end /\
    PyStr.to_int (nth 2 (PyStr.split f "_") EmptyString) = Some uid.
Proof.
  exists ("approve_reg_" ++ PyStr.of_int uid ++ "_" ++ fmt_opt_int o),
         ("reject_reg_" ++ PyStr.of_int uid ++ "_" ++ fmt_opt_int o),
         ("finalize_reg_" ++ PyStr.of_int uid).
  split; [reflexivity|].
  split; [apply startswith_literal|].
  split; [apply startswith_literal|].
  split; [apply startswith_literal|].
  split; [|split].
  - change ("approve_reg_" ++ PyStr.of_int uid ++ "_" ++ fmt_opt_int o)
      with ("approve" ++ String "_" ("reg" ++ String "_"
              (PyStr.of_int uid ++ String "_" (fmt_opt_int o)))).
    rewrite split_reg_data by (reflexivity || apply fmt_opt_int_no_underscore).
    apply parse_review_parts.
  - change ("reject_reg_" ++ PyStr.of_int uid ++ "_" ++ fmt_opt_int o)
      with ("reject" ++ String "_" ("reg" ++ String "_"
              (PyStr.of_int uid ++ String "_" (fmt_opt_int o)))).
    rewrite split_reg_data by (reflexivity || apply fmt_opt_int_no_underscore).
    apply parse_review_parts.
  - rewrite split_finalize_data. cbn [nth]. apply to_int_of_int.
Qed.

(** ** Text that is not the administrator's credentials *)

(** X5. A text message from anyone but the administrator, or from the
    administrator while no credentials are expected, is answered with
    the not-understood reply and nothing else: the tables and every
    session stay as they were. *)
Theorem X5_text_ignored (ADMIN_ID : Z) (m : Message) (w : World) :
  msg_chat m <> ADMIN_ID \/
  expecting_of (user_state w !! ADMIN_ID) <> Some user_credentials ->
  let w' := run (handle_text ADMIN_ID m) w in
  handle_text ADMIN_ID m w = api (ReplyText (msg_chat m) not_understood_text []) w /\
  db w' = db w /\
  user_state w' = user_state w.
Proof.
  intros H w'.
  assert (E : handle_text ADMIN_ID m w
              = api (ReplyText (msg_chat m) not_understood_text []) w).
  { unfold handle_text, bind at 1, get_user_state.
    assert (Hb : (msg_chat m =? ADMIN_ID)
                 && is_expecting user_credentials (user_state w !! ADMIN_ID) = false).
    { destruct H as [H|H].
      - apply Z.eqb_neq in H. rewrite H. reflexivity.
      - rewrite (not_expecting _ _ H). apply andb_false_r. }
    rewrite Hb. reflexivity. }
  subst w'. unfold run. rewrite E.
  split; [reflexivity|]. split; [apply api_db | apply api_user_state].
Qed.

Lemma X5_text_ignored_witness :
  let m := mkMessage 42 (mkTgUser 42 None "Alice A") (Some ("alice" ++ nl ++ "Secret1")) [] in
  let w := awaiting_world 1 (Some 42) in
  (msg_chat m <> 1 \/ expecting_of (user_state w !! 1) <> Some user_credentials) /\
  db (run (handle_text 1 m) w) = db w /\
  user_state (run (handle_text 1 m) w) = user_state w.
Proof.
  intros m w.
  assert (H : msg_chat m <> 1 \/ expecting_of (user_state w !! 1) <> Some user_credentials)
    by (left; discriminate).
  split; [exact H|].
  destruct (X5_text_ignored 1 m w H) as (_ & Hdb & Hst).
  split; [exact Hdb | exact Hst].
Defined.

(** ** Button presses that write nothing *)

Lemma button_handler_keeps_sessions ADMIN_ID q w :
  PyStr.startswith (cq_data q) "select_account:" = false ->
  PyStr.startswith (cq_data q) "finalize_reg_" = false ->
  user_state (run (button_handler ADMIN_ID q) w) = user_state w.
Proof.
  intros Hsel Hfin. apply map_eq. intros k.
  exact (button_handler_session_kept k ADMIN_ID q Hsel Hfin w).
Qed.

Lemma button_handler_keeps_tables ADMIN_ID q w :
  is_package_button (cq_data q) = false ->
  PyStr.startswith (cq_data q) "select_account:" = false ->
  PyStr.startswith (cq_data q) "approve_reg_" = false ->
  PyStr.startswith (cq_data q) "reject_reg_" = false ->
  db (run (button_handler ADMIN_ID q) w) = db w.
Proof.
  unfold is_package_button. intros Hreg Hsel Happ Hrej.
  assert (H : preserves same_db (button_handler ADMIN_ID q)); [|exact (H w)].
  unfold button_handler, button_route, button_finalize, py_int. cbv zeta.
  rewrite Hreg, Hsel, Happ, Hrej.
  repeat first
    [ preserves_step
    | match goal with
      | |- preserves _ (if ?b then _ else _) => destruct b
      end ].
Qed.

(** X6. A button press changes the tables only when its data is one of
    the two package buttons or starts with [select_account:],
    [approve_reg_] or [reject_reg_], and changes [user_state] only when
    its data starts with [select_account:] or [finalize_reg_]; menus,
    help texts, the finalize button and unknown data leave the tables
    alone, and approving or rejecting leaves every session alone. *)
Theorem X6_button_press_writes (ADMIN_ID : Z) (q : CallbackQuery) (w : World) :
  let w' := run (button_handler ADMIN_ID q) w in
  (is_package_button (cq_data q) = false ->
   PyStr.startswith (cq_data q) "select_account:" = false ->
   PyStr.startswith (cq_data q) "approve_reg_" = false ->
   PyStr.startswith (cq_data q) "reject_reg_" = false ->
   db w' = db w) /\
  (PyStr.startswith (cq_data q) "select_account:" = false ->
   PyStr.startswith (cq_data q) "finalize_reg_" = false ->
   user_state w' = user_state w).
Proof.
  split; [apply button_handler_keeps_tables | apply button_handler_keeps_sessions].
Qed.

Lemma X6_button_press_writes_witness :
  let q := mkCallbackQuery (mkTgUser 7 (Some "bob") "Bob") "finalize_reg_5" in
  let w' := run (button_handler 1 q) two_users_world in
  db w' = db two_users_world.
Proof.
  intros q w'.
  destruct (X6_button_press_writes 1 q two_users_world) as (Hdb & _).
  exact (Hdb eq_refl eq_refl eq_refl eq_refl).
Defined.

(** ** The package buttons *)

Lemma route_reg ADMIN_ID q :
  is_package_button (cq_data q) = true -> button_route ADMIN_ID q = button_reg q.
Proof.
  intros H. unfold button_route. cbv zeta.
  do 5 skip_literal H. unfold is_package_button in H. rewrite H. reflexivity.
Qed.

Lemma update_rows_none c f us :
  find_user c us = None -> update_rows (fun u => chat_id u =? c) f us = us.
Proof.
  unfold find_user, update_rows. induction us as [|u us IH]; simpl; [reflexivity|].
  destruct (chat_id u =? c); [discriminate|]. intros H. rewrite (IH H). reflexivity.
Qed.

Lemma update_rows_idem {A} (sel : A -> bool) f rows :
  (forall r, sel (f r) = sel r) -> (forall r, f (f r) = f r) ->
  update_rows sel f (update_rows sel f rows) = update_rows sel f rows.
Proof.
  intros Hs Hf. unfold update_rows. rewrite List.map_map. apply List.map_ext.
  intros r. destruct (sel r) eqn:E; [rewrite Hs, E; apply Hf | rewrite E; reflexivity].
Qed.

Lemma button_reg_db q w : db (run (button_reg q) w) = reg_tables q (db w).
Proof.
  unfold button_reg. cbv zeta. rewrite run_bind.
  unfold reg_tables, run, try_except, bind, update_users, commit, ret.
  destruct (find_user (user_id (cq_from q)) (users (db w))) as [u|] eqn:Hf; cbn.
  - rewrite (rowcount_found _ _ _ Hf). cbn. rewrite api_db'. reflexivity.
  - assert (Hn : Nat.eqb (length (List.filter (fun v => chat_id v =? user_id (cq_from q))
                                             (users (db w)))) 0 = true).
    { change (length _) with (count_users (user_id (cq_from q)) (users (db w))).
      rewrite (count_users_none _ _ Hf). reflexivity. }
    rewrite Hn. unfold insert_user, storable. cbn.
    rewrite (update_rows_none _ _ _ Hf).
    destruct (PyStr.has_nul _ || PyStr.has_nul _); cbn.
    + rewrite api_db'. destruct (db w). reflexivity.
    + unfold find_user in Hf. rewrite Hf. cbn. rewrite api_db'. reflexivity.
Qed.

Lemma reg_tables_idem q d : reg_tables q (reg_tables q d) = reg_tables q d.
Proof.
  unfold reg_tables at 2 3.
  destruct (find_user (user_id (cq_from q)) (users d)) as [u|] eqn:Hf.
  - unfold reg_tables. cbn [users payments payments_id_seq].
    rewrite find_user_update_rows by reflexivity. rewrite Hf. cbn [option_map].
    rewrite update_rows_idem by reflexivity. reflexivity.
  - destruct (storable (cq_from q)) eqn:Hst.
    2:{ unfold reg_tables. rewrite Hf, Hst. reflexivity. }
    unfold reg_tables. cbn [users payments payments_id_seq].
    rewrite find_user_app, Hf. unfold find_user at 1. cbn [List.find new_package_row chat_id].
    rewrite Z.eqb_refl. unfold update_rows. rewrite List.map_app.
    fold (update_rows (fun u => chat_id u =? user_id (cq_from q))
            (set_package_status (package_of (cq_data q)) st_pending_payment) (users d)).
    rewrite (update_rows_none _ _ _ Hf). cbn [List.map chat_id]. rewrite Z.eqb_refl.
    reflexivity.
Qed.

Lemma reg_tables_payments q d : payments (reg_tables q d) = payments d.
Proof.
  unfold reg_tables. destruct (find_user _ _); [reflexivity|].
  destruct (storable _); reflexivity.
Qed.

Lemma reg_tables_finds q d :
  users_pk d ->
  storable (cq_from q) = true \/ find_user (user_id (cq_from q)) (users d) <> None ->
  users_pk (reg_tables q d) /\
  exists u, find_user (user_id (cq_from q)) (users (reg_tables q d)) = Some u /\
            package u = Some (package_of (cq_data q)) /\
            payment_status u = st_pending_payment.
Proof.
  intros Hpk Hok. unfold reg_tables.
  destruct (find_user (user_id (cq_from q)) (users d)) as [u|] eqn:Hf;
    [|destruct Hok as [-> | Hok]; [|contradiction]];
    cbn [users]; split.
  - unfold users_pk. cbn [users]. rewrite map_update_rows by reflexivity. exact Hpk.
  - rewrite find_user_update_rows by reflexivity. rewrite Hf. cbn [option_map].
    eexists. split; [reflexivity|].
    destruct (chat_id u =? user_id (cq_from q)) eqn:E; [split; reflexivity|].
    unfold find_user in Hf. apply List.find_some in Hf as [_ Hf]. congruence.
  - unfold users_pk. cbn [users]. rewrite List.map_app.
    apply nodup_snoc; [exact Hpk | apply find_user_none_notin, Hf].
  - rewrite find_user_app, Hf. unfold find_user. cbn. rewrite Z.eqb_refl.
    eexists. split; [reflexivity|]. split; reflexivity.
Qed.

(** X7. A package button is an upsert.  Once the press is answered, a
    presser who had a row, or whose names can be stored, has exactly one
    row in [users] (the primary key holding before), with the package of
    the button and the status [pending_payment], whatever the status
    was, and [get_user_status] reports [pending_payment].  A presser
    without a row whose names the driver refuses gets no row.  In every
    case [payments] is untouched and the same press again leaves the
    tables as they are. *)
Theorem X7_package_button_upsert (ADMIN_ID : Z) (q : CallbackQuery) (w : World) :
  is_package_button (cq_data q) = true ->
  users_pk (db w) ->
  hd true (net w) = true ->
  let uid := user_id (cq_from q) in
  let w' := run (button_handler ADMIN_ID q) w in
  (storable (cq_from q) = true \/ find_user uid (users (db w)) <> None ->
   (exists u, find_user uid (users (db w')) = Some u /\
              package u = Some (package_of (cq_data q)) /\
              payment_status u = st_pending_payment) /\
   count_users uid (users (db w')) = 1%nat /\
   fst (get_user_status uid w') = Ok (Some st_pending_payment)) /\
  (storable (cq_from q) = false -> find_user uid (users (db w)) = None -> db w' = db w) /\
  payments (db w') = payments (db w) /\
  (hd true (net w') = true -> db (run (button_handler ADMIN_ID q) w') = db w').
Proof.
  intros Hb Hpk Hn uid w'.
  assert (Hdb : forall v, hd true (net v) = true ->
                          db (run (button_handler ADMIN_ID q) v) = reg_tables q (db v)).
  { intros v Hv. rewrite (button_handler_db _ _ _ Hv), (route_reg _ _ Hb).
    rewrite button_reg_db. reflexivity. }
  subst w' uid. split; [|split; [|split]].
  - intros Hok.
    destruct (reg_tables_finds q (db w) Hpk Hok) as (Hpk' & u & Hu & Hpkg & Hst).
    rewrite <- (Hdb w Hn) in Hpk', Hu.
    split; [exists u; repeat split; assumption|].
    split; [exact (count_users_pk _ _ _ Hpk' Hu)|].
    unfold get_user_status, try_except, bind, select_user, ret. cbn.
    rewrite Hu. cbn. rewrite Hst. reflexivity.
  - intros Hbad Hnone. rewrite (Hdb w Hn). unfold reg_tables. rewrite Hnone, Hbad.
    reflexivity.
  - rewrite (Hdb w Hn). apply reg_tables_payments.
  - intros Hn'. rewrite (Hdb _ Hn'), (Hdb w Hn). apply reg_tables_idem.
Qed.

Lemma X7_package_button_upsert_witness :
  let q := mkCallbackQuery (mkTgUser 42 (Some "al") "Alice A") "reg_x" in
  let w' := run (button_handler 1 q) registered_world in
  is_package_button (cq_data q) = true /\
  users_pk (db registered_world) /\
  storable (cq_from q) = true /\
  count_users 42 (users (db w')) = 1%nat /\
  fst (get_user_status 42 w') = Ok (Some st_pending_payment).
Proof.
  intros q w'.
  assert (Hpk : users_pk (db registered_world)).
  { unfold users_pk. simpl. apply List.NoDup_cons; [simpl; tauto | apply List.NoDup_nil]. }
  split; [reflexivity|]. split; [exact Hpk|]. split; [reflexivity|].
  destruct (X7_package_button_upsert 1 q registered_world eq_refl Hpk eq_refl)
    as (Hok & _).
  destruct (Hok (or_introl eq_refl)) as (_ & Hc & Hg).
  split; [exact Hc | exact Hg].
Defined.

(** ** Branches of [button_handler] that end in an error message *)

Lemma same_run_unchanged (m : M unit) w :
  preserves same_db m -> (forall k, preserves (session_kept k) m) ->
  db (run m w) = db w /\ user_state (run m w) = user_state w.
Proof.
  intros Hd Hs. split; [apply Hd|]. apply map_eq. intros k. apply Hs.
Qed.

Lemma answer_then_preserves (m : M unit) :
  preserves same_db m -> preserves same_db (api AnswerCallback ;;; m).
Proof. intros H. repeat preserves_step. Qed.

Lemma api_session_kept k e : preserves (session_kept k) (api e).
Proof.
  intros w. unfold session_kept, run, api. destruct (hd true (net w)); reflexivity.
Qed.

Lemma answer_then_session_kept k (m : M unit) :
  preserves (session_kept k) m -> preserves (session_kept k) (api AnswerCallback ;;; m).
Proof. intros H. apply sk_bind; [apply api_session_kept | intros _; exact H]. Qed.

Lemma catch_all_session_kept k : preserves (session_kept k) catch_all.
Proof. apply sk_try_except; [apply api_session_kept | intros w; reflexivity]. Qed.

Lemma try_catch_all_preserves e : preserves same_db (try_except (api e) catch_all).
Proof. unfold catch_all. repeat preserves_step. Qed.

Lemma try_catch_all_session_kept k e :
  preserves (session_kept k) (try_except (api e) catch_all).
Proof. apply sk_try_except; [apply api_session_kept | apply catch_all_session_kept]. Qed.

(** X8. The help button never shows the help topics: [help_menu_cmd]
    replies through [update.message], which a button press does not
    have, so the press is answered and then met with the error message
    of the catch-all clause; nothing is written. *)
Theorem X8_help_button_errors (ADMIN_ID : Z) (q : CallbackQuery) (w : World) :
  cq_data q = "help" ->
  let w' := run (button_handler ADMIN_ID q) w in
  button_handler ADMIN_ID q w = (api AnswerCallback ;;; catch_all) w /\
  db w' = db w /\
  user_state w' = user_state w /\
  (hd true (net w) = true -> hd true (tl (net w)) = true ->
   outbox w' = (outbox w ++ [AnswerCallback;
                             EditMessageText "An error occurred. Contact admin." []])%list).
Proof.
  intros Hd w'.
  assert (E : button_handler ADMIN_ID q w = (api AnswerCallback ;;; catch_all) w).
  { unfold button_handler, button_route. rewrite Hd. cbn [String.eqb Ascii.eqb Bool.eqb].
    unfold help_menu_cmd, bind, try_except, raise, catch_all.
    destruct (api AnswerCallback w) as [[[]|e] w1]; reflexivity. }
  subst w'. unfold run. rewrite E. split; [reflexivity|].
  destruct (same_run_unchanged (api AnswerCallback ;;; catch_all) w) as [Hdb Hst].
  { apply answer_then_preserves. unfold catch_all. repeat preserves_step. }
  { intros k. apply answer_then_session_kept, catch_all_session_kept. }
  split; [exact Hdb|]. split; [exact Hst|].
  intros H1 H2. unfold bind, catch_all, try_except, api. rewrite H1. cbn. rewrite H2. cbn.
  rewrite <- List.app_assoc. reflexivity.
Qed.

Lemma X8_help_button_errors_witness :
  let q := mkCallbackQuery (mkTgUser 42 None "Alice A") "help" in
  let w := fresh_world [] [] in
  outbox (run (button_handler 1 q) w)
  = [AnswerCallback; EditMessageText "An error occurred. Contact admin." []].
Proof.
  intros q w.
  destruct (X8_help_button_errors 1 q w eq_refl) as (_ & _ & _ & Hout).
  exact (Hout eq_refl eq_refl).
Defined.

Lemma admin_parts data p :
  admin_prefix p -> PyStr.startswith data p = true ->
  exists third rest, PyStr.split data "_" = nth 0 (PyStr.split p "_") EmptyString
                                            :: "reg" :: third :: rest.
Proof.
  intros Hp Hpre. destruct (startswith_app _ _ Hpre) as [r ->].
  assert (Hr : exists third rest, PyStr.split_go "_" 0 r = third :: rest).
  { destruct (PyStr.split_go "_" 0 r) as [|third rest] eqn:E;
      [exfalso; exact (split_go_nonempty _ _ _ E) | eauto]. }
  destruct Hr as (third & rest & Hr). exists third, rest. unfold PyStr.split at 1.
  destruct Hp as [->|[->| ->]].
  - change ("approve_reg_" ++ r) with ("approve" ++ String "_" ("reg" ++ String "_" r)).
    rewrite !split_go_piece by reflexivity. rewrite Hr. reflexivity.
  - change ("reject_reg_" ++ r) with ("reject" ++ String "_" ("reg" ++ String "_" r)).
    rewrite !split_go_piece by reflexivity. rewrite Hr. reflexivity.
  - change ("finalize_reg_" ++ r) with ("finalize" ++ String "_" ("reg" ++ String "_" r)).
    rewrite !split_go_piece by reflexivity. rewrite Hr. reflexivity.
Qed.

Lemma admin_parts_length data p :
  admin_prefix p -> PyStr.startswith data p = true ->
  (3 <=? length (PyStr.split data "_"))%nat = true.
Proof.
  intros Hp Hpre. destruct (admin_parts data p Hp Hpre) as (third & rest & ->). reflexivity.
Qed.

Lemma unchanged_after_reply e w :
  db (run (api AnswerCallback ;;; try_except (api e) catch_all) w) = db w /\
  user_state (run (api AnswerCallback ;;; try_except (api e) catch_all) w) = user_state w.
Proof.
  apply same_run_unchanged.
  - apply answer_then_preserves, try_catch_all_preserves.
  - intros k. apply answer_then_session_kept, try_catch_all_session_kept.
Qed.

(** X9. Identifiers that cannot be read.  Data with one of the three
    administrator prefixes always splits into at least three parts, so
    the "Malformed ..." replies are never sent.  When the identifiers of
    an approve or reject button are not integers the press is answered
    with "Invalid approval data." or "Invalid rejection data."; when the
    identifier of a finalize button is not an integer the press ends in
    the error message of the catch-all clause.  In all three cases the
    tables and the sessions stay as they were. *)
Theorem X9_unreadable_identifiers (ADMIN_ID : Z) (q : CallbackQuery) (w : World) :
  let parts := PyStr.split (cq_data q) "_" in
  let w' := run (button_handler ADMIN_ID q) w in
  (forall p, admin_prefix p -> PyStr.startswith (cq_data q) p = true ->
             (3 <= length parts)%nat) /\
  (PyStr.startswith (cq_data q) "approve_reg_" = true -> parse_target parts = None ->
   button_handler ADMIN_ID q w
   = (api AnswerCallback ;;;
      try_except (api (EditMessageText "Invalid approval data." [])) catch_all) w /\
   db w' = db w /\ user_state w' = user_state w) /\
  (PyStr.startswith (cq_data q) "reject_reg_" = true -> parse_target parts = None ->
   button_handler ADMIN_ID q w
   = (api AnswerCallback ;;;
      try_except (api (EditMessageText "Invalid rejection data." [])) catch_all) w /\
   db w' = db w /\ user_state w' = user_state w) /\
  (PyStr.startswith (cq_data q) "finalize_reg_" = true ->
   PyStr.to_int (nth 2 parts EmptyString) = None ->
   button_handler ADMIN_ID q w = (api AnswerCallback ;;; catch_all) w /\
   db w' = db w /\ user_state w' = user_state w).
Proof.
  intros parts w'. subst parts w'. split; [|split; [|split]].
  - intros p Hp Hpre. apply Nat.leb_le. exact (admin_parts_length _ p Hp Hpre).
  - intros Hpre Hparse.
    assert (E : button_handler ADMIN_ID q w
                = (api AnswerCallback ;;;
                   try_except (api (EditMessageText "Invalid approval data." [])) catch_all) w).
    { unfold button_handler. rewrite (route_approve _ _ Hpre). unfold button_approve.
      cbv zeta. rewrite (admin_parts_length _ "approve_reg_" (or_introl eq_refl) Hpre), Hparse.
      unfold catch_all, bind, try_except, or_raise, raise, ret, api.
      destruct (hd true (net w)); cbn; [|reflexivity].
      destruct (hd true (tl (net w))); reflexivity. }
    split; [exact E|]. unfold run. rewrite E. apply unchanged_after_reply.
  - intros Hpre Hparse.
    assert (E : button_handler ADMIN_ID q w
                = (api AnswerCallback ;;;
                   try_except (api (EditMessageText "Invalid rejection data." [])) catch_all) w).
    { unfold button_handler. rewrite (route_reject _ _ Hpre). unfold button_reject.
      cbv zeta.
      rewrite (admin_parts_length _ "reject_reg_" (or_intror (or_introl eq_refl)) Hpre), Hparse.
      unfold catch_all, bind, try_except, or_raise, raise, ret, api.
      destruct (hd true (net w)); cbn; [|reflexivity].
      destruct (hd true (tl (net w))); reflexivity. }
    split; [exact E|]. unfold run. rewrite E. apply unchanged_after_reply.
  - intros Hpre Hint.
    assert (E : button_handler ADMIN_ID q w = (api AnswerCallback ;;; catch_all) w).
    { unfold button_handler. rewrite (route_finalize _ _ Hpre). unfold button_finalize.
      cbv zeta.
      rewrite (admin_parts_length _ "finalize_reg_" (or_intror (or_intror eq_refl)) Hpre).
      unfold py_int. rewrite Hint.
      unfold catch_all, bind, try_except, or_raise, raise, ret, api.
      destruct (hd true (net w)); reflexivity. }
    split; [exact E|]. unfold run. rewrite E.
    apply same_run_unchanged.
    + apply answer_then_preserves. unfold catch_all. repeat preserves_step.
    + intros k. apply answer_then_session_kept, catch_all_session_kept.
Qed.

Lemma X9_unreadable_identifiers_witness :
  let q := mkCallbackQuery (mkTgUser 1 None "Boss") "approve_reg_7_None" in
  let w' := run (button_handler 1 q) two_users_world in
  parse_target (PyStr.split (cq_data q) "_") = None /\
  db w' = db two_users_world /\
  outbox w' = [AnswerCallback; EditMessageText "Invalid approval data." []].
Proof.
  intros q w'.
  assert (Hp : parse_target (PyStr.split (cq_data q) "_") = None) by reflexivity.
  split; [exact Hp|].
  destruct (X9_unreadable_identifiers 1 q two_users_world) as (_ & Happ & _).
  destruct (Happ eq_refl Hp) as (E & Hdb & _).
  split; [exact Hdb|]. subst w'. unfold run. rewrite E. reflexivity.
Defined.

(** ** What the credentials write *)

Lemma in_update_rows {A} (sel : A -> bool) f rows r' :
  List.In r' (update_rows sel f rows) ->
  exists r, List.In r rows /\ r' = if sel r then f r else r.
Proof.
  unfold update_rows. intros H. apply List.in_map_iff in H as (r & E & Hr).
  exists r. split; [exact Hr | symmetry; exact E].
Qed.

Lemma in_update_rows_kept {A} (sel : A -> bool) f rows r :
  List.In r rows -> sel r = false -> List.In r (update_rows sel f rows).
Proof.
  unfold update_rows. intros Hr Hs. apply List.in_map_iff. exists r.
  rewrite Hs. split; [reflexivity | exact Hr].
Qed.

(** X10. When the administrator's two lines are taken as credentials for
    [target] and the driver accepts the username, every row of [target]
    in [users] gets the first line as username and the status
    [registered], no attempt of [target] is left pending, and the rows
    of other chats and the attempts that were not pending attempts of
    [target] are as before.  A target without a row in [users] changes
    no user row; the credentials are sent to it and confirmed to the
    administrator all the same.  A username with a NUL character is
    refused before anything is written: the tables stay as they were,
    the administrator is told that setting the credentials failed, and
    the session is removed. *)
Theorem X10_credentials_effect (ADMIN_ID : Z) (m : Message) (w : World) (s : Session)
    (target : Z) (uname password : string) (rest : list string) :
  msg_chat m = ADMIN_ID ->
  user_state w !! ADMIN_ID = Some s ->
  expecting s = user_credentials ->
  truthy (for_user s) = Some target ->
  credential_lines (text_of m) = uname :: password :: rest ->
  let w' := run (handle_text ADMIN_ID m) w in
  (PyStr.has_nul uname = false ->
   (forall u, List.In u (users (db w')) -> chat_id u = target ->
              payment_status u = st_registered /\ username u = uname) /\
   (forall u, List.In u (users (db w)) -> chat_id u <> target -> List.In u (users (db w'))) /\
   (forall p, List.In p (payments (db w')) -> pay_chat_id p = target ->
              pay_status p <> pending) /\
   (forall p, List.In p (payments (db w)) ->
              pay_chat_id p <> target \/ pay_status p <> pending ->
              List.In p (payments (db w'))) /\
   (find_user target (users (db w)) = None ->
    users (db w') = users (db w) /\
    (net w = [] ->
     outbox w' = (outbox w ++ [SendMessage target (credentials_text uname password) [];
                               ReplyText ADMIN_ID
                                 ("Credentials set and sent to user "
                                  ++ PyStr.of_int target ++ ".") []])%list))) /\
  (PyStr.has_nul uname = true ->
   db w' = db w /\
   durable w' = durable w /\
   user_state w' = delete ADMIN_ID (user_state w) /\
   (hd true (net w) = true ->
    outbox w' = (outbox w ++ [ReplyText ADMIN_ID "Failed to set credentials. See logs." []])%list)).
Proof.
  intros Hc Hs He Ht Hl w'. split.
  - intros Hnul.
    assert (Hdb : db w' = credentials_tables target uname (clock w) (db w))
      by (apply (handle_text_credentials_db _ _ _ s _ _ password rest); assumption).
    rewrite Hdb. unfold credentials_tables. cbn [users payments].
    split; [|split; [|split; [|split]]].
    + intros u Hu Hid. apply in_update_rows in Hu as (v & _ & ->).
      destruct (chat_id v =? target) eqn:E; [split; reflexivity|].
      apply Z.eqb_neq in E. contradiction.
    + intros u Hu Hid. apply in_update_rows_kept; [exact Hu | apply Z.eqb_neq, Hid].
    + intros p Hp Hid. apply in_update_rows in Hp as (r & _ & ->).
      destruct ((pay_chat_id r =? target) && is_pending (pay_status r)) eqn:E;
        [discriminate|].
      apply andb_false_iff in E as [E|E].
      * apply Z.eqb_neq in E. contradiction.
      * destruct (pay_status r); [discriminate E | discriminate | discriminate].
    + intros p Hp Hcase. apply in_update_rows_kept; [exact Hp|].
      apply andb_false_iff. destruct Hcase as [H|H].
      * left. apply Z.eqb_neq, H.
      * right. destruct (pay_status p); [contradiction | reflexivity | reflexivity].
    + intros Hnone. split; [apply update_rows_none, Hnone|].
      intros Hn. subst w'.
      rewrite (handle_text_credentials_run _ _ _ s target uname password rest
                 Hc Hs He Ht Hl Hnul Hn).
      reflexivity.
  - intros Hnul. subst w'. unfold run.
    rewrite (handle_text_awaiting ADMIN_ID m w s Hc Hs He), Hl, Ht.
    destruct (credentials_writes_refused target uname w Hnul)
      as (w2 & Hw & Hdb & Hd & Hst & Hout & Hnet).
    unfold try_finally, try_except, bind. rewrite Hw.
    unfold api, pop_user_state. rewrite Hnet.
    destruct (hd true (net w)); cbn; rewrite ?Hdb, ?Hd, ?Hst, ?Hout;
      repeat (split; [reflexivity|]); [reflexivity | discriminate].
Qed.

Lemma X10_credentials_effect_witness :
  let m := mkMessage 1 (mkTgUser 1 None "Boss") (Some ("alice" ++ nl ++ "Secret1")) [] in
  let w := awaiting_world 1 (Some 42) in
  let w' := run (handle_text 1 m) w in
  PyStr.has_nul "alice" = false /\
  find_user 42 (users (db w)) = None /\
  users (db w') = users (db w) /\
  outbox w' = [SendMessage 42 (credentials_text "alice" "Secret1") [];
               ReplyText 1 "Credentials set and sent to user 42." []].
Proof.
  intros m w w'.
  destruct (X10_credentials_effect 1 m w (mkSession user_credentials None (Some 42))
              42 "alice" "Secret1" [] eq_refl eq_refl eq_refl eq_refl eq_refl)
    as (Hok & _).
  destruct (Hok eq_refl) as (_ & _ & _ & _ & Hnone).
  destruct (Hnone eq_refl) as (Hu & Hout).
  split; [reflexivity|]. split; [reflexivity|]. split; [exact Hu | exact (Hout eq_refl)].
Defined.

(** ** The lines taken as credentials *)

Lemma append_assoc_s (a b c : string) : (a ++ b) ++ c = a ++ (b ++ c).
Proof. induction a as [|x a IH]; [reflexivity|]. rewrite !append_cons, IH. reflexivity. Qed.

Lemma length_append_s (a b : string) :
  String.length (a ++ b) = (String.length a + String.length b)%nat.
Proof. induction a as [|x a IH]; [reflexivity|]. rewrite append_cons. cbn [String.length]. rewrite IH. reflexivity. Qed.

Lemma prefix_app p a t : String.prefix p a = true -> String.prefix p (a ++ t) = true.
Proof.
  intros H. destruct (startswith_app a p H) as [r ->].
  rewrite append_assoc_s. apply startswith_literal.
Qed.

Lemma prefix_length p s : String.prefix p s = true -> (String.length p <= String.length s)%nat.
Proof.
  intros H. destruct (startswith_app s p H) as [r ->].
  rewrite length_append_s. lia.
Qed.

Lemma prefix_comparable p q s :
  String.prefix p s = true -> String.prefix q s = true ->
  String.prefix p q = true \/ String.prefix q p = true.
Proof.
  revert q s. induction p as [|c p IH]; intros q s Hp Hq.
  - left. apply prefix_empty.
  - destruct q as [|d q]; [right; reflexivity|].
    destruct s as [|e s]; [discriminate Hp|].
    cbn [String.prefix] in *.
    destruct (ascii_dec c e) as [->|]; [|discriminate].
    destruct (ascii_dec d e) as [->|]; [|discriminate].
    destruct (ascii_dec e e) as [_|N]; [|contradiction].
    exact (IH q s Hp Hq).
Qed.

(** No white-space character is empty, and none begins another one. *)
Lemma whitespace_nonempty p :
  List.In p PyStr.whitespace -> String.length p <> O.
Proof.
  assert (H : forallb (fun p => negb (Nat.eqb (String.length p) 0)) PyStr.whitespace = true)
    by reflexivity.
  rewrite forallb_forall in H. intros Hin E. specialize (H p Hin).
  rewrite E in H. discriminate H.
Qed.

Lemma whitespace_prefix_free p q :
  List.In p PyStr.whitespace -> List.In q PyStr.whitespace ->
  String.prefix p q = true -> p = q.
Proof.
  assert (H : forallb (fun p => forallb (fun q => implb (String.prefix p q) (String.eqb p q))
                                        PyStr.whitespace) PyStr.whitespace = true)
    by (vm_compute; reflexivity).
  rewrite forallb_forall in H. intros Hp Hq Hpre.
  specialize (H p Hp). rewrite forallb_forall in H. specialize (H q Hq).
  rewrite Hpre in H. apply String.eqb_eq. exact H.
Qed.

Lemma head_len_zero s :
  PyStr.head_len PyStr.whitespace s = O <->
  List.find (fun p => String.prefix p s) PyStr.whitespace = None.
Proof.
  unfold PyStr.head_len.
  destruct (List.find _ _) as [p|] eqn:E; [|tauto].
  split; [|discriminate]. intros H.
  apply List.find_some in E as [Hin _]. exfalso. exact (whitespace_nonempty p Hin H).
Qed.

Lemma head_len_prefix a x :
  PyStr.head_len PyStr.whitespace (a ++ x) = O -> PyStr.head_len PyStr.whitespace a = O.
Proof.
  rewrite !head_len_zero. intros H.
  destruct (List.find (fun p => String.prefix p a) PyStr.whitespace) as [p|] eqn:E;
    [|reflexivity].
  apply List.find_some in E as [Hin Hp].
  pose proof (List.find_none _ _ H p Hin) as Hn. cbv beta in Hn.
  rewrite (prefix_app _ _ x Hp) in Hn. discriminate Hn.
Qed.

Lemma find_prefix_app a t p :
  List.find (fun p => String.prefix p a) PyStr.whitespace = Some p ->
  List.find (fun p => String.prefix p (a ++ t)) PyStr.whitespace = Some p.
Proof.
  intros Ha. pose proof (List.find_some _ _ Ha) as [Hin Hp].
  assert (G : forall ps, (forall q, List.In q ps -> List.In q PyStr.whitespace) ->
                         List.find (fun p => String.prefix p a) ps = Some p ->
                         List.find (fun p => String.prefix p (a ++ t)) ps = Some p).
  { induction ps as [|q ps IH]; intros Hsub Hf; [discriminate Hf|].
    cbn [List.find] in *.
    destruct (String.prefix q a) eqn:Hq.
    - rewrite (prefix_app _ _ t Hq). exact Hf.
    - destruct (String.prefix q (a ++ t)) eqn:Hqt.
      + exfalso.
        assert (Hq' : List.In q PyStr.whitespace) by (apply Hsub; left; reflexivity).
        destruct (prefix_comparable p q (a ++ t) (prefix_app _ _ t Hp) Hqt) as [H|H].
        * apply (whitespace_prefix_free _ _ Hin Hq') in H. subst q. congruence.
        * apply (whitespace_prefix_free _ _ Hq' Hin) in H. subst q. congruence.
      + apply IH; [|exact Hf]. intros r Hr. apply Hsub. right. exact Hr. }
  apply G; [auto | exact Ha].
Qed.

Lemma head_len_app a t k :
  PyStr.head_len PyStr.whitespace a = S k ->
  PyStr.head_len PyStr.whitespace (a ++ t) = S k /\ (S k <= String.length a)%nat.
Proof.
  unfold PyStr.head_len.
  destruct (List.find _ _) as [p|] eqn:E; [|discriminate].
  intros H. rewrite (find_prefix_app a t p E). split; [exact H|].
  apply List.find_some in E as [_ Hp]. rewrite <- H. apply prefix_length, Hp.
Qed.

Lemma lstrip_go_head k s :
  PyStr.lstrip_go k s = EmptyString \/
  PyStr.head_len PyStr.whitespace (PyStr.lstrip_go k s) = O.
Proof.
  revert k. induction s as [|c s IH]; intros k; [left; reflexivity|].
  cbn [PyStr.lstrip_go]. destruct k as [|k]; [|apply IH].
  destruct (PyStr.head_len PyStr.whitespace (String c s)) as [|j] eqn:E; [right; exact E|].
  apply IH.
Qed.

Lemma lstrip_unchanged s :
  PyStr.head_len PyStr.whitespace s = O -> PyStr.lstrip s = s.
Proof.
  intros H. destruct s as [|c s]; [reflexivity|].
  unfold PyStr.lstrip. cbn [PyStr.lstrip_go]. rewrite H. reflexivity.
Qed.

Lemma lstrip_go_app k a t :
  (k <= String.length a)%nat ->
  PyStr.lstrip_go k a = EmptyString ->
  PyStr.lstrip_go k (a ++ t) = PyStr.lstrip t.
Proof.
  revert k. induction a as [|c a IH]; intros k Hk H.
  - cbn [String.length] in Hk. assert (k = O) by lia. subst k. reflexivity.
  - rewrite append_cons. cbn [PyStr.lstrip_go] in *. destruct k as [|k].
    + destruct (PyStr.head_len PyStr.whitespace (String c a)) as [|j] eqn:E; [discriminate H|].
      rewrite <- append_cons.
      destruct (head_len_app (String c a) t j E) as [-> Hj].
      apply IH; [cbn [String.length] in Hj; lia | exact H].
    + apply IH; [cbn [String.length] in Hk; lia | exact H].
Qed.

Lemma rstrip_split s :
  exists t, s = PyStr.rstrip s ++ t /\ PyStr.lstrip t = EmptyString.
Proof.
  induction s as [|c s (t & Hs & Ht)]; [exists EmptyString; split; reflexivity|].
  cbn [PyStr.rstrip].
  destruct (PyStr.lstrip (String c s)) as [|d r] eqn:E.
  - exists (String c s). split; [reflexivity | exact E].
  - exists t. split; [rewrite append_cons, <- Hs; reflexivity | exact Ht].
Qed.

Lemma rstrip_idem s : PyStr.rstrip (PyStr.rstrip s) = PyStr.rstrip s.
Proof.
  induction s as [|c s IH]; [reflexivity|].
  cbn [PyStr.rstrip].
  destruct (PyStr.lstrip (String c s)) as [|d r] eqn:E; [reflexivity|].
  cbn [PyStr.rstrip].
  destruct (PyStr.lstrip (String c (PyStr.rstrip s))) as [|d' r'] eqn:E'.
  - exfalso. destruct (rstrip_split s) as (t & Hs & Ht).
    assert (H : PyStr.lstrip (String c (PyStr.rstrip s) ++ t) = EmptyString).
    { unfold PyStr.lstrip at 1. rewrite lstrip_go_app; [exact Ht | lia | exact E']. }
    rewrite append_cons, <- Hs, E in H. discriminate H.
  - rewrite IH. reflexivity.
Qed.

(** [s.strip().strip() == s.strip()] *)
Lemma strip_idem s : PyStr.strip (PyStr.strip s) = PyStr.strip s.
Proof.
  unfold PyStr.strip.
  assert (H : PyStr.lstrip (PyStr.rstrip (PyStr.lstrip s)) = PyStr.rstrip (PyStr.lstrip s)).
  { destruct (lstrip_go_head 0 s) as [E | E]; fold (PyStr.lstrip s) in E.
    - rewrite E. reflexivity.
    - apply lstrip_unchanged.
      destruct (rstrip_split (PyStr.lstrip s)) as (t & Hs & _).
      rewrite Hs in E. exact (head_len_prefix _ _ E). }
  rewrite H. apply rstrip_idem.
Qed.

(** A line boundary at the head of a text is still there when the text
    is continued. *)
Lemma linebreaks_nonempty p :
  List.In p PyStr.linebreaks -> String.length p <> O.
Proof.
  assert (H : forallb (fun p => negb (Nat.eqb (String.length p) 0)) PyStr.linebreaks = true)
    by reflexivity.
  rewrite forallb_forall in H. intros Hin E. specialize (H p Hin).
  rewrite E in H. discriminate H.
Qed.

Lemma break_len_prefix a x : PyStr.break_len (a ++ x) = O -> PyStr.break_len a = O.
Proof.
  unfold PyStr.break_len.
  destruct (String.prefix (String "013" (String "010" "")) a) eqn:Ea.
  - rewrite (prefix_app _ _ x Ea). discriminate.
  - destruct (String.prefix _ (a ++ x)); [discriminate|].
    unfold PyStr.head_len.
    destruct (List.find (fun p => String.prefix p a) PyStr.linebreaks) as [p|] eqn:E;
      [|reflexivity].
    apply List.find_some in E as [Hin Hp].
    destruct (List.find (fun p => String.prefix p (a ++ x)) PyStr.linebreaks) as [q|] eqn:E'.
    + intros H. apply List.find_some in E' as [Hq _].
      exfalso. exact (linebreaks_nonempty q Hq H).
    + pose proof (List.find_none _ _ E' p Hin) as Hn. cbv beta in Hn.
      rewrite (prefix_app _ _ x Hp) in Hn. discriminate Hn.
Qed.

Lemma one_line_tail c s : one_line (String c s) = true -> one_line s = true.
Proof. cbn [one_line]. destruct (PyStr.break_len (String c s)); [tauto | discriminate]. Qed.

Lemma one_line_prefix a x : one_line (a ++ x) = true -> one_line a = true.
Proof.
  induction a as [|c a IH]; [reflexivity|].
  rewrite append_cons. cbn [one_line].
  destruct (PyStr.break_len (String c (a ++ x))) eqn:E; [|discriminate].
  rewrite <- append_cons in E. rewrite (break_len_prefix _ _ E). exact IH.
Qed.

Lemma one_line_lstrip_go k s : one_line s = true -> one_line (PyStr.lstrip_go k s) = true.
Proof.
  revert k. induction s as [|c s IH]; intros k H; [reflexivity|].
  cbn [PyStr.lstrip_go]. pose proof (one_line_tail c s H) as Ht.
  destruct k as [|k]; [|apply IH, Ht].
  destruct (PyStr.head_len PyStr.whitespace (String c s)); [exact H | apply IH, Ht].
Qed.

Lemma one_line_strip s : one_line s = true -> one_line (PyStr.strip s) = true.
Proof.
  intros H. unfold PyStr.strip.
  destruct (rstrip_split (PyStr.lstrip s)) as (t & Hs & _).
  apply (one_line_prefix _ t). rewrite <- Hs. apply one_line_lstrip_go, H.
Qed.

(** The lines of [splitlines] have no line boundary left in them; the
    first one begins the text. *)
Lemma splitlines_go_one_line s :
  forall k, Forall (fun l => one_line l = true) (PyStr.splitlines_go k s) /\
            (k = O -> forall l ls, PyStr.splitlines_go O s = l :: ls -> exists r, s = l ++ r).
Proof.
  induction s as [|c s IH]; intros k.
  - split; [constructor | discriminate].
  - assert (H0 : Forall (fun l => one_line l = true) (PyStr.splitlines_go O (String c s)) /\
                 (forall l ls, PyStr.splitlines_go O (String c s) = l :: ls ->
                               exists r, String c s = l ++ r)).
    { cbn [PyStr.splitlines_go].
      destruct (PyStr.break_len (String c s)) as [|j] eqn:E.
      - destruct (IH O) as [Hall Hpre].
        destruct (PyStr.splitlines_go O s) as [|p ps] eqn:Es.
        + split.
          * constructor; [|constructor]. cbn [one_line].
            rewrite (break_len_prefix (String c "") s E). reflexivity.
          * intros l ls [= <- <-]. exists s. reflexivity.
        + destruct (Hpre eq_refl p ps eq_refl) as [r Hr].
          pose proof (Forall_inv Hall) as Hp. pose proof (Forall_inv_tail Hall) as Hps.
          cbv beta in Hp. split.
          * constructor; [|exact Hps]. cbn [one_line].
            rewrite (break_len_prefix (String c p) r); [exact Hp|].
            rewrite append_cons, <- Hr. exact E.
          * intros l ls [= <- <-]. exists r. rewrite append_cons, <- Hr. reflexivity.
      - split.
        + constructor; [reflexivity | apply IH].
        + intros l ls [= <- <-]. exists (String c s). reflexivity. }
    destruct k as [|k]; [split; [apply H0 | intros _; apply H0]|].
    split; [|discriminate]. cbn [PyStr.splitlines_go]. apply IH.
Qed.

(** A non-empty text without a line boundary is its own single line. *)
Lemma splitlines_one_line l :
  l <> EmptyString -> one_line l = true -> PyStr.splitlines l = [l].
Proof.
  unfold PyStr.splitlines. induction l as [|c l IH]; intros Hne H; [contradiction|].
  cbn [PyStr.splitlines_go]. cbn [one_line] in H.
  destruct (PyStr.break_len (String c l)); [|discriminate H].
  destruct l as [|d l]; [reflexivity|].
  rewrite IH; [reflexivity | discriminate | exact H].
Qed.

(** X11. Every line that [handle_text] takes from the administrator's
    text is non-empty, has no white space at either end (stripping it
    again changes nothing) and has no line boundary in it: it is a
    single line of [splitlines], and reading it as credentials gives
    back the line itself.  So the username and the password that are
    stored and sent are never blank, never padded and never spread over
    several lines, whichever white space and line separators of Unicode
    the text contains. *)
Theorem X11_credential_lines_clean (text l : string) :
  List.In l (credential_lines text) ->
  l <> EmptyString /\ PyStr.strip l = l /\
  PyStr.splitlines l = [l] /\ credential_lines l = [l].
Proof.
  unfold credential_lines at 1. intros H.
  apply List.in_map_iff in H as (raw & <- & Hraw).
  apply List.filter_In in Hraw as [Hin Hne].
  assert (Hn : PyStr.strip raw <> EmptyString).
  { intros E. rewrite E in Hne. discriminate Hne. }
  assert (Hs : PyStr.strip (PyStr.strip raw) = PyStr.strip raw) by apply strip_idem.
  assert (Hl : PyStr.splitlines (PyStr.strip raw) = [PyStr.strip raw]).
  { apply splitlines_one_line; [exact Hn|]. apply one_line_strip.
    destruct (splitlines_go_one_line text O) as [Hall _].
    rewrite List.Forall_forall in Hall. apply Hall, Hin. }
  split; [exact Hn|]. split; [exact Hs|]. split; [exact Hl|].
  unfold credential_lines. rewrite Hl. cbn [List.filter]. rewrite Hs, Hne. cbn [List.map].
  rewrite Hs. reflexivity.
Qed.

Lemma X11_credential_lines_clean_witness :
  let text := ("  alice " ++ PyStr.utf8 0x2028 ++ PyStr.utf8 0xA0 ++ " " ++ nl
               ++ PyStr.utf8 0x3000 ++ "Secret1" ++ String "013" (String "010" ""))%string in
  credential_lines text = ["alice"; "Secret1"] /\
  "alice" <> EmptyString /\ PyStr.strip "alice" = "alice" /\
  PyStr.splitlines "alice" = ["alice"] /\ credential_lines "alice" = ["alice"].
Proof.
  intros text. split; [reflexivity|].
  apply (X11_credential_lines_clean text "alice"). left. reflexivity.
Defined.

(** ** Selecting an account again *)

Lemma button_select_account_refused ADMIN_ID q w :
  PyStr.startswith (cq_data q) "select_account:" = true ->
  PyStr.has_nul (account_of (cq_data q)) = true ->
  net w = [] ->
  run (button_handler ADMIN_ID q) w =
  mkWorld (db w) (user_state w)
          (outbox w ++ [AnswerCallback;
                        EditMessageText "Error creating payment record. Try again later."
                                        [back_to_menu]])
          [] (clock w) (durable w).
Proof.
  intros Hpre Hnul Hn.
  destruct (select_account_parts _ Hpre) as [rest Hparts].
  unfold run, button_handler, bind at 1, api at 1. rewrite Hn. cbn [hd tl].
  rewrite (route_select_account _ _ Hpre).
  unfold button_select_account. rewrite Hparts.
  unfold try_except, bind, select_user, insert_payment, bind, text_param, now, commit,
    set_user_state, ret, raise, api. cbn. rewrite Hnul. cbn.
  rewrite <- ?List.app_assoc. reflexivity.
Qed.

(** X12. Every selection of an account whose name can be stored inserts
    a new pending attempt for the presser's current package, with the
    next id of the sequence; a second selection leaves the first attempt
    pending and points the presser's session to the second one.  A
    second selection whose account name the driver refuses changes
    nothing: the first attempt and the session that points to it stay,
    and the presser is shown the error text. *)
Theorem X12_second_selection (ADMIN_ID : Z) (q1 q2 : CallbackQuery) (w : World) :
  PyStr.startswith (cq_data q1) "select_account:" = true ->
  PyStr.startswith (cq_data q2) "select_account:" = true ->
  PyStr.has_nul (account_of (cq_data q1)) = false ->
  user_id (cq_from q2) = user_id (cq_from q1) ->
  net w = [] ->
  let uid := user_id (cq_from q1) in
  let i := payments_id_seq (db w) in
  let pkg := match find_user uid (users (db w)) with
             | Some u => package u
             | None => None
             end in
  let w1 := run (button_handler ADMIN_ID q1) w in
  let w2 := run (button_handler ADMIN_ID q2) w1 in
  users (db w2) = users (db w) /\
  (PyStr.has_nul (account_of (cq_data q2)) = false ->
   payments (db w2) =
     (payments (db w)
      ++ [mkPayment i uid pkg (account_of (cq_data q1)) pending (hd 0 (clock w)) None;
          mkPayment (i + 1) uid pkg (account_of (cq_data q2)) pending
                    (hd 0 (tl (clock w))) None])%list /\
   user_state w2 !! uid = Some (mkSession reg_screenshot (Some (i + 1)) None)) /\
  (PyStr.has_nul (account_of (cq_data q2)) = true ->
   payments (db w2) =
     (payments (db w)
      ++ [mkPayment i uid pkg (account_of (cq_data q1)) pending (hd 0 (clock w)) None])%list /\
   user_state w2 !! uid = Some (mkSession reg_screenshot (Some i) None) /\
   List.last (outbox w2) AnswerCallback
   = EditMessageText "Error creating payment record. Try again later." [back_to_menu]).
Proof.
  intros H1 H2 Hnul1 Hid Hn uid i pkg w1 w2. subst uid i pkg w2 w1.
  rewrite (button_select_account_run _ q1 w H1 Hnul1 Hn).
  destruct (PyStr.has_nul (account_of (cq_data q2))) eqn:Hnul2.
  - rewrite (button_select_account_refused _ q2 _ H2 Hnul2) by reflexivity.
    cbn [settled_world db users payments payments_id_seq user_state clock tl outbox].
    split; [reflexivity|]. split; [discriminate|]. intros _.
    split; [reflexivity|]. split; [apply lookup_insert_eq|].
    match goal with
    | |- List.last (?l ++ [?a; ?b])%list _ = _ =>
        change (l ++ [a; b])%list with (l ++ ([a] ++ [b]))%list
    end.
    rewrite List.app_assoc. apply List.last_last.
  - rewrite (button_select_account_run _ q2 _ H2 Hnul2) by reflexivity.
    cbn [settled_world db users payments payments_id_seq user_state clock tl]. rewrite Hid.
    split; [reflexivity|]. split; [|discriminate]. intros _. split.
    + rewrite <- List.app_assoc. reflexivity.
    + apply lookup_insert_eq.
Qed.

Lemma X12_second_selection_witness :
  let q1 := mkCallbackQuery (mkTgUser 7 (Some "bob") "Bob") "select_account:Bank A" in
  let q2 := mkCallbackQuery (mkTgUser 7 (Some "bob") "Bob") "select_account:Bank B" in
  let w2 := run (button_handler 1 q2) (run (button_handler 1 q1) two_users_world) in
  PyStr.has_nul (account_of (cq_data q1)) = false /\
  net two_users_world = [] /\
  List.map pay_status (payments (db w2)) = [pending; pending; pending] /\
  user_state w2 !! 7 = Some (mkSession reg_screenshot (Some 3) None).
Proof.
  intros q1 q2 w2. split; [reflexivity|]. split; [reflexivity|].
  destruct (X12_second_selection 1 q1 q2 two_users_world eq_refl eq_refl eq_refl eq_refl
              eq_refl) as (_ & Hok & _).
  destruct (Hok eq_refl) as (Hp & Hs).
  split; [|exact Hs]. fold w2 in Hp. rewrite Hp. reflexivity.
Defined.

(** ** A registration that is rejected *)

Lemma button_reject_run ADMIN_ID q w target pid :
  PyStr.startswith (cq_data q) "reject_reg_" = true ->
  parse_target (PyStr.split (cq_data q) "_") = Some (target, pid) ->
  net w = [] ->
  run (button_handler ADMIN_ID q) w =
  settled_world
    (reject_tables target pid (db w))
    (user_state w)
    (outbox w ++ [AnswerCallback;
                  SendMessage target rejected_text [];
                  EditMessageText "Payment rejected and user notified." []])
    [] (clock w).
Proof.
  intros Hpre Hp Hn.
  unfold run, button_handler, bind at 1, api at 1. rewrite Hn. cbn [hd tl].
  rewrite (route_reject _ _ Hpre).
  unfold button_reject. cbv zeta. rewrite (parse_target_length _ _ Hp).
  unfold try_except at 2 3, bind at 1 2. rewrite Hp. cbn [or_raise ret].
  unfold reject_tables, reject_writes, reject_notifies.
  unfold try_except, bind, update_payments, update_users, commit, ret, api.
  destruct (truthy pid); cbn; rewrite <- ?List.app_assoc; reflexivity.
Qed.

Lemma parse_reject_data uid i :
  parse_target (PyStr.split ("reject_reg_" ++ PyStr.of_int uid ++ "_" ++ PyStr.of_int i) "_")
  = Some (uid, Some i).
Proof.
  change ("reject_reg_" ++ PyStr.of_int uid ++ "_" ++ PyStr.of_int i)
    with ("reject" ++ String "_" ("reg" ++ String "_"
            (PyStr.of_int uid ++ String "_" (fmt_opt_int (Some i))))).
  rewrite split_reg_data by (reflexivity || apply of_int_no_underscore).
  apply (parse_review_parts "reject" uid (Some i)).
Qed.

Lemma run_all_app ADMIN_ID us vs w :
  run_all ADMIN_ID (us ++ vs)%list w = run_all ADMIN_ID vs (run_all ADMIN_ID us w).
Proof. unfold run_all. apply List.fold_left_app. Qed.

(** The world once the screenshot is with the administrator. *)
Lemma screenshot_run ADMIN_ID alice photos f ts :
  storable alice = true ->
  List.last (List.map Some photos) None = Some f ->
  let uid := user_id alice in
  let w := run_all ADMIN_ID (screenshot_updates alice photos) (fresh_world [] ts) in
  db w = mkDB [mkUser uid (or_empty (tg_username alice)) (full_name alice) None None
                      (Some Standard) st_pending_approval None None]
              [mkPayment 1 uid (Some Standard) "Bank A" pending (hd 0 ts) None] 2 /\
  user_state w = delete uid (<[uid := mkSession reg_screenshot (Some 1) None]> ∅) /\
  net w = [] /\ clock w = tl ts.
Proof.
  intros Hst Hf uid w. subst w uid.
  unfold screenshot_updates, run_all. cbn [fold_left handle].
  rewrite start_run by (reflexivity || exact Hst).
  unfold settled_world.
  cbn [settled_world db users payments payments_id_seq msg_chat fresh_world empty_db user_state outbox
       net clock tl List.app new_user_row msg_from].
  erewrite (button_reg_standard_run _ (mkCallbackQuery alice "reg_standard"));
    [ | reflexivity | cbn; rewrite Z.eqb_refl; reflexivity | reflexivity ].
  unfold settled_world.
  cbn [settled_world db users payments payments_id_seq msg_chat user_state outbox net clock tl List.app
       cq_from update_rows List.map chat_id].
  rewrite Z.eqb_refl.
  rewrite (button_select_account_run _ (mkCallbackQuery alice "select_account:Bank A"))
    by reflexivity.
  unfold settled_world.
  cbn [settled_world db users payments payments_id_seq msg_chat user_state outbox net clock tl List.app
       cq_from cq_data find_user List.find chat_id set_package_status package].
  rewrite Z.eqb_refl.
  change (account_of "select_account:Bank A") with "Bank A".
  erewrite (handle_photo_delivered _ (mkMessage (user_id alice) alice None photos));
    [ | apply lookup_insert_eq | reflexivity | exact Hf | reflexivity | reflexivity ].
  unfold settled_world.
  cbn [settled_world db users payments payments_id_seq msg_chat user_state outbox net clock tl List.app
       chat_id update_rows List.map set_status payment_id].
  rewrite Z.eqb_refl. repeat split; reflexivity.
Qed.

(** X13. From the empty store, with every message delivered, for an
    actor whose names can be stored: entry,
    package Standard, account Bank A, screenshot and then the
    administrator's reject button for the attempt leave the actor at
    status [new] with the package still set, the attempt rejected and
    never given an approval time, the actor told of the rejection, and
    nobody expected to send anything. *)
Theorem X13_rejected_registration (alice boss : TgUser) (photos : list string) (ts : list Z) :
  storable alice = true ->
  photos <> [] ->
  let uid := user_id alice in
  let w := run_all (user_id boss) (rejection_updates alice boss photos) (fresh_world [] ts) in
  db w = mkDB [mkUser uid (or_empty (tg_username alice)) (full_name alice) None None
                      (Some Standard) st_new None None]
              [mkPayment 1 uid (Some Standard) "Bank A" rejected (hd 0 ts) None] 2 /\
  user_state w !! uid = None /\
  user_state w !! user_id boss = None /\
  List.In (SendMessage uid rejected_text []) (outbox w).
Proof.
  intros Hok Hph uid w. destruct (last_photo photos Hph) as [f Hf].
  destruct (screenshot_run (user_id boss) alice photos f ts Hok Hf) as (Hdb & Hst & Hn & Hc).
  subst w. unfold rejection_updates. rewrite run_all_app.
  set (v := run_all (user_id boss) (screenshot_updates alice photos) (fresh_world [] ts)) in *.
  unfold run_all. cbn [fold_left handle].
  rewrite (button_reject_run _ _ v (user_id alice) (Some 1));
    [ | apply startswith_literal | apply parse_reject_data | exact Hn ].
  cbn [settled_world db user_state outbox]. rewrite Hdb, Hst.
  unfold reject_tables, update_rows.
  cbn [users payments payments_id_seq List.map chat_id truthy Z.eqb pay_id Pos.eqb].
  fold uid. rewrite Z.eqb_refl.
  split; [reflexivity|]. split; [apply lookup_delete_eq|]. split.
  - destruct (Z.eq_dec (user_id boss) uid) as [->|Hne]; [apply lookup_delete_eq|].
    rewrite lookup_delete_ne, lookup_insert_ne by congruence. apply lookup_empty.
  - apply List.in_or_app. right. right. left. reflexivity.
Qed.

Lemma X13_rejected_registration_witness :
  let alice := mkTgUser 42 (Some "al") "Alice A" in
  let boss := mkTgUser 1 None "Boss" in
  let w := run_all 1 (rejection_updates alice boss ["photo-1"]) (fresh_world [] [10; 20]) in
  storable alice = true /\
  ["photo-1"] <> [] /\
  db w = mkDB [mkUser 42 "al" "Alice A" None None (Some Standard) st_new None None]
              [mkPayment 1 42 (Some Standard) "Bank A" rejected 10 None] 2.
Proof.
  intros alice boss w.
  assert (H : ["photo-1"] <> @nil string) by discriminate.
  split; [reflexivity|]. split; [exact H|].
  destruct (X13_rejected_registration alice boss ["photo-1"] [10; 20] eq_refl H)
    as (Hdb & _).
  exact Hdb.
Defined.

(** ** The administrator's statistics *)

Lemma length_insert_by_date u l : length (insert_by_date u l) = S (length l).
Proof.
  induction l as [|v l IH]; [reflexivity|]. cbn [insert_by_date].
  destruct (reg_time v <=? reg_time u); cbn [length]; [reflexivity | rewrite IH; reflexivity].
Qed.

Lemma length_sorted_by_date l :
  length (List.fold_right insert_by_date [] l) = length l.
Proof.
  induction l as [|u l IH]; [reflexivity|]. cbn [fold_right length].
  rewrite length_insert_by_date, IH. reflexivity.
Qed.

Lemma forall_insert_by_date (P : User -> Prop) u l :
  P u -> List.Forall P l -> List.Forall P (insert_by_date u l).
Proof.
  intros Hu Hl. induction Hl as [|v l Hv Hl IH]; cbn [insert_by_date].
  - constructor; [exact Hu | constructor].
  - destruct (reg_time v <=? reg_time u).
    + constructor; [exact Hu|]. constructor; assumption.
    + constructor; assumption.
Qed.

Lemma sorted_insert_by_date u l :
  StronglySorted (fun a b => reg_time b <= reg_time a) l ->
  StronglySorted (fun a b => reg_time b <= reg_time a) (insert_by_date u l).
Proof.
  intros Hl. induction Hl as [|v l Hl IH Hv]; cbn [insert_by_date].
  - constructor; constructor.
  - destruct (Z.leb_spec (reg_time v) (reg_time u)) as [Hle|Hlt].
    + constructor; [constructor; assumption|].
      constructor; [exact Hle|].
      eapply List.Forall_impl; [|exact Hv]. intros x Hx. simpl in Hx. lia.
    + constructor; [exact IH|].
      apply forall_insert_by_date; [lia | exact Hv].
Qed.

Lemma sorted_by_date l :
  StronglySorted (fun a b => reg_time b <= reg_time a) (List.fold_right insert_by_date [] l).
Proof.
  induction l as [|u l IH]; cbn [fold_right]; [constructor | apply sorted_insert_by_date, IH].
Qed.

Lemma insert_by_date_perm u l : Permutation (insert_by_date u l) (u :: l).
Proof.
  induction l as [|v l IH]; cbn [insert_by_date]; [reflexivity|].
  destruct (reg_time v <=? reg_time u); [reflexivity|].
  rewrite IH. apply perm_swap.
Qed.

Lemma sorted_by_date_perm l : Permutation (List.fold_right insert_by_date [] l) l.
Proof.
  induction l as [|u l IH]; cbn [fold_right]; [reflexivity|].
  rewrite insert_by_date_perm, IH. reflexivity.
Qed.

Lemma in_firstn {A} n (l : list A) x : List.In x (List.firstn n l) -> List.In x l.
Proof.
  revert n. induction l as [|y l IH]; intros [|n]; simpl; try tauto.
  intros [H|H]; [left; exact H | right; exact (IH n H)].
Qed.

Lemma sorted_firstn {A} (R : A -> A -> Prop) n l :
  StronglySorted R l -> StronglySorted R (List.firstn n l).
Proof.
  intros Hl. revert n. induction Hl as [|v l Hl IH Hv]; intros [|n]; cbn [firstn];
    try constructor.
  - apply IH.
  - apply List.Forall_forall. intros x Hx.
    rewrite List.Forall_forall in Hv. apply Hv. eapply in_firstn. exact Hx.
Qed.

(** In a sorted list every later element is below every earlier one. *)
Lemma sorted_app_below {A} (R : A -> A -> Prop) (a b : list A) :
  StronglySorted R (a ++ b)%list ->
  List.Forall (fun y => List.Forall (fun x => R x y) a) b.
Proof.
  intros H. apply List.Forall_forall. intros y Hy. apply List.Forall_forall. intros x Hx.
  induction a as [|z a IH]; [contradiction|].
  cbn [List.app] in H. inversion H as [|? ? Hs Hall]; subst.
  destruct Hx as [->|Hx].
  - rewrite List.Forall_forall in Hall. apply Hall. apply List.in_or_app. right. exact Hy.
  - apply IH; assumption.
Qed.

(** X14. [adminstats] answers anyone but the administrator with
    "This command is admin-only." and nothing else; for every caller it
    leaves the tables, what is committed and the sessions as they are.
    The administrator is sent the lines of the report, joined by line
    feeds: six heading lines, then one line for each listed user, or the
    one line "No registered users yet." when none is listed.  The listed
    users are the latest registered ones: they are taken from the users
    that have a registration date, ten of them or all when there are
    fewer, in descending order of that date, and no user left out has a
    later date than a listed one. *)
Theorem X14_adminstats (ADMIN_ID : Z) (strftime : Z -> string) (m : Message) (w : World) :
  let w' := run (adminstats ADMIN_ID strftime m) w in
  let dated := List.filter has_registration_date (users (db w)) in
  let listed := last_registered (users (db w)) in
  (msg_chat m <> ADMIN_ID ->
   adminstats ADMIN_ID strftime m w
   = api (ReplyText (msg_chat m) "This command is admin-only." []) w) /\
  db w' = db w /\
  durable w' = durable w /\
  user_state w' = user_state w /\
  (msg_chat m = ADMIN_ID -> hd true (net w) = true ->
   outbox w' = (outbox w ++ [ReplyText ADMIN_ID
                               (join nl (stats_lines strftime (users (db w)))) []])%list) /\
  List.skipn 6 (stats_lines strftime (users (db w)))
  = match listed with
    | [] => ["No registered users yet."]
    | _ => List.map (stats_row strftime) listed
    end /\
  length (stats_lines strftime (users (db w)))
  = (6 + Nat.max 1 (Nat.min 10 (length dated)))%nat /\
  length listed = Nat.min 10 (length dated) /\
  StronglySorted (fun a b => reg_time b <= reg_time a) listed /\
  exists rest,
    Permutation (listed ++ rest)%list dated /\
    List.Forall (fun r => List.Forall (fun l => reg_time r <= reg_time l) listed) rest.
Proof.
  intros w' dated listed.
  assert (Hlen : length listed = Nat.min 10 (length dated)).
  { unfold listed, last_registered. rewrite List.length_firstn, length_sorted_by_date.
    reflexivity. }
  subst w'.
  split; [|split; [|split; [|split; [|split; [|split; [|split; [|split; [|split]]]]]]]].
  - intros Hne. unfold adminstats. apply Z.eqb_neq in Hne. rewrite Hne. reflexivity.
  - assert (H : preserves (kept db) (adminstats ADMIN_ID strftime m)); [|exact (H w)].
    unfold adminstats. cbv zeta. destruct (negb _); repeat kept_step.
    intros v. reflexivity.
  - assert (H : preserves (kept durable) (adminstats ADMIN_ID strftime m)); [|exact (H w)].
    unfold adminstats. cbv zeta. destruct (negb _); repeat kept_step.
    intros v. reflexivity.
  - apply map_eq. intros k.
    assert (H : preserves (session_kept k) (adminstats ADMIN_ID strftime m)); [|exact (H w)].
    unfold adminstats. cbv zeta. destruct (negb _); [apply api_session_kept|].
    apply sk_try_except; [|apply api_session_kept].
    apply sk_bind; [intros v; reflexivity | intros us; apply api_session_kept].
  - intros Hc Hn. unfold run, adminstats. rewrite Hc, Z.eqb_refl. cbn [negb].
    unfold try_except, bind, select_users, api. rewrite Hn. reflexivity.
  - unfold listed, stats_lines. destruct (last_registered (users (db w))); reflexivity.
  - unfold stats_lines. rewrite List.length_app. cbn [length]. f_equal.
    fold listed. destruct listed as [|u rows].
    + cbn [length] in *. rewrite <- Hlen. reflexivity.
    + rewrite List.length_map, Hlen.
      assert (0 < Nat.min 10 (length dated))%nat by (rewrite <- Hlen; cbn [length]; lia).
      lia.
  - exact Hlen.
  - unfold listed, last_registered. apply sorted_firstn, sorted_by_date.
  - exists (List.skipn 10 (List.fold_right insert_by_date [] dated)).
    unfold listed, last_registered. fold dated. split.
    + rewrite List.firstn_skipn. apply sorted_by_date_perm.
    + apply (sorted_app_below (fun a b => reg_time b <= reg_time a)).
      rewrite List.firstn_skipn. apply sorted_by_date.
Qed.

Lemma X14_adminstats_witness :
  let m := mkMessage 42 (mkTgUser 42 None "Alice A") (Some "/adminstats") [] in
  msg_chat m <> 1 /\
  outbox (run (adminstats 1 PyStr.of_int m) registered_world)
  = [ReplyText 42 "This command is admin-only." []].
Proof.
  intros m.
  assert (H : msg_chat m <> 1) by discriminate.
  split; [exact H|].
  destruct (X14_adminstats 1 PyStr.of_int m registered_world) as (E & _).
  unfold run. rewrite (E H). reflexivity.
Defined.

(** ** Updates that leave the attempts alone *)

#[export] Instance same_payments_rel : TableRel same_payments.
Proof.
  split; unfold same_payments.
  - intros w. split; reflexivity.
  - intros w1 w2 w3 [H12 H12'] [H23 H23']. split; congruence.
  - intros w w' ->. split; reflexivity.
Qed.

Lemma same_payments_update_users c f : preserves same_payments (update_users c f).
Proof. intros w. split; reflexivity. Qed.

Lemma same_payments_insert_user u : preserves same_payments (insert_user u).
Proof.
  intros w. unfold same_payments, run, insert_user.
  destruct (PyStr.has_nul _ || PyStr.has_nul _); [split; reflexivity|].
  destruct (find_user (chat_id u) (users (db w))); split; reflexivity.
Qed.

Ltac payments_step :=
  first [ solve [apply same_payments_update_users]
        | solve [apply same_payments_insert_user]
        | solve [auto with preserves typeclass_instances]
        | apply preserves_bind; [exact _ | | intros ?]
        | apply preserves_try_except; [exact _ | | ]
        | match goal with
          | |- preserves _ (match ?x with _ => _ end) => destruct x
          end ].

(** X15. Commands, screenshots and every button press other than the
    selection of an account and the approve and reject buttons leave
    [payments] exactly as it is: a screenshot does not touch the status
    of the attempt it belongs to, and choosing a package again does not
    cancel an attempt that is pending. *)
Theorem X15_attempts_untouched (ADMIN_ID : Z) (u : Update) (w : World) :
  off_payments u ->
  payments (db (run (handle ADMIN_ID u) w)) = payments (db w) /\
  payments_id_seq (db (run (handle ADMIN_ID u) w)) = payments_id_seq (db w).
Proof.
  intros Hu.
  assert (H : preserves same_payments (handle ADMIN_ID u)); [|exact (H w)].
  destruct u as [m|m|m|q|m|m]; cbn [handle off_payments] in *.
  - unfold start. repeat payments_step.
  - repeat payments_step.
  - repeat payments_step.
  - destruct Hu as (Hsel & Happ & Hrej).
    unfold button_handler, button_route, button_reg, button_finalize, py_int. cbv zeta.
    rewrite Hsel, Happ, Hrej. repeat payments_step.
  - unfold handle_photo. cbv zeta. repeat payments_step.
  - contradiction.
Qed.

Lemma X15_attempts_untouched_witness :
  let m := mkMessage 42 (mkTgUser 42 (Some "al") "Alice A") None ["photo-1"] in
  let w := awaiting_screenshot_world [] in
  off_payments (PhotoMessage m) /\
  payments (db (run (handle 1 (PhotoMessage m)) w)) = [attempt_row 1 42 pending].
Proof.
  intros m w. split; [exact I|].
  destruct (X15_attempts_untouched 1 (PhotoMessage m) w I) as [Hp _]. exact Hp.
Defined.

(** ** Nothing is left uncommitted *)

Section Settles.

Lemma settles_ret {A} (a : A) : settles (ret a).
Proof. intros w H. exact H. Qed.

Lemma settles_raise {A} e : settles (@raise A e).
Proof. intros w H. exact H. Qed.

Lemma settles_bind {A B} (m : M A) (k : A -> M B) :
  settles m -> (forall a, settles (k a)) -> settles (bind m k).
Proof.
  intros Hm Hk w H. rewrite run_bind.
  destruct (fst (m w)); [apply Hk|]; apply Hm, H.
Qed.

Lemma settles_try_except {A} (m h : M A) :
  settles m -> settles h -> settles (try_except m h).
Proof.
  intros Hm Hh w H. specialize (Hm w H). unfold run, try_except in *.
  destruct (m w) as [[a|e] w']; simpl in *; [exact Hm|]. apply Hh, Hm.
Qed.

Lemma settles_try_finally {A} (m : M A) (g : M unit) :
  settles m -> settles g -> settles (try_finally m g).
Proof.
  intros Hm Hg w H. specialize (Hm w H). unfold run, try_finally in *.
  destruct (m w) as [r w']. simpl in *. specialize (Hg w' Hm). unfold run in Hg.
  destruct (g w') as [[u|e] w'']; simpl in *; exact Hg.
Qed.

(** Steps that touch neither the tables nor what is committed. *)
Lemma settles_frame {A} (m : M A) :
  (forall w, db (run m w) = db w /\ durable (run m w) = durable w) -> settles m.
Proof. intros Hm w H. unfold settled in *. destruct (Hm w) as [-> ->]. exact H. Qed.

Lemma settles_api e : settles (api e).
Proof. apply settles_frame. intros w. split; [apply api_tables | apply api_durable]. Qed.

(** A [commit] settles whatever came before it. *)
Lemma settles_after_commit {A B} (m : M A) (k : M B) :
  (forall w, settled w -> forall e w', m w = (Raise e, w') -> settled w') ->
  settles k ->
  settles (m ;;; commit ;;; k).
Proof.
  intros Hm Hk w H. unfold run, bind, commit.
  destruct (m w) as [[a|e] w'] eqn:E; simpl.
  - apply Hk. reflexivity.
  - exact (Hm w H e w' E).
Qed.

End Settles.

Lemma settles_approve_writes target pid : settles (approve_writes target pid).
Proof.
  intros w _. destruct (approve_writes_run target pid w) as (w2 & E & _ & _ & H).
  unfold run. rewrite E. exact H.
Qed.

Lemma settles_reject_writes target pid : settles (reject_writes target pid).
Proof.
  intros w _. destruct (reject_writes_run target pid w) as (w2 & E & _ & _ & H).
  unfold run. rewrite E. exact H.
Qed.

Lemma settles_credentials_writes target uname : settles (credentials_writes target uname).
Proof.
  intros w H. destruct (PyStr.has_nul uname) eqn:Hn.
  - destruct (credentials_writes_refused target uname w Hn) as (w2 & E & Hdb & Hd & _).
    unfold run, settled in *. rewrite E. cbn [snd]. congruence.
  - destruct (credentials_writes_run target uname w Hn) as (w2 & E & _ & _ & Hd).
    unfold run. rewrite E. exact Hd.
Qed.

(** Lines 164-167 of [start]. *)
Lemma settles_insert_user u : settles (insert_user u ;;; commit).
Proof.
  intros w H. unfold run, bind, insert_user, commit.
  destruct (PyStr.has_nul _ || PyStr.has_nul _); [exact H|].
  destruct (find_user (chat_id u) (users (db w))); [exact H | reflexivity].
Qed.

(** Lines 264-268 of [button_handler]: when the [INSERT] is refused the
    [UPDATE] before it has matched no row. *)
Lemma settles_button_reg_writes uid f u :
  settles (n <- update_users uid f ;;
           (if Nat.eqb n 0 then insert_user u else ret tt) ;;;
           commit).
Proof.
  intros w H. unfold run, bind, update_users.
  destruct (Nat.eqb _ 0) eqn:En; [|reflexivity].
  assert (Hnone : find_user uid (users (db w)) = None).
  { destruct (find_user uid (users (db w))) as [v|] eqn:Hf; [|reflexivity].
    rewrite (rowcount_found _ _ _ Hf) in En. discriminate En. }
  rewrite (update_rows_none _ f _ Hnone).
  replace (with_db _ w) with w by (destruct w as [[] ? ? ? ? ?]; reflexivity).
  exact (settles_insert_user u w H).
Qed.

(** Lines 285-288: a refused [INSERT] has written nothing. *)
Lemma settles_insert_payment {B} c pkg account (k : Z -> M B) :
  (forall pid, settles (k pid)) ->
  settles (pid <- insert_payment c pkg account ;; commit ;;; k pid).
Proof.
  intros Hk w H. unfold run, bind, insert_payment, text_param, now, commit, bind.
  destruct (PyStr.has_nul account); [exact H|]. cbn. apply Hk. reflexivity.
Qed.

(** Lines 402-403 of [handle_photo]. *)
Lemma settles_update_users {B} c f (k : M B) :
  settles k -> settles (update_users c f ;;; commit ;;; k).
Proof. intros Hk w H. unfold run, bind, update_users, commit. cbn. apply Hk. reflexivity. Qed.

Ltac settles_step :=
  first [ solve [apply settles_api] | solve [apply settles_ret] | solve [apply settles_raise]
        | solve [apply settles_approve_writes] | solve [apply settles_reject_writes]
        | solve [apply settles_credentials_writes]
        | solve [apply settles_insert_user]
        | solve [apply settles_button_reg_writes]
        | apply settles_insert_payment; intros ?
        | apply settles_update_users
        | solve [apply settles_frame; intros ?; split; reflexivity]
        | apply settles_bind; [|intros ?]
        | apply settles_try_except
        | apply settles_try_finally
        | match goal with
          | |- settles (match ?x with _ => _ end) => destruct x
          end ].

Lemma settles_handle ADMIN_ID u : settles (handle ADMIN_ID u).
Proof.
  destruct u as [m|m|m|q|m|m]; cbn [handle].
  - unfold start. repeat settles_step.
  - unfold help_menu_cmd. repeat settles_step.
  - unfold show_main_menu. repeat settles_step.
  - unfold button_handler, button_route, button_reg, button_select_account,
      button_approve, button_reject, button_finalize, approve_notifies, reject_notifies,
      help_menu_cmd, show_main_menu, py_int, or_raise.
    cbv zeta. repeat settles_step.
  - unfold handle_photo, or_raise. cbv zeta. repeat settles_step.
  - unfold handle_text, credentials_notifies. cbv zeta. repeat settles_step.
Qed.

(** X16. No handler leaves a statement uncommitted, whatever the update
    and whichever deliveries fail: when the connection had nothing
    uncommitted before a sequence of updates it has nothing uncommitted
    after it, so that the tables seen by the next handler are the
    committed ones.  Every write of a handler is followed by its
    [commit] with no call to the Bot API in between, and the statements
    that the driver refuses are refused before anything is written. *)
Theorem X16_nothing_uncommitted (ADMIN_ID : Z) (us : list Update) (w : World) :
  settled w -> settled (run_all ADMIN_ID us w).
Proof.
  unfold run_all. revert w. induction us as [|u us IH]; intros w H; cbn [fold_left].
  - exact H.
  - apply IH, settles_handle, H.
Qed.

Lemma X16_nothing_uncommitted_witness :
  let bob := mkTgUser 7 (Some "bob") (String "000" "Bob") in
  let us := [ ButtonPress (mkCallbackQuery bob "reg_x");
              ButtonPress (mkCallbackQuery bob (String.append "select_account:A" (String "000" "B")));
              ButtonPress (mkCallbackQuery bob "approve_reg_7_1") ] in
  let w := with_net [true; false; true; true; true; false] two_users_world in
  settled w /\
  durable (run_all 1 us w) = db (run_all 1 us w).
Proof.
  intros bob us w.
  assert (H : settled w) by reflexivity.
  split; [exact H|].
  exact (X16_nothing_uncommitted 1 us w H).
Defined.
